(** * Phockup: the file classification and placement pipeline

    A shallow embedding of [src/phockup.py] (class [Phockup]) and the
    properties of its placement pipeline: type classification, path
    planning, collision resolution, sidecar association and transfer.

    Strings are Rocq [string]s (sequences of 8-bit characters), the file
    system is a finite map from paths to contents plus a set of
    directories, and the effects of the program (file system calls and
    printed lines) are threaded through a state-and-exception monad that
    also records the calls in a trace. *)

From Stdlib Require Import ZArith Ascii Strings.Byte DecimalString DecimalNat.
From stdpp Require Import base gmap strings list fin_maps sorting.

Local Open Scope Z_scope.

(** ** Python string primitives *)

Module Py.

(** [len(s)] *)
Definition len (s : string) : Z := Z.of_nat (String.length s).

(** [s[:i]] for [0 <= i] *)
Fixpoint take (n : nat) (s : string) : string :=
  match n, s with
  | S n', String a r => String a (take n' r)
  | _, _ => ""
  end.

(** [s[i:]] for [0 <= i] *)
Fixpoint drop (n : nat) (s : string) : string :=
  match n, s with
  | S n', String _ r => drop n' r
  | _, _ => s
  end.

(** [s.rfind(c)] for a one-character needle: the highest index at which
    [c] occurs, [-1] when it does not occur. *)
Fixpoint rfind (c : ascii) (s : string) : Z :=
  match s with
  | "" => -1
  | String a r =>
      let i := rfind c r in
      if 0 <=? i then i + 1
      else if Ascii.eqb a c then 0 else -1
  end.

(** [s.endswith(suffix)] *)
Fixpoint endswith (s suffix : string) : bool :=
  if String.eqb s suffix then true
  else match s with
       | "" => false
       | String _ r => endswith r suffix
       end.

(** [s.startswith(prefix)] *)
Fixpoint startswith (s pre : string) : bool :=
  match pre, s with
  | "", _ => true
  | String a p', String b s' => Ascii.eqb a b && startswith s' p'
  | _, _ => false
  end.

(** [c in s] for a character *)
Fixpoint contains (c : ascii) (s : string) : bool :=
  match s with
  | "" => false
  | String a r => Ascii.eqb a c || contains c r
  end.

(** [s.lower()] on the ASCII letters; the other characters are kept. *)
Definition lower_char (a : ascii) : ascii :=
  let n := N_of_ascii a in
  if ((65 <=? n) && (n <=? 90))%N then ascii_of_N (n + 32) else a.

Fixpoint lower (s : string) : string :=
  match s with
  | "" => ""
  | String a r => String (lower_char a) (lower r)
  end.

(** ['%d' % n] *)
Definition str_of_nat (n : nat) : string :=
  NilEmpty.string_of_uint (Nat.to_uint n).

(** ['%0<w>d' % n]: decimal, padded on the left with zeros to width [w] *)
Fixpoint zeros (n : nat) : string :=
  match n with O => "" | S n' => String "0" (zeros n') end.

Definition zfill (w : nat) (n : nat) : string :=
  let d := str_of_nat n in
  zeros (w - String.length d) +:+ d.

(** [sep.join(parts)] *)
Fixpoint join (sep : string) (parts : list string) : string :=
  match parts with
  | [] => ""
  | [p] => p
  | p :: rest => p +:+ sep +:+ join sep rest
  end.

(** [''.join(parts)] *)
Definition concat (parts : list string) : string :=
  foldr String.app "" parts.

End Py.

(** ** [os.path] on a POSIX system *)

Module OsPath.

Definition sep : string := "/".

(** [os.path.basename(p)]: [p[p.rfind('/') + 1:]] *)
Definition basename (p : string) : string :=
  let i := Py.rfind "/" p + 1 in
  Py.drop (Z.to_nat i) p.

(** The inner loop of [genericpath._splitext]: is there a character
    other than the dot in [p[filenameIndex:dotIndex]]? *)
Fixpoint has_non_dot (n : nat) (s : string) : bool :=
  match n, s with
  | S n', String a r => negb (Ascii.eqb a ".") || has_non_dot n' r
  | _, _ => false
  end.

(** [os.path.splitext(p)]: the extension starts at the last dot of the
    last path component, unless that component has only leading dots
    before it. *)
Definition splitext (p : string) : string * string :=
  let sepIndex := Py.rfind "/" p in
  let dotIndex := Py.rfind "." p in
  if (sepIndex <? dotIndex)
     && has_non_dot (Z.to_nat (dotIndex - (sepIndex + 1)))
                    (Py.drop (Z.to_nat (sepIndex + 1)) p)
  then (Py.take (Z.to_nat dotIndex) p, Py.drop (Z.to_nat dotIndex) p)
  else (p, "").

(** [os.path.join(a, b)] for two components *)
Definition join (a b : string) : string :=
  if Py.startswith b "/" then b
  else if String.eqb a "" || Py.endswith a "/" then a +:+ b
  else a +:+ "/" +:+ b.

End OsPath.

(** ** The fragment of Python's [re] used by [get_file_type] *)

Module Re.

(** Patterns built from literal characters, [.], concatenation, [|],
    [*] and [+]. [RNone] (no string) only arises in derivatives. *)
Inductive regex : Type :=
| RNone
| REps
| RChar (c : ascii)
| RAny                      (* [.]: any character except a line feed *)
| RSeq (r1 r2 : regex)
| RAlt (r1 r2 : regex)
| RStar (r : regex)
| RPlus (r : regex).

Definition newline : ascii := "010"%char.

(** A literal run of characters. *)
Fixpoint lit (s : string) : regex :=
  match s with
  | "" => REps
  | String a r => RSeq (RChar a) (lit r)
  end.

Fixpoint nullable (r : regex) : bool :=
  match r with
  | RNone => false
  | REps => true
  | RChar _ => false
  | RAny => false
  | RSeq r1 r2 => nullable r1 && nullable r2
  | RAlt r1 r2 => nullable r1 || nullable r2
  | RStar _ => true
  | RPlus r => nullable r
  end.

Fixpoint deriv (a : ascii) (r : regex) : regex :=
  match r with
  | RNone => RNone
  | REps => RNone
  | RChar c => if Ascii.eqb c a then REps else RNone
  | RAny => if Ascii.eqb a newline then RNone else REps
  | RSeq r1 r2 =>
      if nullable r1
      then RAlt (RSeq (deriv a r1) r2) (deriv a r2)
      else RSeq (deriv a r1) r2
  | RAlt r1 r2 => RAlt (deriv a r1) (deriv a r2)
  | RStar r => RSeq (deriv a r) (RStar r)
  | RPlus r => RSeq (deriv a r) (RStar r)
  end.

(** Does the whole of [s] match [r]? *)
Fixpoint accepts (r : regex) (s : string) : bool :=
  match s with
  | "" => nullable r
  | String a s' => accepts (deriv a r) s'
  end.

(** [s] without its last character, when that one is a line feed. *)
Fixpoint chop_newline (s : string) : option string :=
  match s with
  | "" => None
  | String a "" => if Ascii.eqb a newline then Some "" else None
  | String a r => String a <$> chop_newline r
  end.

(** [re.compile('^(r)$').match(s)] is not [None]: the group matches from
    the start of [s], and [$] matches at the end of [s] or just before
    a line feed that ends [s]. *)
Definition match_anchored (r : regex) (s : string) : bool :=
  accepts r s ||
  match chop_newline s with
  | Some s' => accepts r s'
  | None => false
  end.

(** The strings a pattern denotes. *)
Inductive lang : regex → string → Prop :=
| LEps : lang REps ""
| LChar c : lang (RChar c) (String c "")
| LAny c : c ≠ newline → lang RAny (String c "")
| LSeq r1 r2 s1 s2 : lang r1 s1 → lang r2 s2 → lang (RSeq r1 r2) (s1 +:+ s2)
| LAltL r1 r2 s : lang r1 s → lang (RAlt r1 r2) s
| LAltR r1 r2 s : lang r2 s → lang (RAlt r1 r2) s
| LStarNil r : lang (RStar r) ""
| LStarCons r s1 s2 : lang r s1 → lang (RStar r) s2 → lang (RStar r) (s1 +:+ s2)
| LPlus r s1 s2 : lang r s1 → lang (RStar r) s2 → lang (RPlus r) (s1 +:+ s2).

End Re.

(** ** External collaborators

    [Exif], [Date] and [Printer] live in modules that are not part of
    these sources, and [hashlib], [datetime.strftime] and
    [os.path.expanduser] are library code. The pipeline is modelled over
    an arbitrary implementation of them. *)

(** A [datetime] value. *)
Record datetime : Type := {
  year : nat; month : nat; day : nat;
  hour : nat; minute : nat; second : nat
}.

(** [dt.date()]: the calendar day of [dt]. *)
Definition date_part (dt : datetime) : datetime :=
  {| year := year dt; month := month dt; day := day dt;
     hour := 0; minute := 0; second := 0 |}.

(** What [Date.from_exif] hands back when it found a date: the mapping
    [{'date': dt, 'subseconds': s}]. Every other value it can return
    ([None], or a mapping whose ['date'] is [None]) makes each use of
    [date['date']] in [phockup.py] raise, and is modelled by [None]. *)
Record DateDict : Type := { dd_date : datetime; dd_subseconds : string }.

Class Collaborators : Type := {
  (** [Exif(file).data()]: the metadata mapping, or [None] *)
  Exif_data : string → option (gmap string string);
  (** [Date(file).from_exif(exif_data, timestamp, date_regex, date_field)] *)
  Date_from_exif :
    string → gmap string string → bool → option string → option string →
    option DateDict;
  (** [d.strftime(format)] *)
  strftime : datetime → string → string;
  (** [hashlib.sha256(data).hexdigest()] *)
  sha256_hexdigest : list byte → string;
  (** [os.path.expanduser(path)] *)
  expanduser : string → string
}.

(** ** The file system and the effects of the program *)

Inductive exn : Type := FileNotFoundError | FileExistsError | SystemExit.

Global Instance exn_eq_dec : EqDecision exn.
Proof. solve_decision. Defined.

(** The outcome of a computation: a value, an exception that is
    propagating, or [OutOfFuel] when the bound put on the [while True]
    loop of [process_file] was reached. *)
Inductive result (A : Type) : Type :=
| Ok (a : A)
| Raised (e : exn)
| OutOfFuel.
Global Arguments Ok {A} a.
Global Arguments Raised {A} e.
Global Arguments OutOfFuel {A}.

(** The calls the program makes to the outside world. *)
Inductive call : Type :=
| Print (msg : string)              (* [printer.line] *)
| PrintError (msg : string)         (* [printer.error] *)
| IsDir (p : string)                (* [os.path.isdir] *)
| IsFile (p : string)               (* [os.path.isfile] *)
| Exists (p : string)               (* [os.path.exists] *)
| Open (p : string)                 (* [open(p, 'rb')] *)
| Makedirs (p : string)             (* [os.makedirs] *)
| Copy2 (src dst : string)          (* [shutil.copy2] *)
| Move (src dst : string)           (* [shutil.move] *)
| Link (src dst : string).          (* [os.link] *)

Global Instance call_eq_dec : EqDecision call.
Proof. solve_decision. Defined.

(** Regular files with their contents, the directories, and the calls
    made so far (oldest first). *)
Record World : Type := {
  files : gmap string (list byte);
  dirs : gset string;
  trace : list call
}.

Definition M (A : Type) : Type := World → result A * World.

Definition ret {A} (a : A) : M A := λ w, (Ok a, w).

Definition bind {A B} (m : M A) (k : A → M B) : M B :=
  λ w, match m w with
       | (Ok a, w') => k a w'
       | (Raised e, w') => (Raised e, w')
       | (OutOfFuel, w') => (OutOfFuel, w')
       end.

Definition raise {A} (e : exn) : M A := λ w, (Raised e, w).

Definition out_of_fuel {A} : M A := λ w, (OutOfFuel, w).

(** [try: m  except e: h] *)
Definition try_except {A} (m : M A) (e : exn) (h : M A) : M A :=
  λ w, match m w with
       | (Raised e', w') => if decide (e' = e) then h w' else (Raised e', w')
       | r => r
       end.

(** [try: m  except Exception: h]; [SystemExit] is not an [Exception]. *)
Definition try_except_Exception {A} (m : M A) (h : M A) : M A :=
  λ w, match m w with
       | (Raised e', w') =>
           if decide (e' = SystemExit) then (Raised e', w') else h w'
       | r => r
       end.

Notation "'let!' x ':=' m 'in' k" := (bind m (λ x, k))
  (at level 10, x pattern, m at level 100, k at level 200).
Notation "m ';;' k" := (bind m (λ _, k))
  (at level 100, k at level 200, right associativity).

Definition log (c : call) (w : World) : World :=
  {| files := files w; dirs := dirs w; trace := trace w ++ [c] |}.

Definition set_files (fs : gmap string (list byte)) (w : World) : World :=
  {| files := fs; dirs := dirs w; trace := trace w |}.

Definition add_dir (p : string) (w : World) : World :=
  {| files := files w; dirs := {[p]} ∪ dirs w; trace := trace w |}.

Definition isfile_in (w : World) (p : string) : bool :=
  bool_decide (is_Some (files w !! p)).

Definition isdir_in (w : World) (p : string) : bool :=
  bool_decide (p ∈ dirs w).

Global Arguments isfile_in : simpl never.
Global Arguments isdir_in : simpl never.

Module Os.

Definition path_isfile (p : string) : M bool :=
  λ w, (Ok (isfile_in w p), log (IsFile p) w).

Definition path_isdir (p : string) : M bool :=
  λ w, (Ok (isdir_in w p), log (IsDir p) w).

Definition path_exists (p : string) : M bool :=
  λ w, (Ok (isfile_in w p || isdir_in w p), log (Exists p) w).

(** [os.makedirs(p)] (without [exist_ok]): fails when [p] is there.
    The directories above [p] that it makes on the way are not kept
    track of. *)
Definition makedirs (p : string) : M unit :=
  λ w, let w := log (Makedirs p) w in
       if isfile_in w p || isdir_in w p then (Raised FileExistsError, w)
       else (Ok tt, add_dir p w).

(** [os.link(src, dst)]: a second name for the content of [src]. *)
Definition link (src dst : string) : M unit :=
  λ w, let w := log (Link src dst) w in
       match files w !! src with
       | None => (Raised FileNotFoundError, w)
       | Some c =>
           if isfile_in w dst || isdir_in w dst
           then (Raised FileExistsError, w)
           else (Ok tt, set_files (<[dst := c]> (files w)) w)
       end.

(** [open(p, 'rb')] and reading it to the end in blocks. *)
Definition open_rb (p : string) : M (list byte) :=
  λ w, let w := log (Open p) w in
       match files w !! p with
       | None => (Raised FileNotFoundError, w)
       | Some c => (Ok c, w)
       end.

End Os.

Module Shutil.

(** [shutil.copy2(src, dst)]: [dst] gets the content of [src], whether
    or not a file was there. Here and in [move], [dst] is taken to name
    no directory, and its parent to be there. *)
Definition copy2 (src dst : string) : M unit :=
  λ w, let w := log (Copy2 src dst) w in
       match files w !! src with
       | None => (Raised FileNotFoundError, w)
       | Some c => (Ok tt, set_files (<[dst := c]> (files w)) w)
       end.

(** [shutil.move(src, dst)]: as [copy2], and [src] is gone. *)
Definition move (src dst : string) : M unit :=
  λ w, let w := log (Move src dst) w in
       match files w !! src with
       | None => (Raised FileNotFoundError, w)
       | Some c => (Ok tt, set_files (<[dst := c]> (delete src (files w))) w)
       end.

End Shutil.

(** [Printer] is not among the sources. [line] prints (its second
    argument, which only says whether the line is ended, is left out);
    [error] prints and, as the docstring of [check_directories] says of
    it, exits the process. *)
Module Printer.

Definition line (msg : string) : M unit := λ w, (Ok tt, log (Print msg) w).

Definition error (msg : string) : M unit :=
  λ w, (Raised SystemExit, log (PrintError msg) w).

End Printer.

(** ** [class Phockup] *)

Definition dquote : string := String "034"%char "".

Definition ignored_files : list string := [".DS_Store"; "Thumbs.db"].

(** The attributes [__init__] sets on [self]. *)
Record Phockup : Type := {
  input : string;
  output : string;
  dir_format : string;
  move : bool;
  link : bool;
  original_filenames : bool;
  date_regex : option string;
  timestamp : bool;
  date_field : option string;
  dry_run : bool;
  file_type : option string;
  ignore_unknowns : option bool
}.

(** [str(x)] of a value that is a string or [None], as ['%s'] prints it. *)
Definition str_of_opt (x : option string) : string := default "None" x.

(** A dict whose keys keep their insertion order: [d[k] = v]. *)
Fixpoint dict_set (k v : string) (d : list (string * string)) : list (string * string) :=
  match d with
  | [] => [(k, v)]
  | (k', v') :: d' =>
      if String.eqb k' k then (k', v) :: d' else (k', v') :: dict_set k v d'
  end.

Section Pipeline.

Context `{Collaborators}.

(** [f.read(block_size)] until it returns [b'']: the blocks of [data].
    [fuel] bounds the number of reads; [S (length data)] is enough. *)
Fixpoint read_blocks (fuel : nat) (block_size : nat) (data : list byte) : list (list byte) :=
  match fuel with
  | O => []
  | S fuel' =>
      match take block_size data with
      | [] => []
      | block => block :: read_blocks fuel' block_size (drop block_size data)
      end
  end.

(** [checksum]: the bytes fed to the hash object are the blocks, in
    order. *)
Definition checksum (file : string) : M string :=
  let block_size := 65536%N in
  let! data := Os.open_rb file in
  let fed := foldl (λ acc block, acc ++ block) []
               (read_blocks (S (length data)) (N.to_nat block_size) data) in
  ret (sha256_hexdigest fed).

Definition patternImage : Re.regex :=
  Re.RAlt (Re.RSeq (Re.lit "image/") (Re.RPlus Re.RAny))
          (Re.RSeq (Re.lit "application/vnd")
             (Re.RSeq Re.RAny
                (Re.RSeq (Re.lit "adobe")
                   (Re.RSeq Re.RAny (Re.lit "photoshop"))))).

Definition patternVideo : Re.regex :=
  Re.RSeq (Re.lit "video/") (Re.RStar Re.RAny).

Definition get_file_type (mimetype : string) : option string :=
  if Re.match_anchored patternImage mimetype then Some "image"
  else if Re.match_anchored patternVideo mimetype then Some "video"
  else None.

Definition get_output_dir (self : Phockup) (date : option DateDict) : M string :=
  let path :=
    match date with
    | Some d => [output self; strftime (date_part (dd_date d)) (dir_format self)]
    | None => [output self; "unknown"]
    end in
  let fullpath := Py.join OsPath.sep path in
  let! isdir := Os.path_isdir fullpath in
  (if negb isdir && negb (dry_run self) then Os.makedirs fullpath else ret tt);;
  ret fullpath.

Definition get_file_name (self : Phockup) (file : string) (date : option DateDict) : string :=
  if original_filenames self then OsPath.basename file
  else
    match date with
    | Some d =>
        let dt := dd_date d in
        let filename :=
          [Py.zfill 4 (year dt); Py.zfill 2 (month dt); Py.zfill 2 (day dt);
           "-";
           Py.zfill 2 (hour dt); Py.zfill 2 (minute dt); Py.zfill 2 (second dt)] in
        let filename :=
          if String.eqb (dd_subseconds d) "" then filename
          else filename ++ [dd_subseconds d] in
        Py.concat filename +:+ snd (OsPath.splitext file)
    | None => OsPath.basename file
    end.

(** [exif_data['MIMEType']] when [exif_data and 'MIMEType' in exif_data] *)
Definition mime_type_of (file : string) : option string :=
  match Exif_data file with
  | Some exif_data => exif_data !! "MIMEType"
  | None => None
  end.

(** The type [get_file_name_and_path] finds for a file with that MIME
    type: [None] unless the type is there and [get_file_type] knows it. *)
Definition type_of_mime (mimetype : option string) : option string :=
  match mimetype with
  | Some mimetype => get_file_type mimetype
  | None => None
  end.

Definition file_type_of (file : string) : option string :=
  type_of_mime (mime_type_of file).

Definition get_file_name_and_path (self : Phockup) (file : string)
  : M (string * string * string * option string) :=
  let exif_data := Exif_data file in
  let target_file_type := file_type_of file in
  if bool_decide (target_file_type ∈ [Some "image"; Some "video"]) then
    let date := Date_from_exif file (default ∅ exif_data) (timestamp self)
                  (date_regex self) (date_field self) in
    let! output := get_output_dir self date in
    let target_file_name := get_file_name self file date in
    let target_file_name :=
      if negb (original_filenames self) then Py.lower target_file_name
      else target_file_name in
    let target_file_path := Py.join OsPath.sep [output; target_file_name] in
    ret (output, target_file_name, target_file_path, target_file_type)
  else
    let! output := get_output_dir self None in
    let target_file_name := OsPath.basename file in
    let target_file_path := Py.join OsPath.sep [output; target_file_name] in
    ret (output, target_file_name, target_file_path, target_file_type).

(** The mapping [xmp_files] that [process_xmp] builds, given which of
    the two candidate sidecars exist. *)
Definition xmp_files (file file_name : string) (suffix : nat)
    (with_ext_exists without_ext_exists : bool) : list (string * string) :=
  let xmp_original_with_ext := file +:+ ".xmp" in
  let xmp_original_without_ext := fst (OsPath.splitext file) +:+ ".xmp" in
  let suffix := if (1 <? suffix)%nat then "-" +:+ Py.str_of_nat suffix else "" in
  let d := [] in
  let d :=
    if with_ext_exists
    then dict_set xmp_original_with_ext (file_name +:+ suffix +:+ ".xmp") d
    else d in
  let d :=
    if without_ext_exists
    then dict_set xmp_original_without_ext
           (fst (OsPath.splitext file_name) +:+ suffix +:+ ".xmp") d
    else d in
  d.

(** The body of the [for] loop of [process_xmp]. *)
Fixpoint transfer_xmp (self : Phockup) (output : string)
    (items : list (string * string)) : M unit :=
  match items with
  | [] => ret tt
  | (original, target) :: rest =>
      let xmp_path := Py.join OsPath.sep [output; target] in
      Printer.line (original +:+ " => " +:+ xmp_path);;
      (if negb (dry_run self) then
         if move self then Shutil.move original xmp_path
         else if link self then Os.link original xmp_path
         else Shutil.copy2 original xmp_path
       else ret tt);;
      transfer_xmp self output rest
  end.

Definition process_xmp (self : Phockup) (file file_name : string)
    (suffix : nat) (output : string) : M unit :=
  let xmp_original_with_ext := file +:+ ".xmp" in
  let xmp_original_without_ext := fst (OsPath.splitext file) +:+ ".xmp" in
  let! e1 := Os.path_isfile xmp_original_with_ext in
  let! e2 := Os.path_isfile xmp_original_without_ext in
  transfer_xmp self output (xmp_files file file_name suffix e1 e2).

(** The transfer in the [else] branch of the loop of [process_file];
    [false] when the branch leaves the loop after a reported skip. *)
Definition transfer (self : Phockup) (file target_file : string) : M bool :=
  if negb (dry_run self) then
    if move self then
      try_except (Shutil.move file target_file;; ret true) FileNotFoundError
        (Printer.line " => skipped, no such file or directory";; ret false)
    else if link self then
      Os.link file target_file;; ret true
    else
      try_except (Shutil.copy2 file target_file;; ret true) FileNotFoundError
        (Printer.line " => skipped, no such file or directory";; ret false)
  else ret true.

(** [while True: ...] of [process_file], at most [fuel] iterations. *)
Fixpoint process_file_loop (fuel : nat) (self : Phockup) (file : string)
    (output target_file_name target_file_path : string)
    (target_file_type : option string)
    (suffix : nat) (target_file : string) : M unit :=
  match fuel with
  | O => out_of_fuel
  | S fuel' =>
      if bool_decide (file_type self ≠ target_file_type)
         && bool_decide (file_type self ≠ None)
      then
        Printer.line (" => skipped, file is " +:+ str_of_opt target_file_type
                      +:+ " but should be " +:+ str_of_opt (file_type self))
      else
        let! occupied := Os.path_isfile target_file in
        let next :=
          let suffix := S suffix in
          let target_split := OsPath.splitext target_file_path in
          let target_file :=
            fst target_split +:+ "-" +:+ Py.str_of_nat suffix +:+ snd target_split in
          process_file_loop fuel' self file output target_file_name
            target_file_path target_file_type suffix target_file in
        if occupied then
          let! c1 := checksum file in
          let! c2 := checksum target_file in
          if String.eqb c1 c2 then
            Printer.line (" => skipped, duplicated file " +:+ target_file)
          else next
        else
          let! done := transfer self file target_file in
          if done then
            Printer.line (" => " +:+ target_file);;
            process_xmp self file target_file_name suffix output
          else ret tt
  end.

Definition process_file (fuel : nat) (self : Phockup) (file : string) : M unit :=
  if Py.endswith file ".xmp" then ret tt
  else
    Printer.line file;;
    let! planned := get_file_name_and_path self file in
    let '(output, target_file_name, target_file_path, target_file_type) :=
      planned in
    let suffix := 1%nat in
    let target_file := target_file_path in
    process_file_loop fuel self file output target_file_name target_file_path
      target_file_type suffix target_file.

Definition check_directories (self : Phockup) : M unit :=
  let! isdir := Os.path_isdir (input self) in
  let! missing :=
    (if negb isdir then ret true
     else let! e := Os.path_exists (input self) in ret (negb e)) in
  if (missing : bool) then
    Printer.error ("Input directory " +:+ dquote +:+ input self +:+ dquote
                   +:+ " does not exist or cannot be accessed")
  else
    let! e := Os.path_exists (output self) in
    if negb e then
      Printer.line ("Output directory " +:+ dquote +:+ output self +:+ dquote
                    +:+ " does not exist, creating now");;
      try_except_Exception
        (if negb (dry_run self) then Os.makedirs (output self) else ret tt)
        (Printer.error "Cannot create output directory. No write access!")
    else ret tt.

(** The files of one directory, in the order they are processed. *)
Definition files_in (root : string) (filenames : list string) : list string :=
  OsPath.join root <$>
    filter (λ filename, filename ∉ ignored_files) (merge_sort String.le filenames).

(** Every file in turn; an exception ends the loop. *)
Fixpoint process_files (fuel : nat) (self : Phockup) (paths : list string) : M unit :=
  match paths with
  | [] => ret tt
  | file :: rest => process_file fuel self file;; process_files fuel self rest
  end.

(** [walk] is what [os.walk(self.input)] yields: each directory with
    the names of its files. *)
(** The files of the whole walk, in the order they are processed. *)
Definition walked_paths (walk : list (string * list string)) : list string :=
  concat ((λ entry, files_in (fst entry) (snd entry)) <$> walk).

Definition walk_directory (fuel : nat) (self : Phockup)
    (walk : list (string * list string)) : M unit :=
  process_files fuel self (walked_paths walk).

Definition strip_sep (p : string) : string :=
  if Py.endswith p OsPath.sep
  then Py.take (String.length p - 1)%nat p else p.

(** [Phockup(input, output, **args)]: [args] holds the keyword arguments
    with their defaults filled in. *)
Definition init (fuel : nat) (input_arg output_arg : string) (args : Phockup)
    (walk : list (string * list string)) : M unit :=
  let self :=
    {| input := strip_sep (expanduser input_arg);
       output := strip_sep (expanduser output_arg);
       dir_format := dir_format args; move := move args; link := link args;
       original_filenames := original_filenames args;
       date_regex := date_regex args; timestamp := timestamp args;
       date_field := date_field args; dry_run := dry_run args;
       file_type := file_type args; ignore_unknowns := ignore_unknowns args |} in
  check_directories self;;
  walk_directory fuel self walk.

End Pipeline.

(** ** The plan of a file, without its effects *)

Section Planning.

Context `{Collaborators}.

(** [fullpath] of [get_output_dir] *)
Definition output_dir_path (self : Phockup) (date : option DateDict) : string :=
  Py.join OsPath.sep
    match date with
    | Some d => [output self; strftime (date_part (dd_date d)) (dir_format self)]
    | None => [output self; "unknown"]
    end.

(** The date [get_file_name_and_path] asks [Date] for. *)
Definition resolved_date (self : Phockup) (file : string) : option DateDict :=
  Date_from_exif file (default ∅ (Exif_data file)) (timestamp self)
    (date_regex self) (date_field self).

(** The directory [get_file_name_and_path] plans for [file]. *)
Definition planned_dir (self : Phockup) (file : string) : string :=
  if bool_decide (file_type_of file ∈ [Some "image"; Some "video"])
  then output_dir_path self (resolved_date self file)
  else output_dir_path self None.

(** The file name it plans. *)
Definition planned_name (self : Phockup) (file : string) : string :=
  if bool_decide (file_type_of file ∈ [Some "image"; Some "video"])
  then
    let name := get_file_name self file (resolved_date self file) in
    if negb (original_filenames self) then Py.lower name else name
  else OsPath.basename file.

(** The canonical (unsuffixed) destination path. *)
Definition planned_path (self : Phockup) (file : string) : string :=
  Py.join OsPath.sep [planned_dir self file; planned_name self file].

(** The candidate the loop of [process_file] probes when its counter is
    [suffix]. *)
Definition candidate (target_file_path : string) (suffix : nat) : string :=
  if (suffix <=? 1)%nat then target_file_path
  else fst (OsPath.splitext target_file_path) +:+ "-" +:+ Py.str_of_nat suffix
       +:+ snd (OsPath.splitext target_file_path).

(** Does the type filter let [file] through? *)
Definition filter_rejects (self : Phockup) (target_file_type : option string) : bool :=
  bool_decide (file_type self ≠ target_file_type)
  && bool_decide (file_type self ≠ None).

(** The digest [checksum] computes for the file at [p], if there is one. *)
Definition digest_at (w : World) (p : string) : option string :=
  sha256_hexdigest <$> files w !! p.

End Planning.

(** ** The classification the specification describes

    [image/*] or the vendor photoshop type is an image, [video/*] is a
    video, everything else, an absent MIME type included, is unknown;
    prefixes are compared exactly. *)

Inductive FileTypeClass : Type := image | video | unknown.

Definition class_of (t : option string) : FileTypeClass :=
  match t with
  | Some t =>
      if String.eqb t "image" then image
      else if String.eqb t "video" then video else unknown
  | None => unknown
  end.

Definition photoshop : string := "application/vnd.adobe.photoshop".

Definition spec_classify (mimetype : option string) : FileTypeClass :=
  match mimetype with
  | None => unknown
  | Some m =>
      if Py.startswith m "image/" || String.eqb m photoshop then image
      else if Py.startswith m "video/" then video
      else unknown
  end.

(** The same, with [image/] followed by at least one character. *)
Definition classify_nonempty_subtype (mimetype : option string) : FileTypeClass :=
  match mimetype with
  | None => unknown
  | Some m =>
      if (Py.startswith m "image/" && negb (String.eqb m "image/"))
         || String.eqb m photoshop then image
      else if Py.startswith m "video/" then video
      else unknown
  end.

(** A string that is the photoshop type but for the characters at its two
    dots. *)
Definition photoshop_variant (m : string) : Prop :=
  ∃ a b : ascii,
    m = "application/vnd" +:+ String a ("adobe" +:+ String b "photoshop")
    ∧ m ≠ photoshop.

(** ** Notions used in the statements *)

(** Two worlds with the same files and directories. *)
Definition same_fs (w w' : World) : Prop :=
  files w = files w' ∧ dirs w = dirs w'.

(** The calls of [t] appended to the trace. *)
Definition logs (t : list call) (w : World) : World :=
  {| files := files w; dirs := dirs w; trace := trace w ++ t |}.

(** Calls that change nothing on disk. *)
Definition readonly (c : call) : bool :=
  match c with
  | Makedirs _ | Copy2 _ _ | Move _ _ | Link _ _ => false
  | _ => true
  end.

(** A computation that only adds read-only calls to the trace. *)
Definition quiet {A} (m : M A) : Prop :=
  ∀ w, ∃ t, snd (m w) = logs t w ∧ Forall (λ c, readonly c = true) t.

(** A computation that comes to an end. *)
Definition ends {A} (m : M A) : Prop := ∀ w, fst (m w) ≠ OutOfFuel.

(** The world [get_output_dir] leaves when it returns [d]. *)
Definition ensure_dir (self : Phockup) (d : string) (w : World) : World :=
  if isdir_in w d || dry_run self then log (IsDir d) w
  else add_dir d (log (Makedirs d) (log (IsDir d) w)).

(** The directory is there, or will not be made, or can be made. *)
Definition dir_ready (self : Phockup) (w : World) (d : string) : bool :=
  isdir_in w d || dry_run self || negb (isfile_in w d).

Definition skipped_wrong_type (self : Phockup) (ty : option string) : string :=
  " => skipped, file is " +:+ str_of_opt ty
  +:+ " but should be " +:+ str_of_opt (file_type self).

Definition no_such_file : string := " => skipped, no such file or directory".

Definition duplicated_line (p : string) : string :=
  " => skipped, duplicated file " +:+ p.

(** What one comparison of [file] with the file at [p] adds to the trace. *)
Definition probe_calls (file p : string) : list call :=
  [IsFile p; Open file; Open p].

(** The world after the loop has compared [file] with the file at [p]. *)
Definition probed (file p : string) (w : World) : World :=
  log (Open p) (log (Open file) (log (IsFile p) w)).

(** ... and with each of [ps] in turn. *)
Definition probe_all (file : string) (ps : list string) (w : World) : World :=
  foldl (λ w p, probed file p w) w ps.

Section Candidates.

Context `{Collaborators}.

(** The candidate [p] holds a file whose digest differs from that of
    [file]: the loop goes on to the next candidate. *)
Definition blocked (w : World) (file p : string) : bool :=
  match digest_at w file, digest_at w p with
  | Some d, Some d' => negb (String.eqb d d')
  | _, _ => false
  end.

(** The candidate [p] holds a file with the digest of [file]. *)
Definition duplicate (w : World) (file p : string) : bool :=
  match digest_at w file, digest_at w p with
  | Some d, Some d' => String.eqb d d'
  | _, _ => false
  end.

End Candidates.

(** [w'] has the directories of [w] and still holds, with the same
    content, every file of [w] that is no sidecar (and, when the pipeline
    moves files, is not [file]); unless it moves files, every path that
    holds a file in [w] holds one in [w']. *)
Definition untouched (self : Phockup) (file : string) (w w' : World) : Prop :=
  dirs w ⊆ dirs w'
  ∧ (∀ p c, Py.endswith p ".xmp" = false → (move self = false ∨ p ≠ file) →
            files w !! p = Some c → files w' !! p = Some c)
  ∧ (move self = false → ∀ p, is_Some (files w !! p) → is_Some (files w' !! p)).

(** [w'] has the directories of [w], every file of [w] that is no
    sidecar with its content, and a file wherever [w] has one. *)
Definition grows (w w' : World) : Prop :=
  dirs w ⊆ dirs w'
  ∧ (∀ p c, Py.endswith p ".xmp" = false → files w !! p = Some c → files w' !! p = Some c)
  ∧ (∀ p, is_Some (files w !! p) → is_Some (files w' !! p)).

(** An entry of the mapping of [process_xmp]: from a sidecar to a name
    that ends in [.xmp]. *)
Definition sidecar_item (item : string * string) : Prop :=
  Py.endswith item.1 ".xmp" = true ∧ ∃ stem, item.2 = stem +:+ ".xmp".

(** [self] with another value for the [link] attribute. *)
Definition set_link (b : bool) (self : Phockup) : Phockup :=
  {| input := input self; output := output self;
     dir_format := dir_format self; move := move self; link := b;
     original_filenames := original_filenames self;
     date_regex := date_regex self; timestamp := timestamp self;
     date_field := date_field self; dry_run := dry_run self;
     file_type := file_type self; ignore_unknowns := ignore_unknowns self |}.

(** Whatever differs between [w] and [w'] is at or below [out]: a path
    holds in [w'] what it held in [w], or it starts with [out/], or, when
    [mv] is set, it holds no file any more; and a directory of [w'] was
    one in [w], or is [out], or starts with [out/]. *)
Definition confined (out : string) (mv : bool) (w w' : World) : Prop :=
  (∀ p, files w' !! p = files w !! p
        ∨ Py.startswith p (out +:+ "/") = true
        ∨ (mv = true ∧ files w' !! p = None))
  ∧ (∀ p, p ∈ dirs w' →
          p ∈ dirs w ∨ p = out ∨ Py.startswith p (out +:+ "/") = true).

(** ** A concrete set of collaborators, for the examples *)

Module Demo.

Definition when : DateDict :=
  {| dd_date := {| year := 2021; month := 6; day := 15;
                   hour := 10; minute := 20; second := 30 |};
     dd_subseconds := "" |}.

Definition meta (mimetype : string) : gmap string string :=
  {[ "MIMEType" := mimetype; "CreateDate" := "2021:06:15 10:20:30" ]}.

(** Metadata by extension; [.XMP] stands for a picture that was given
    that name, [.GIF] files carry no date, [.txt] files are no media,
    anything else has no metadata at all. *)
Definition exif (file : string) : option (gmap string string) :=
  if Py.endswith file ".JPG" || Py.endswith file ".XMP" then Some (meta "image/jpeg")
  else if Py.endswith file ".CR2" then Some (meta "image/x-canon-cr2")
  else if Py.endswith file ".MP4" then Some (meta "video/mp4")
  else if Py.endswith file ".GIF" then Some {[ "MIMEType" := "image/gif" ]}
  else if Py.endswith file ".txt" then Some {[ "MIMEType" := "text/plain" ]}
  else None.

Definition from_exif (file : string) (exif_data : gmap string string)
    (timestamp : bool) (date_regex date_field : option string) : option DateDict :=
  match exif_data !! "CreateDate" with
  | Some _ => Some when
  | None => None
  end.

(** [%Y], [%m] and [%d]; everything else is copied. *)
Fixpoint format_date (d : datetime) (fmt : string) : string :=
  match fmt with
  | String "%" (String c r) =>
      (if Ascii.eqb c "Y" then Py.zfill 4 (year d)
       else if Ascii.eqb c "m" then Py.zfill 2 (month d)
       else if Ascii.eqb c "d" then Py.zfill 2 (day d)
       else String "%" (String c ""))
      +:+ format_date d r
  | String a r => String a (format_date d r)
  | "" => ""
  end.

(** A stand-in for the digest that tells all contents apart. *)
Definition digest (data : list byte) : string := String.string_of_list_byte data.

Definition collaborators : Collaborators :=
  {| Exif_data := exif;
     Date_from_exif := from_exif;
     strftime := format_date;
     sha256_hexdigest := digest;
     expanduser := λ p, p |}.

Definition bytes (s : string) : list byte := String.list_byte_of_string s.

(** [Phockup('in', 'out')] with the defaults of [__init__]. *)
Definition defaults : Phockup :=
  {| input := "in"; output := "out";
     dir_format := Py.join OsPath.sep ["%Y"; "%m"; "%d"];
     move := false; link := false; original_filenames := false;
     date_regex := None; timestamp := false; date_field := None;
     dry_run := false; file_type := None; ignore_unknowns := None |}.

Definition with_mode (mv ln dry : bool) (ft : option string) : Phockup :=
  {| input := "in"; output := "out";
     dir_format := Py.join OsPath.sep ["%Y"; "%m"; "%d"];
     move := mv; link := ln; original_filenames := false;
     date_regex := None; timestamp := false; date_field := None;
     dry_run := dry; file_type := ft; ignore_unknowns := None |}.

Definition world (fs : list (string * list byte)) (ds : list string) : World :=
  {| files := list_to_map fs; dirs := list_to_set ds; trace := [] |}.


(** One picture. *)
Definition media : World :=
  world [("in/IMG_0001.JPG", bytes "jpeg")] ["in"; "out"].

(** A raw file with its sidecar, and an output that already has another
    file under the name the raw file is planned under. *)
Definition taken : World :=
  world [("in/DSC001.CR2", bytes "raw");
         ("in/DSC001.CR2.xmp", bytes "edits");
         ("out/2021/06/15/20210615-102030.cr2", bytes "another")]
        ["in"; "out"; "out/2021/06/15"].

(** Two pictures taken in the same second, each with a sidecar named
    after its stem. *)
Definition pair : World :=
  world [("in/a.CR2", bytes "raw"); ("in/a.xmp", bytes "edits of a");
         ("in/b.JPG", bytes "jpeg"); ("in/b.xmp", bytes "edits of b")]
        ["in"; "out"].

(** Two different pictures that are planned under one name. *)
Definition clash : World :=
  world [("in/a/IMG.JPG", bytes "first"); ("in/b/IMG.JPG", bytes "second")]
        ["in"; "out"].

(** A picture whose name ends in [.XMP], next to a sidecar. *)
Definition renamed : World :=
  world [("in/IMG.XMP", bytes "jpeg"); ("in/IMG.xmp", bytes "edits")]
        ["in"; "out"].

(** A picture and a text file. *)
Definition mixed : World :=
  world [("in/IMG_0001.JPG", bytes "jpeg"); ("in/notes.txt", bytes "hello")]
        ["in"; "out"].

End Demo.

(** * Properties *)

(** ** Strings *)

Section StringFacts.

Implicit Types s t u : string.

Lemma str_app_nil_l s : "" +:+ s = s.
Proof. reflexivity. Qed.

Lemma str_app_cons a s t : String a s +:+ t = String a (s +:+ t).
Proof. reflexivity. Qed.

Lemma str_app_nil_r s : s +:+ "" = s.
Proof. induction s as [|a s IH]; [done|]. by rewrite str_app_cons, IH. Qed.

Lemma str_app_assoc s t u : (s +:+ t) +:+ u = s +:+ t +:+ u.
Proof. induction s as [|a s IH]; [done|]. by rewrite !str_app_cons, IH. Qed.

Lemma str_length_app s t : String.length (s +:+ t) = (String.length s + String.length t)%nat.
Proof. induction s as [|a s IH]; [done|]. rewrite str_app_cons. simpl. by rewrite IH. Qed.

Lemma str_app_eq_nil s t : s +:+ t = "" → s = "" ∧ t = "".
Proof. destruct s; [done|]. by rewrite str_app_cons. Qed.

Lemma str_app_eq_cons s t a u :
  s +:+ t = String a u →
  (s = "" ∧ t = String a u) ∨ (∃ s', s = String a s' ∧ u = s' +:+ t).
Proof.
  destruct s as [|b s]; [by left|].
  rewrite str_app_cons. intros [= -> <-]. right. eauto.
Qed.

Lemma str_app_inv_tail s t u : s +:+ u = t +:+ u → s = t.
Proof.
  revert t. induction s as [|a s IH]; intros [|b t] Heq; [done| | |].
  - apply (f_equal String.length) in Heq.
    rewrite str_app_nil_l, str_app_cons in Heq. simpl in Heq.
    rewrite str_length_app in Heq. lia.
  - apply (f_equal String.length) in Heq.
    rewrite str_app_nil_l, str_app_cons in Heq. simpl in Heq.
    rewrite str_length_app in Heq. lia.
  - rewrite !str_app_cons in Heq. injection Heq as -> Heq. f_equal. by apply IH.
Qed.

End StringFacts.

Module ReFacts.
Import Re.

Lemma nullable_lang r : nullable r = true ↔ lang r "".
Proof.
  split.
  - induction r; simpl; intros Hn; try done.
    + constructor.
    + apply andb_prop in Hn as [H1 H2].
      change "" with ("" +:+ ""). constructor; auto.
    + apply orb_prop in Hn as [Hn|Hn]; [apply LAltL|apply LAltR]; auto.
    + constructor.
    + change "" with ("" +:+ ""). constructor; [auto|constructor].
  - intros Hl. remember "" as s eqn:Hs.
    induction Hl; simpl; try done.
    + apply str_app_eq_nil in Hs as [-> ->]. by rewrite IHHl1, IHHl2.
    + by rewrite IHHl.
    + rewrite IHHl; [|done]. by rewrite orb_true_r.
    + apply str_app_eq_nil in Hs as [-> ->]. auto.
Qed.

(** A non-empty string of [r*] starts with a non-empty string of [r]. *)
Lemma star_cons_inv r a s :
  lang (RStar r) (String a s) →
  ∃ s1 s2, s = s1 +:+ s2 ∧ lang r (String a s1) ∧ lang (RStar r) s2.
Proof.
  intros Hl. remember (RStar r) as r' eqn:Hr. remember (String a s) as s' eqn:Hs.
  revert a s Hs. induction Hl as [| | | | | | |r0 s1 s2 Hl1 _ Hl2 IH2|];
    intros b u Hs; try done.
  injection Hr as ->.
  apply str_app_eq_cons in Hs as [[-> ->]|(s1' & -> & ->)]; [by eapply IH2|].
  eauto.
Qed.

Lemma lang_seq r1 r2 s :
  lang (RSeq r1 r2) s ↔ ∃ s1 s2, s = s1 +:+ s2 ∧ lang r1 s1 ∧ lang r2 s2.
Proof.
  split; [inversion 1; subst; eauto|].
  intros (s1 & s2 & -> & H1 & H2). by constructor.
Qed.

Lemma lang_alt r1 r2 s : lang (RAlt r1 r2) s ↔ lang r1 s ∨ lang r2 s.
Proof.
  split; [inversion 1; subst; eauto|].
  intros [H1|H2]; [by apply LAltL|by apply LAltR].
Qed.

Lemma lang_plus r s :
  lang (RPlus r) s ↔ ∃ s1 s2, s = s1 +:+ s2 ∧ lang r s1 ∧ lang (RStar r) s2.
Proof.
  split; [inversion 1; subst; eauto|].
  intros (s1 & s2 & -> & H1 & H2). by constructor.
Qed.

Lemma lang_eps s : lang REps s ↔ s = "".
Proof. split; [by inversion 1|intros ->; constructor]. Qed.

Lemma lang_char c s : lang (RChar c) s ↔ s = String c "".
Proof. split; [by inversion 1|intros ->; constructor]. Qed.

Lemma lang_any s : lang RAny s ↔ ∃ c, c ≠ newline ∧ s = String c "".
Proof.
  split; [inversion 1; subst; eauto|].
  intros (c & Hc & ->). by constructor.
Qed.

Lemma lang_none s : ¬ lang RNone s.
Proof. inversion 1. Qed.

Lemma deriv_lang a r s : lang (deriv a r) s ↔ lang r (String a s).
Proof.
  revert s. induction r as [| | | |r1 IH1 r2 IH2|r1 IH1 r2 IH2|r IH|r IH];
    intros s; simpl.
  - split; intros Hl; by apply lang_none in Hl.
  - rewrite lang_eps. split; [intros Hl; by apply lang_none in Hl|done].
  - rewrite lang_char.
    destruct (Ascii.eqb_spec c a) as [->|Hne].
    + rewrite lang_eps. split; [by intros ->|by intros [= ->]].
    + split; [intros Hl; by apply lang_none in Hl|by intros [= ? ?]].
  - rewrite lang_any.
    destruct (Ascii.eqb_spec a newline) as [->|Hne].
    + split; [intros Hl; by apply lang_none in Hl|by intros (c & Hc & [= <- ?])].
    + rewrite lang_eps. split; [intros ->; eauto|by intros (c & Hc & [= <- ?])].
  - assert (Hseq : lang (RSeq (deriv a r1) r2) s ↔
              ∃ s1 s2, String a s = String a s1 +:+ s2
                       ∧ lang r1 (String a s1) ∧ lang r2 s2).
    { rewrite lang_seq. split.
      - intros (s1 & s2 & -> & H1 & H2). exists s1, s2. by rewrite <- IH1.
      - intros (s1 & s2 & [= ->] & H1 & H2). exists s1, s2. by rewrite IH1. }
    rewrite (lang_seq r1 r2).
    destruct (nullable r1) eqn:Hn.
    + rewrite lang_alt, Hseq, IH2. split.
      * intros [(s1 & s2 & Heq & H1 & H2)|H2]; [by eauto|].
        exists "", (String a s). split; [done|]. split; [by apply nullable_lang|done].
      * intros (s1 & s2 & Heq & H1 & H2). symmetry in Heq.
        apply str_app_eq_cons in Heq as [[-> ->]|(s1' & -> & ->)]; [by right|].
        left. by exists s1', s2.
    + rewrite Hseq. split.
      * intros (s1 & s2 & Heq & H1 & H2). eauto.
      * intros (s1 & s2 & Heq & H1 & H2). symmetry in Heq.
        apply str_app_eq_cons in Heq as [[-> ->]|(s1' & -> & ->)].
        -- apply nullable_lang in H1. congruence.
        -- by exists s1', s2.
  - rewrite !lang_alt, IH1, IH2. done.
  - rewrite lang_seq. split.
    + intros (s1 & s2 & -> & H1 & H2). rewrite <- str_app_cons.
      constructor; [by apply IH|done].
    + intros (s1 & s2 & -> & H1 & H2)%star_cons_inv.
      exists s1, s2. by rewrite IH.
  - rewrite lang_seq, lang_plus. split.
    + intros (s1 & s2 & -> & H1 & H2). exists (String a s1), s2. by rewrite <- IH.
    + intros (s1 & s2 & Heq & H1 & H2). symmetry in Heq.
      apply str_app_eq_cons in Heq as [[-> ->]|(s1' & -> & ->)].
      * apply star_cons_inv in H2 as (t1 & t2 & -> & Ht1 & Ht2).
        exists t1, t2. by rewrite IH.
      * exists s1', s2. by rewrite IH.
Qed.

Theorem accepts_lang r s : accepts r s = true ↔ lang r s.
Proof.
  revert r. induction s as [|a s IH]; intros r; simpl.
  - apply nullable_lang.
  - rewrite IH. apply deriv_lang.
Qed.
Lemma lang_lit l s : lang (lit l) s ↔ s = l.
Proof.
  revert s. induction l as [|a l IH]; intros s; simpl.
  - apply lang_eps.
  - rewrite lang_seq. split.
    + intros (s1 & s2 & -> & ->%lang_char & ->%IH). done.
    + intros ->. exists (String a ""), l. by rewrite lang_char, IH.
Qed.

Lemma lang_lit_seq l r s : lang (RSeq (lit l) r) s ↔ ∃ t, s = l +:+ t ∧ lang r t.
Proof.
  rewrite lang_seq. split.
  - intros (s1 & s2 & -> & ->%lang_lit & H2). eauto.
  - intros (t & -> & Ht). exists l, t. by rewrite lang_lit.
Qed.

Lemma lang_any_seq r s :
  lang (RSeq RAny r) s ↔ ∃ a t, a ≠ newline ∧ s = String a t ∧ lang r t.
Proof.
  rewrite lang_seq. split.
  - intros (s1 & s2 & -> & (c & Hc & ->)%lang_any & H2). by exists c, s2.
  - intros (a & t & Ha & -> & Ht). exists (String a ""), t.
    rewrite lang_any. eauto.
Qed.

Lemma lang_star_any s : lang (RStar RAny) s ↔ Py.contains newline s = false.
Proof.
  split.
  - intros Hl. remember (RStar RAny) as r eqn:Hr.
    induction Hl as [| | | | | | |r0 s1 s2 Hl1 _ Hl2 IH2|]; try done.
    injection Hr as ->. apply lang_any in Hl1 as (c & Hc & ->).
    rewrite str_app_cons, str_app_nil_l. simpl.
    destruct (Ascii.eqb_spec c newline); [done|]. by apply IH2.
  - induction s as [|a s IH]; simpl; [constructor|].
    destruct (Ascii.eqb_spec a newline) as [|Hne]; [done|]. simpl. intros Hs.
    change (String a s) with (String a "" +:+ s).
    constructor; [by constructor|auto].
Qed.

Lemma lang_plus_any s :
  lang (RPlus RAny) s ↔ s ≠ "" ∧ Py.contains newline s = false.
Proof.
  rewrite lang_plus. split.
  - intros (s1 & s2 & -> & (c & Hc & ->)%lang_any & H2%lang_star_any).
    rewrite str_app_cons, str_app_nil_l. split; [done|]. simpl.
    by destruct (Ascii.eqb_spec c newline).
  - intros [Hne Hs]. destruct s as [|a s]; [done|]. simpl in Hs.
    destruct (Ascii.eqb_spec a newline) as [|Ha]; [done|].
    exists (String a ""), s. rewrite lang_any, lang_star_any. eauto.
Qed.

Lemma chop_newline_None s : Py.contains newline s = false → chop_newline s = None.
Proof.
  induction s as [|a s IH]; [done|]. simpl.
  destruct (Ascii.eqb_spec a newline) as [|Ha]; [done|]. simpl. intros Hs.
  destruct s; [done|]. by rewrite IH.
Qed.

Lemma match_anchored_lang r s :
  Py.contains newline s = false → match_anchored r s = true ↔ lang r s.
Proof.
  intros Hs. unfold match_anchored. rewrite chop_newline_None by done.
  rewrite orb_false_r. apply accepts_lang.
Qed.

Lemma startswith_app s p : Py.startswith s p = true ↔ ∃ t, s = p +:+ t.
Proof.
  revert s. induction p as [|a p IH]; intros s; simpl.
  - split; [eauto|by destruct s].
  - destruct s as [|b s].
    + split; [done|]. intros (t & Ht). by rewrite str_app_cons in Ht.
    + simpl. rewrite andb_true_iff, IH. split.
      * intros [->%Ascii.eqb_eq (t & ->)]. by exists t.
      * intros (t & Ht). rewrite str_app_cons in Ht. injection Ht as -> ->.
        split; [apply Ascii.eqb_refl|eauto].
Qed.

Lemma contains_app c s t :
  Py.contains c (s +:+ t) = Py.contains c s || Py.contains c t.
Proof.
  induction s as [|a s IH]; [done|]. rewrite str_app_cons. simpl.
  by rewrite IH, orb_assoc.
Qed.


End ReFacts.

(** ** Type classification *)

Section Classify.

Import Re ReFacts.

Lemma or_iff_compat (A B C D : Prop) : (A ↔ B) → (C ↔ D) → (A ∨ C) ↔ (B ∨ D).
Proof. tauto. Qed.

Lemma image_match m :
  Py.contains newline m = false →
  match_anchored patternImage m = true ↔
    (∃ t, t ≠ "" ∧ m = "image/" +:+ t)
    ∨ (∃ a b, m = "application/vnd" +:+ String a ("adobe" +:+ String b "photoshop")).
Proof.
  intros Hm. rewrite match_anchored_lang by done.
  unfold patternImage. rewrite lang_alt. apply or_iff_compat.
  - rewrite lang_lit_seq. split.
    + intros (t & -> & [Hne _]%lang_plus_any). eauto.
    + intros (t & Hne & ->). exists t. split; [done|].
      apply lang_plus_any. split; [done|].
      rewrite contains_app in Hm. by apply orb_false_elim in Hm as [_ ?].
  - rewrite lang_lit_seq. split.
    + intros (t & -> & (a & t1 & Ha & -> & Ht1)%lang_any_seq).
      apply lang_lit_seq in Ht1 as (t2 & -> & (b & t3 & Hb & -> & ->%lang_lit)%lang_any_seq).
      eauto.
    + intros (a & b & ->).
      rewrite !contains_app in Hm. simpl in Hm.
      destruct (Ascii.eqb_spec a newline) as [|Ha]; [done|].
      destruct (Ascii.eqb_spec b newline) as [|Hb]; [done|].
      eexists. split; [done|]. apply lang_any_seq.
      eexists _, _. split; [exact Ha|]. split; [done|].
      apply lang_lit_seq. eexists. split; [done|]. apply lang_any_seq.
      eexists _, _. split; [exact Hb|]. split; [done|]. by apply lang_lit.
Qed.

Lemma video_match m :
  Py.contains newline m = false →
  match_anchored patternVideo m = Py.startswith m "video/".
Proof.
  intros Hm. apply Bool.eq_iff_eq_true.
  rewrite match_anchored_lang by done.
  unfold patternVideo. rewrite lang_lit_seq, startswith_app. split.
  - intros (t & -> & _). eauto.
  - intros (t & ->). exists t. split; [done|]. apply lang_star_any.
    rewrite contains_app in Hm. by apply orb_false_elim in Hm as [_ ?].
Qed.

Lemma image_match_bool m :
  Py.contains newline m = false →
  ¬ photoshop_variant m →
  match_anchored patternImage m
  = (Py.startswith m "image/" && negb (String.eqb m "image/"))
    || String.eqb m photoshop.
Proof.
  intros Hm Hv. apply Bool.eq_iff_eq_true.
  rewrite image_match by done.
  rewrite orb_true_iff, andb_true_iff, negb_true_iff, startswith_app,
    String.eqb_neq, String.eqb_eq.
  apply or_iff_compat.
  - split.
    + intros (t & Hne & ->). split; [eauto|].
      intros Heq. apply Hne.
      change "image/" with ("image/" +:+ "") in Heq at 2.
      by apply String.app_inj in Heq.
    + intros [(t & ->) Hne]. exists t. split; [|done].
      intros ->. by rewrite str_app_nil_r in Hne.
  - split.
    + intros (a & b & Hab). destruct (decide (m = photoshop)) as [|Hne]; [done|].
      destruct Hv. by exists a, b.
    + intros ->. by exists "."%char, "."%char.
Qed.

(** C7, as amended: for a MIME type without a line feed that is no
    variant of the photoshop type at its dots, the type is image exactly
    for [image/] followed by at least one character and for the
    photoshop type, video exactly for the strings that start with
    [video/], and unknown otherwise, also when there is no MIME type. *)
Theorem get_file_type_by_design (mimetype : option string) :
  (∀ m, mimetype = Some m →
        Py.contains newline m = false ∧ ¬ photoshop_variant m) →
  class_of (type_of_mime mimetype) = classify_nonempty_subtype mimetype.
Proof.
  destruct mimetype as [m|]; [|done].
  intros Hm. destruct (Hm m eq_refl) as [Hnl Hv]. simpl.
  unfold get_file_type.
  rewrite image_match_bool, video_match by done.
  destruct (_ || _); [done|].
  by destruct (Py.startswith m "video/").
Qed.

End Classify.

Import ReFacts.

(** ** The effects of the primitives *)

Global Instance same_fs_equiv : Equivalence same_fs.
Proof.
  split.
  - by intros w.
  - intros w w' [? ?]. by split.
  - intros w1 w2 w3 [? ?] [? ?]. split; congruence.
Qed.

Lemma same_fs_log c w : same_fs w (log c w).
Proof. done. Qed.

Lemma isfile_in_Some w p : isfile_in w p = true ↔ is_Some (files w !! p).
Proof. unfold isfile_in. by rewrite bool_decide_eq_true. Qed.

Lemma isfile_in_None w p : isfile_in w p = false ↔ files w !! p = None.
Proof.
  unfold isfile_in. rewrite bool_decide_eq_false. symmetry. apply eq_None_not_Some.
Qed.

Lemma isdir_in_true w p : isdir_in w p = true ↔ p ∈ dirs w.
Proof. unfold isdir_in. by rewrite bool_decide_eq_true. Qed.

Section Effects.

Context `{Collaborators}.

Lemma concat_read_blocks fuel n data :
  (0 < n)%nat → (length data < fuel)%nat →
  concat (read_blocks fuel n data) = data.
Proof.
  intros Hn. revert data. induction fuel as [|fuel IH]; intros data Hlen; [lia|].
  simpl. destruct (take n data) as [|b block] eqn:Htake.
  - destruct data as [|d data]; [done|]. destruct n; [lia|]. by simpl in Htake.
  - rewrite <- Htake. simpl. rewrite IH.
    + apply take_drop.
    + rewrite length_drop. destruct data; [by destruct n|]. simpl in *. lia.
Qed.

Lemma foldl_app_concat (l : list (list byte)) acc :
  foldl (λ acc block, acc ++ block) acc l = acc ++ concat l.
Proof.
  revert acc. induction l as [|b l IH]; intros acc; simpl.
  - by rewrite app_nil_r.
  - by rewrite IH, app_assoc.
Qed.

(** [checksum] digests the content of the file, when there is one. *)
Lemma checksum_eq file w :
  checksum file w =
  match files w !! file with
  | Some data => (Ok (sha256_hexdigest data), log (Open file) w)
  | None => (Raised FileNotFoundError, log (Open file) w)
  end.
Proof.
  unfold checksum, bind, Os.open_rb. cbn -[N.to_nat read_blocks].
  destruct (files w !! file) as [data|]; [|done].
  unfold ret. do 2 f_equal.
  rewrite foldl_app_concat. cbn -[N.to_nat read_blocks].
  f_equal. apply concat_read_blocks; lia.
Qed.

Lemma get_output_dir_eq self date w :
  let d := output_dir_path self date in
  get_output_dir self date w =
  if isdir_in w d || dry_run self || negb (isfile_in w d)
  then (Ok d, ensure_dir self d w)
  else (Raised FileExistsError, log (Makedirs d) (log (IsDir d) w)).
Proof.
  unfold get_output_dir, ensure_dir, output_dir_path, bind, Os.path_isdir,
    Os.makedirs, ret. cbn -[Py.join].
  set (d := Py.join OsPath.sep _).
  assert (Hlog : ∀ c, isfile_in (log c (log (IsDir d) w)) d = isfile_in w d) by done.
  assert (Hlog' : ∀ c, isdir_in (log c (log (IsDir d) w)) d = isdir_in w d) by done.
  destruct (isdir_in w d) eqn:Hd; cbn; [done|].
  destruct (dry_run self); cbn; [done|].
  rewrite Hlog, Hlog'. by destruct (isfile_in w d).
Qed.

Lemma get_file_name_and_path_eq self file w :
  get_file_name_and_path self file w =
  match get_output_dir self
          (if bool_decide (file_type_of file ∈ [Some "image"; Some "video"])
           then resolved_date self file else None) w with
  | (Ok _, w') =>
      (Ok (planned_dir self file, planned_name self file,
           planned_path self file, file_type_of file), w')
  | (Raised e, w') => (Raised e, w')
  | (OutOfFuel, w') => (OutOfFuel, w')
  end.
Proof.
  unfold get_file_name_and_path, planned_path, planned_dir, planned_name.
  destruct (bool_decide _) eqn:Hty; unfold bind.
  - pose proof (get_output_dir_eq self (resolved_date self file) w) as Heq.
    cbn zeta in Heq. unfold resolved_date in *. rewrite Heq.
    by destruct (_ || _).
  - pose proof (get_output_dir_eq self None w) as Heq.
    cbn zeta in Heq. rewrite Heq. by destruct (_ || _).
Qed.

Lemma get_file_name_and_path_ready self file w :
  dir_ready self w (planned_dir self file) = true →
  get_file_name_and_path self file w =
  (Ok (planned_dir self file, planned_name self file,
       planned_path self file, file_type_of file),
   ensure_dir self (planned_dir self file) w).
Proof.
  intros Hr. rewrite get_file_name_and_path_eq.
  pose proof (get_output_dir_eq self
    (if bool_decide (file_type_of file ∈ [Some "image"; Some "video"])
     then resolved_date self file else None) w) as Heq.
  cbn zeta in Heq. rewrite Heq. clear Heq.
  unfold dir_ready, planned_dir in *.
  destruct (bool_decide _); by rewrite Hr.
Qed.

End Effects.

(** ** Path planning *)

Section Plan.

Context `{Collaborators}.

(** [get_file_type] knows two types. *)
Lemma get_file_type_cases m :
  get_file_type m = Some "image" ∨ get_file_type m = Some "video"
  ∨ get_file_type m = None.
Proof.
  unfold get_file_type.
  destruct (Re.match_anchored patternImage m); [by left|].
  destruct (Re.match_anchored patternVideo m); auto.
Qed.

Lemma unknown_dir self : output_dir_path self None = output self +:+ "/unknown".
Proof. reflexivity. Qed.

(** C9: a file without a MIME type, or with one that [get_file_type]
    does not know, is planned in [output/unknown] under its own
    basename, whatever date its metadata would give. *)
Theorem unknown_type_plan (self : Phockup) (file : string) (w : World) :
  (mime_type_of file = None
   ∨ ∃ m, mime_type_of file = Some m ∧ get_file_type m = None) →
  dir_ready self w (output self +:+ "/unknown") = true →
  get_file_name_and_path self file w =
  (Ok (output self +:+ "/unknown", OsPath.basename file,
       output self +:+ "/unknown/" +:+ OsPath.basename file, None),
   ensure_dir self (output self +:+ "/unknown") w).
Proof.
  intros Hty Hready.
  assert (Hnone : file_type_of file = None).
  { unfold file_type_of. destruct Hty as [->|(m & -> & Hm)]; [done|]. exact Hm. }
  assert (Hdir : planned_dir self file = output self +:+ "/unknown").
  { unfold planned_dir. by rewrite Hnone. }
  rewrite get_file_name_and_path_ready by (by rewrite Hdir).
  unfold planned_path, planned_name. rewrite Hdir, Hnone. cbn.
  by rewrite str_app_assoc.
Qed.


End Plan.

Lemma unknown_type_plan_witness :
  let w := Demo.world [("in/notes.txt", Demo.bytes "hello")] ["in"; "out"] in
  get_file_name_and_path (H := Demo.collaborators) Demo.defaults "in/notes.txt" w =
  (Ok ("out/unknown", "notes.txt", "out/unknown/notes.txt", None),
   ensure_dir Demo.defaults "out/unknown" w).
Proof.
  intros w.
  apply (unknown_type_plan (H := Demo.collaborators) Demo.defaults "in/notes.txt" w).
  - right. exists "text/plain". split; vm_compute; reflexivity.
  - vm_compute. reflexivity.
Defined.


(** ** The loop of [process_file] *)

Section Loop.

Context `{Collaborators}.
Variables (self : Phockup) (file output name T : string) (ty : option string).

Local Abbreviation loop fuel := (process_file_loop fuel self file output name T ty).

Lemma digest_at_log c w p : digest_at (log c w) p = digest_at w p.
Proof. done. Qed.

Lemma candidate_next suffix :
  (1 ≤ suffix)%nat →
  candidate T (S suffix) =
  fst (OsPath.splitext T) +:+ "-" +:+ Py.str_of_nat (S suffix)
  +:+ snd (OsPath.splitext T).
Proof.
  intros Hs. unfold candidate.
  destruct (S suffix <=? 1)%nat eqn:Hle; [|done].
  apply Nat.leb_le in Hle. lia.
Qed.

Lemma candidate_1 : candidate T 1 = T.
Proof. done. Qed.

(** One iteration. *)
Lemma loop_step n suffix tf w :
  (1 ≤ suffix)%nat →
  loop (S n) suffix tf w =
  if filter_rejects self ty then (Ok tt, log (Print (skipped_wrong_type self ty)) w)
  else if isfile_in w tf then
    match files w !! file with
    | None => (Raised FileNotFoundError, log (Open file) (log (IsFile tf) w))
    | Some c =>
        match files w !! tf with
        | None => (Raised FileNotFoundError, probed file tf w)
        | Some c' =>
            if String.eqb (sha256_hexdigest c) (sha256_hexdigest c')
            then (Ok tt, log (Print (" => skipped, duplicated file " +:+ tf))
                           (probed file tf w))
            else loop n (S suffix) (candidate T (S suffix)) (probed file tf w)
        end
    end
  else
    match transfer self file tf (log (IsFile tf) w) with
    | (Ok true, w') =>
        process_xmp self file name suffix output (log (Print (" => " +:+ tf)) w')
    | (Ok false, w') => (Ok tt, w')
    | (Raised e, w') => (Raised e, w')
    | (OutOfFuel, w') => (OutOfFuel, w')
    end.
Proof.
  intros Hs. rewrite candidate_next by done.
  cbn [process_file_loop]. unfold filter_rejects.
  destruct (_ && _); [done|].
  unfold bind at 1. unfold Os.path_isfile at 1.
  destruct (isfile_in w tf) eqn:Hocc.
  - unfold bind at 1. rewrite checksum_eq. cbn [files log].
    destruct (files w !! file) as [c|]; [|done].
    unfold bind at 1. rewrite checksum_eq. cbn [files log].
    destruct (files w !! tf) as [c'|]; [|done].
    by destruct (String.eqb _ _).
  - unfold bind at 1.
    destruct (transfer self file tf (log (IsFile tf) w)) as [[[|]|e|] w']; try done.
Qed.


Lemma transfer_eq tf w :
  transfer self file tf w =
  if dry_run self then (Ok true, w)
  else if move self then
    match files w !! file with
    | None => (Ok false, log (Print no_such_file) (log (Move file tf) w))
    | Some c =>
        (Ok true, set_files (<[tf := c]> (delete file (files w))) (log (Move file tf) w))
    end
  else if link self then
    match files w !! file with
    | None => (Raised FileNotFoundError, log (Link file tf) w)
    | Some c =>
        if isfile_in w tf || isdir_in w tf
        then (Raised FileExistsError, log (Link file tf) w)
        else (Ok true, set_files (<[tf := c]> (files w)) (log (Link file tf) w))
    end
  else
    match files w !! file with
    | None => (Ok false, log (Print no_such_file) (log (Copy2 file tf) w))
    | Some c => (Ok true, set_files (<[tf := c]> (files w)) (log (Copy2 file tf) w))
    end.
Proof.
  unfold transfer. destruct (dry_run self); [done|]. cbn [negb].
  destruct (move self).
  { unfold try_except, bind, Shutil.move. cbn [files log].
    by destruct (files w !! file). }
  destruct (link self).
  { unfold bind, Os.link. cbn [files log].
    destruct (files w !! file); [|done].
    change (isfile_in (log (Link file tf) w) tf) with (isfile_in w tf).
    change (isdir_in (log (Link file tf) w) tf) with (isdir_in w tf).
    by destruct (_ || _). }
  unfold try_except, bind, Shutil.copy2. cbn [files log].
  by destruct (files w !! file).
Qed.

Lemma blocked_files w w' p :
  files w = files w' → blocked w file p = blocked w' file p.
Proof. unfold blocked, digest_at. by intros ->. Qed.

Lemma probe_all_files ps w : files (probe_all file ps w) = files w.
Proof.
  revert w. induction ps as [|p ps IH]; intros w; [done|].
  exact (IH (probed file p w)).
Qed.

Lemma probe_all_dirs ps w : dirs (probe_all file ps w) = dirs w.
Proof.
  revert w. induction ps as [|p ps IH]; intros w; [done|].
  exact (IH (probed file p w)).
Qed.

Lemma blocked_true w p :
  blocked w file p = true →
  ∃ c c', files w !! file = Some c ∧ files w !! p = Some c'
          ∧ String.eqb (sha256_hexdigest c) (sha256_hexdigest c') = false.
Proof.
  unfold blocked, digest_at.
  destruct (files w !! file) as [c|]; [|done].
  destruct (files w !! p) as [c'|]; [|done]. cbn.
  intros Hne%negb_true_iff. eauto.
Qed.

(** An iteration at a blocked candidate goes on with the next one. *)
Lemma loop_step_blocked n suffix w :
  filter_rejects self ty = false →
  (1 ≤ suffix)%nat →
  blocked w file (candidate T suffix) = true →
  loop (S n) suffix (candidate T suffix) w =
  loop n (S suffix) (candidate T (S suffix)) (probed file (candidate T suffix) w).
Proof.
  intros Hf Hs (c & c' & Hc & Hc' & Hne)%blocked_true.
  rewrite loop_step, Hf by done.
  assert (isfile_in w (candidate T suffix) = true) as ->.
  { apply isfile_in_Some. by rewrite Hc'. }
  by rewrite Hc, Hc', Hne.
Qed.

(** The loop passes the blocked candidates one after the other, up to
    the first that is not, or until the fuel is gone. *)
Lemma loop_decompose n suffix w :
  filter_rejects self ty = false →
  (1 ≤ suffix)%nat →
  ∃ k, (k ≤ n)%nat
    ∧ (∀ j, (j < k)%nat → blocked w file (candidate T (suffix + j)) = true)
    ∧ loop n suffix (candidate T suffix) w =
      loop (n - k) (suffix + k) (candidate T (suffix + k))
        (probe_all file (candidate T <$> seq suffix k) w)
    ∧ (k = n ∨ blocked w file (candidate T (suffix + k)) = false).
Proof.
  intros Hf. revert suffix w. induction n as [|n IH]; intros suffix w Hs.
  - exists 0%nat. split; [done|]. split; [lia|]. rewrite Nat.add_0_r. auto.
  - destruct (blocked w file (candidate T suffix)) eqn:Hb.
    + destruct (IH (S suffix) (probed file (candidate T suffix) w)) as
        (k & Hk & Hblocked & Heq & Hlast); [lia|].
      exists (S k). split; [lia|]. split; [|split].
      * intros [|j] Hj.
        -- by rewrite Nat.add_0_r.
        -- rewrite Nat.add_succ_r, <- Nat.add_succ_l.
           rewrite (blocked_files w (probed file (candidate T suffix) w)) by done.
           apply Hblocked. lia.
      * rewrite loop_step_blocked, Heq by done.
        by rewrite Nat.add_succ_r.
      * rewrite Nat.add_succ_r, <- Nat.add_succ_l.
        rewrite (blocked_files w (probed file (candidate T suffix) w)) by done.
        destruct Hlast; [left; lia|by right].
    + exists 0%nat. split; [lia|]. split; [lia|].
      rewrite Nat.add_0_r, Nat.sub_0_r. auto.
Qed.

End Loop.

(** ** Suffixes, extensions and candidates *)

Section PathFacts.

Implicit Types s t u p : string.

Lemma str_app_eq_inv s1 s2 t1 t2 :
  s1 +:+ s2 = t1 +:+ t2 →
  (∃ u, s1 = t1 +:+ u ∧ t2 = u +:+ s2) ∨ (∃ u, t1 = s1 +:+ u ∧ s2 = u +:+ t2).
Proof.
  revert t1. induction s1 as [|a s1 IH]; intros t1 Heq.
  - right. exists t1. by rewrite !str_app_nil_l in *.
  - destruct t1 as [|b t1].
    + left. exists (String a s1). by rewrite !str_app_nil_l in *.
    + rewrite !str_app_cons in Heq. injection Heq as -> Heq.
      destruct (IH _ Heq) as [(u & -> & ->)|(u & -> & ->)]; [left|right];
        by exists u.
Qed.

Lemma endswith_unfold s t :
  Py.endswith s t =
  if String.eqb s t then true
  else match s with "" => false | String _ r => Py.endswith r t end.
Proof. by destruct s. Qed.

Lemma endswith_iff s t : Py.endswith s t = true ↔ ∃ u, s = u +:+ t.
Proof.
  induction s as [|a s IH]; rewrite endswith_unfold.
  - destruct (String.eqb "" t) eqn:Heq.
    + apply String.eqb_eq in Heq as <-. split; [by exists ""|done].
    + apply String.eqb_neq in Heq. split; [done|]. intros (u & Hu).
      symmetry in Hu. apply str_app_eq_nil in Hu as [_ ->]. done.
  - destruct (String.eqb (String a s) t) eqn:Heq.
    + apply String.eqb_eq in Heq as <-. split; [by exists ""|done].
    + apply String.eqb_neq in Heq. rewrite IH. split.
      * intros (u & ->). by exists (String a u).
      * intros ([|b u] & Hu); [by rewrite str_app_nil_l in Hu|].
        rewrite str_app_cons in Hu. injection Hu as -> ->. by exists u.
Qed.

Lemma endswith_app s t : Py.endswith (s +:+ t) t = true.
Proof. apply endswith_iff. by exists s. Qed.

Lemma take_drop_str n s : Py.take n s +:+ Py.drop n s = s.
Proof.
  revert s. induction n as [|n IH]; intros [|a s]; try done.
  simpl. by rewrite str_app_cons, IH.
Qed.

Lemma splitext_join p : fst (OsPath.splitext p) +:+ snd (OsPath.splitext p) = p.
Proof.
  unfold OsPath.splitext. destruct (_ && _); simpl.
  - apply take_drop_str.
  - apply str_app_nil_r.
Qed.

Lemma rfind_ge c s : -1 ≤ Py.rfind c s.
Proof.
  induction s as [|a s IH]; simpl; [lia|].
  destruct (0 <=? Py.rfind c s) eqn:Hle; [lia|]. destruct (Ascii.eqb a c); lia.
Qed.

Lemma rfind_neg c s : Py.rfind c s < 0 → Py.contains c s = false.
Proof.
  induction s as [|a s IH]; simpl; [done|].
  destruct (0 <=? Py.rfind c s) eqn:Hle.
  - apply Z.leb_le in Hle. lia.
  - apply Z.leb_gt in Hle. destruct (Ascii.eqb a c); [lia|]. auto.
Qed.

Lemma rfind_drop c s :
  0 ≤ Py.rfind c s →
  ∃ e, Py.drop (Z.to_nat (Py.rfind c s)) s = String c e ∧ Py.contains c e = false.
Proof.
  induction s as [|a s IH]; simpl; [lia|].
  destruct (0 <=? Py.rfind c s) eqn:Hle.
  - apply Z.leb_le in Hle. intros _.
    rewrite Z2Nat.inj_add, Nat.add_1_r by lia. simpl. auto.
  - apply Z.leb_gt in Hle.
    destruct (Ascii.eqb_spec a c) as [->|Hne]; [|lia]. intros _.
    exists s. split; [done|]. by apply rfind_neg.
Qed.

(** The extension [splitext] finds is empty, or a dot followed by
    characters other than the dot. *)
Lemma splitext_ext p :
  snd (OsPath.splitext p) = ""
  ∨ ∃ e, snd (OsPath.splitext p) = String "." e ∧ Py.contains "." e = false.
Proof.
  unfold OsPath.splitext. destruct (_ && _) eqn:Hc; simpl; [|by left].
  right. apply andb_prop in Hc as [Hlt%Z.ltb_lt _].
  apply rfind_drop. pose proof (rfind_ge "/" p). lia.
Qed.

Lemma string_of_uint_no c (d : Decimal.uint) :
  Ascii.is_nat c = None → Py.contains c (NilEmpty.string_of_uint d) = false.
Proof.
  intros Hc. induction d; cbn [NilEmpty.string_of_uint Py.contains]; [done|..];
    rewrite IHd, orb_false_r; apply Ascii.eqb_neq; by intros <-.
Qed.

Lemma str_of_nat_no c n : Ascii.is_nat c = None → Py.contains c (Py.str_of_nat n) = false.
Proof. apply string_of_uint_no. Qed.

Lemma str_of_nat_nonempty n : Py.str_of_nat n ≠ "".
Proof.
  unfold Py.str_of_nat. intros Heq.
  pose proof (NilEmpty.usu (Nat.to_uint n)) as Husu. rewrite Heq in Husu.
  simpl in Husu. injection Husu as Hnil.
  pose proof (DecimalNat.Unsigned.of_to n) as Hn. rewrite <- Hnil in Hn.
  pose proof (DecimalNat.Unsigned.to_of Decimal.Nil) as Ho.
  simpl in Ho. rewrite <- Hn in Hnil. simpl in Hnil. rewrite <- Hnil in Ho.
  by vm_compute in Ho.
Qed.

Lemma str_of_nat_inj n m : Py.str_of_nat n = Py.str_of_nat m → n = m.
Proof.
  unfold Py.str_of_nat. intros Heq.
  apply DecimalNat.Unsigned.to_uint_inj.
  pose proof (NilEmpty.usu (Nat.to_uint n)) as Hn.
  pose proof (NilEmpty.usu (Nat.to_uint m)) as Hm.
  rewrite Heq in Hn. congruence.
Qed.

End PathFacts.

Section CandidateFacts.

Implicit Types s t u p T : string.

(** A proper suffix of [".xmp"] that is not empty has a [p] in it and,
    unless it is the whole of it, no dot. *)
Lemma xmp_suffix u v :
  ".xmp" = u +:+ v → v ≠ "" →
  Py.contains "p" v = true ∧ (u = "" ∨ Py.contains "." v = false).
Proof.
  intros Heq Hv.
  destruct u as [|a1 u]; [rewrite str_app_nil_l in Heq; subst v; auto|].
  rewrite str_app_cons in Heq. injection Heq as <- Heq.
  destruct u as [|a2 u]; [rewrite str_app_nil_l in Heq; subst v; auto|].
  rewrite str_app_cons in Heq. injection Heq as <- Heq.
  destruct u as [|a3 u]; [rewrite str_app_nil_l in Heq; subst v; auto|].
  rewrite str_app_cons in Heq. injection Heq as <- Heq.
  destruct u as [|a4 u]; [rewrite str_app_nil_l in Heq; subst v; auto|].
  rewrite str_app_cons in Heq. injection Heq as <- Heq.
  symmetry in Heq. by apply str_app_eq_nil in Heq as [_ ->].
Qed.

Lemma candidate_xmp T n :
  Py.endswith (candidate T n) ".xmp" = true → Py.endswith T ".xmp" = true.
Proof.
  unfold candidate. destruct (n <=? 1)%nat; [done|].
  rewrite !endswith_iff. intros (u & Hu).
  pose proof (splitext_join T) as HT.
  destruct (splitext_ext T) as [Hext|(e & Hext & He)]; rewrite Hext in *.
  - exfalso. rewrite str_app_nil_r, <- str_app_assoc in Hu.
    apply str_app_eq_inv in Hu as [(v & _ & Hv)|(v & _ & Hv)].
    + destruct (xmp_suffix _ _ Hv) as [Hp _]; [apply str_of_nat_nonempty|].
      by rewrite str_of_nat_no in Hp.
    + apply (f_equal (Py.contains ".")) in Hv.
      rewrite contains_app, str_of_nat_no in Hv by done.
      by rewrite orb_true_r in Hv.
  - rewrite <- !str_app_assoc in Hu.
    apply str_app_eq_inv in Hu as [(v & _ & Hv)|(v & _ & Hv)].
    + destruct (xmp_suffix _ _ Hv) as [_ [->|Hdot]]; [done| |by simpl in Hdot].
      rewrite str_app_nil_l in Hv. exists (fst (OsPath.splitext T)).
      by rewrite <- Hv in HT.
    + destruct v as [|a v].
      * rewrite str_app_nil_l in Hv. exists (fst (OsPath.splitext T)).
        by rewrite Hv in HT.
      * rewrite str_app_cons in Hv. injection Hv as <- ->.
        by rewrite contains_app, orb_true_r in He.
Qed.

Lemma candidate_inj T i j :
  (1 ≤ i)%nat → (1 ≤ j)%nat → candidate T i = candidate T j → i = j.
Proof.
  assert (Hlen : ∀ n, (1 < n)%nat → candidate T n ≠ T).
  { intros n Hn Heq. unfold candidate in Heq.
    destruct (n <=? 1)%nat eqn:Hle; [apply Nat.leb_le in Hle; lia|].
    apply (f_equal String.length) in Heq.
    rewrite <- (splitext_join T) in Heq at 3.
    rewrite !str_length_app in Heq. simpl in Heq. lia. }
  intros Hi Hj Heq.
  destruct (decide (i = 1%nat)) as [->|Hi1]; [|destruct (decide (j = 1%nat)) as [->|Hj1]].
  - destruct (decide (j = 1%nat)) as [->|Hj1]; [done|].
    exfalso. apply (Hlen j); [lia|]. by rewrite <- Heq.
  - exfalso. apply (Hlen i); [lia|]. by rewrite Heq.
  - unfold candidate in Heq.
    destruct (i <=? 1)%nat eqn:Hli; [apply Nat.leb_le in Hli; lia|].
    destruct (j <=? 1)%nat eqn:Hlj; [apply Nat.leb_le in Hlj; lia|].
    apply String.app_inj, String.app_inj in Heq.
    apply str_app_inv_tail in Heq. by apply str_of_nat_inj.
Qed.

End CandidateFacts.

(** ** What the pipeline leaves alone *)

Section Untouched.

Context `{Collaborators}.
Variables (self : Phockup) (file : string).

Local Abbreviation rel := (untouched self file).

Lemma untouched_refl w : rel w w.
Proof. by split_and!. Qed.

Lemma untouched_trans w1 w2 w3 : rel w1 w2 → rel w2 w3 → rel w1 w3.
Proof.
  intros (Hd1 & Hk1 & Ho1) (Hd2 & Hk2 & Ho2). split_and!.
  - set_solver.
  - eauto.
  - eauto.
Qed.

Lemma untouched_same_fs w w' : same_fs w w' → rel w w'.
Proof. intros [Hf Hd]. unfold untouched. rewrite Hf, Hd. by split_and!. Qed.

Lemma untouched_log c w w' : rel w w' → rel w (log c w').
Proof. done. Qed.

Lemma untouched_add_dir d w : rel w (add_dir d w).
Proof. split_and!; [set_solver|done..]. Qed.

Lemma untouched_ensure_dir d w : rel w (ensure_dir self d w).
Proof.
  unfold ensure_dir. destruct (_ || _); [apply untouched_log, untouched_refl|].
  apply (untouched_add_dir d (log (Makedirs d) (log (IsDir d) w))).
Qed.

(** A file put where there was none. *)
Lemma untouched_insert_free p c w :
  files w !! p = None → rel w (set_files (<[p := c]> (files w)) w).
Proof.
  intros Hp. split_and!; [done|..]; cbn.
  - intros q d _ _ Hq. rewrite lookup_insert_ne; [done|congruence].
  - intros _ q Hq. destruct (decide (p = q)) as [->|Hne].
    + by rewrite lookup_insert_eq.
    + by rewrite lookup_insert_ne.
Qed.

(** A sidecar written, whatever was there. *)
Lemma untouched_insert_xmp p c w :
  Py.endswith p ".xmp" = true → rel w (set_files (<[p := c]> (files w)) w).
Proof.
  intros Hp. split_and!; [done|..]; cbn.
  - intros q d Hq _ Hqd. rewrite lookup_insert_ne; [done|congruence].
  - intros _ q Hq. destruct (decide (p = q)) as [->|Hne].
    + by rewrite lookup_insert_eq.
    + by rewrite lookup_insert_ne.
Qed.

(** [file] moved to where there was no file. *)
Lemma untouched_move_primary p c w :
  move self = true → files w !! p = None →
  rel w (set_files (<[p := c]> (delete file (files w))) w).
Proof.
  intros Hm Hp. split_and!; [done|..]; cbn.
  - intros q d _ [Hmv|Hne] Hq; [congruence|].
    rewrite lookup_insert_ne by congruence. by rewrite lookup_delete_ne.
  - congruence.
Qed.

(** A sidecar moved onto a sidecar. *)
Lemma untouched_move_xmp p q c w :
  move self = true →
  Py.endswith p ".xmp" = true → Py.endswith q ".xmp" = true →
  rel w (set_files (<[q := c]> (delete p (files w))) w).
Proof.
  intros Hm Hp Hq. split_and!; [done|..]; cbn.
  - intros r d Hr _ Hrd.
    rewrite lookup_insert_ne by congruence.
    rewrite lookup_delete_ne by congruence. done.
  - congruence.
Qed.

Lemma dict_set_sidecars k v d :
  sidecar_item (k, v) → Forall sidecar_item d → Forall sidecar_item (dict_set k v d).
Proof.
  intros Hkv. induction 1 as [|[k' v'] d Hk' Hd IH]; simpl.
  - by constructor.
  - destruct (String.eqb_spec k' k) as [->|Hne]; constructor; auto.
Qed.

Lemma xmp_files_sidecars f name suffix e1 e2 :
  Forall sidecar_item (xmp_files f name suffix e1 e2).
Proof.
  unfold xmp_files.
  assert (H1 : ∀ k stem sfx, sidecar_item (k +:+ ".xmp", stem +:+ sfx +:+ ".xmp")).
  { intros k stem sfx. split; [apply endswith_app|]. exists (stem +:+ sfx).
    cbn. by rewrite str_app_assoc. }
  destruct e2; [apply dict_set_sidecars; [apply H1|]|];
    (destruct e1; [apply dict_set_sidecars; [apply H1|]|]); constructor.
Qed.

Lemma xmp_path_endswith output stem :
  Py.endswith (Py.join OsPath.sep [output; stem +:+ ".xmp"]) ".xmp" = true.
Proof.
  cbn. apply endswith_iff. exists (output +:+ "/" +:+ stem).
  by rewrite !str_app_assoc.
Qed.

Lemma transfer_xmp_untouched output items w :
  Forall sidecar_item items →
  rel w (snd (transfer_xmp self output items w)).
Proof.
  intros Hitems. revert w.
  induction Hitems as [|[original target] items [Ho (stem & Ht)] _ IH]; intros w.
  - apply untouched_refl.
  - cbn in Ho, Ht. subst target. cbn [transfer_xmp].
    set (xmp_path := Py.join OsPath.sep _).
    assert (Hx : Py.endswith xmp_path ".xmp" = true) by apply xmp_path_endswith.
    unfold bind at 1. unfold Printer.line at 1.
    set (w1 := log _ w).
    assert (Hw1 : rel w w1) by apply untouched_log, untouched_refl.
    unfold bind at 1.
    destruct (dry_run self); cbn [negb].
    { unfold ret at 1. apply (untouched_trans _ w1); [done|apply IH]. }
    destruct (move self) eqn:Hmv.
    { unfold Shutil.move.
      destruct (files _ !! original) as [c|]; [|by apply untouched_log].
      eapply untouched_trans; [|apply IH].
      apply (untouched_trans _ (log (Move original xmp_path) w1));
        [by apply untouched_log|].
      by apply untouched_move_xmp. }
    destruct (link self).
    { unfold Os.link.
      destruct (files _ !! original) as [c|]; [|by apply untouched_log].
      destruct (_ || _); [by apply untouched_log|].
      eapply untouched_trans; [|apply IH].
      apply (untouched_trans _ (log (Link original xmp_path) w1));
        [by apply untouched_log|].
      by apply untouched_insert_xmp. }
    unfold Shutil.copy2.
    destruct (files _ !! original) as [c|]; [|by apply untouched_log].
    eapply untouched_trans; [|apply IH].
    apply (untouched_trans _ (log (Copy2 original xmp_path) w1));
      [by apply untouched_log|].
    by apply untouched_insert_xmp.
Qed.

Lemma process_xmp_untouched f name suffix output w :
  rel w (snd (process_xmp self f name suffix output w)).
Proof.
  unfold process_xmp, bind, Os.path_isfile.
  eapply untouched_trans; [|apply transfer_xmp_untouched, xmp_files_sidecars].
  apply untouched_log, untouched_log, untouched_refl.
Qed.

End Untouched.

Section Logs.

Lemma log_logs c w : log c w = logs [c] w.
Proof. done. Qed.

Lemma logs_logs t1 t2 w : logs t2 (logs t1 w) = logs (t1 ++ t2) w.
Proof. unfold logs. cbn. by rewrite app_assoc. Qed.

Lemma logs_nil w : logs [] w = w.
Proof. destruct w. unfold logs. cbn. by rewrite app_nil_r. Qed.

Lemma probed_logs file p w : probed file p w = logs (probe_calls file p) w.
Proof. unfold probed. by rewrite !log_logs, !logs_logs. Qed.

Lemma probe_all_logs file ps w :
  probe_all file ps w = logs (concat (probe_calls file <$> ps)) w.
Proof.
  revert w. induction ps as [|p ps IH]; intros w.
  - by rewrite logs_nil.
  - cbn [probe_all foldl fmap list_fmap concat].
    change (foldl _ ?w0 ps) with (probe_all file ps w0).
    by rewrite IH, probed_logs, logs_logs.
Qed.

Lemma same_fs_logs t w : same_fs w (logs t w).
Proof. done. Qed.

End Logs.

Section ProcessFile.

Context `{Collaborators}.
Variables (self : Phockup) (file : string).

Local Abbreviation d := (planned_dir self file).
Local Abbreviation T := (planned_path self file).
Local Abbreviation ty := (file_type_of file).
Local Abbreviation loop fuel :=
  (process_file_loop fuel self file (planned_dir self file)
     (planned_name self file) (planned_path self file) (file_type_of file)).

Lemma process_file_eq fuel w :
  Py.endswith file ".xmp" = false →
  process_file fuel self file w =
  let w0 := log (Print file) w in
  if dir_ready self w d
  then loop fuel 1%nat T (ensure_dir self d w0)
  else (Raised FileExistsError, log (Makedirs d) (log (IsDir d) w0)).
Proof.
  intros Hx. unfold process_file. rewrite Hx.
  unfold bind at 1. unfold Printer.line at 1.
  unfold bind at 1. rewrite get_file_name_and_path_eq.
  pose proof (get_output_dir_eq self
    (if bool_decide (file_type_of file ∈ [Some "image"; Some "video"])
     then resolved_date self file else None) (log (Print file) w)) as Heq.
  cbn zeta in Heq. rewrite Heq. clear Heq.
  cbn zeta. unfold dir_ready, planned_dir.
  change (isdir_in (log (Print file) w)) with (isdir_in w).
  change (isfile_in (log (Print file) w)) with (isfile_in w).
  destruct (bool_decide _); by destruct (_ || _ || _).
Qed.

Lemma loop_untouched n suffix tf w :
  (1 ≤ suffix)%nat →
  untouched self file w
    (snd (process_file_loop n self file (planned_dir self file)
            (planned_name self file) T ty suffix tf w)).
Proof.
  revert suffix tf w. induction n as [|n IH]; intros suffix tf w Hs.
  { apply untouched_refl. }
  rewrite loop_step by done.
  destruct (filter_rejects self ty).
  { apply untouched_log, untouched_refl. }
  destruct (isfile_in w tf) eqn:Hocc.
  - destruct (files w !! file) as [c|]; [|apply untouched_log, untouched_log, untouched_refl].
    assert (Hp : untouched self file w (probed file tf w)).
    { do 3 apply untouched_log. apply untouched_refl. }
    destruct (files w !! tf) as [c'|]; [|done].
    destruct (String.eqb _ _); [by apply untouched_log|].
    eapply untouched_trans; [exact Hp|]. apply IH. lia.
  - apply isfile_in_None in Hocc.
    set (w1 := log (IsFile tf) w).
    assert (Hw1 : untouched self file w w1) by apply untouched_log, untouched_refl.
    rewrite transfer_eq.
    assert (Hxmp : ∀ w', untouched self file w w' →
      untouched self file w
        (snd (process_xmp self file (planned_name self file) suffix
                (planned_dir self file) (log (Print (" => " +:+ tf)) w')))).
    { intros w' Hw'. eapply untouched_trans; [|apply process_xmp_untouched].
      by apply untouched_log. }
    destruct (dry_run self); [by apply Hxmp|].
    destruct (move self) eqn:Hmv.
    { destruct (files _ !! file) as [c|]; [|by do 2 apply untouched_log].
      apply Hxmp. apply (untouched_trans _ _ _ (log (Move file tf) w1));
        [by apply untouched_log|].
      by apply (untouched_move_primary _ _ tf c (log (Move file tf) w1)). }
    destruct (link self).
    { destruct (files _ !! file) as [c|]; [|by apply untouched_log].
      destruct (_ || _); [by apply untouched_log|].
      apply Hxmp. apply (untouched_trans _ _ _ (log (Link file tf) w1));
        [by apply untouched_log|].
      by apply (untouched_insert_free _ _ tf c (log (Link file tf) w1)). }
    destruct (files _ !! file) as [c|]; [|by do 2 apply untouched_log].
    apply Hxmp. apply (untouched_trans _ _ _ (log (Copy2 file tf) w1));
      [by apply untouched_log|].
    by apply (untouched_insert_free _ _ tf c (log (Copy2 file tf) w1)).
Qed.

(** Whatever the mode and the outcome, [process_file] leaves the other
    files that are no sidecars as they were. *)
Lemma process_file_untouched fuel w :
  untouched self file w (snd (process_file fuel self file w)).
Proof.
  destruct (Py.endswith file ".xmp") eqn:Hx.
  { unfold process_file. rewrite Hx. apply untouched_refl. }
  rewrite process_file_eq by done. cbn zeta.
  destruct (dir_ready self w d).
  - eapply untouched_trans; [|apply loop_untouched; lia].
    eapply untouched_trans; [|apply untouched_ensure_dir].
    apply untouched_log, untouched_refl.
  - do 3 apply untouched_log. apply untouched_refl.
Qed.

End ProcessFile.

Section Grows.

Lemma grows_refl w : grows w w.
Proof. by split_and!. Qed.

Lemma grows_trans w1 w2 w3 : grows w1 w2 → grows w2 w3 → grows w1 w3.
Proof.
  intros (Hd1 & Hk1 & Ho1) (Hd2 & Hk2 & Ho2). split_and!; [set_solver|eauto..].
Qed.

Lemma untouched_grows self file w w' :
  move self = false → untouched self file w w' → grows w w'.
Proof. intros Hm (Hd & Hk & Ho). split_and!; eauto. Qed.

Lemma grows_same_fs w w' w'' : grows w w' → same_fs w' w'' → grows w w''.
Proof. intros Hg [Hf Hd]. unfold grows in *. by rewrite <- Hf, <- Hd. Qed.

End Grows.

Section Rerun.

Context `{Collaborators}.
Variables (self : Phockup) (file : string).

Local Abbreviation T := (planned_path self file).
Local Abbreviation loop fuel :=
  (process_file_loop fuel self file (planned_dir self file)
     (planned_name self file) (planned_path self file) (file_type_of file)).

Lemma loop_skip k n suffix w :
  filter_rejects self (file_type_of file) = false →
  (1 ≤ suffix)%nat →
  (∀ j, (j < k)%nat → blocked w file (candidate T (suffix + j)) = true) →
  loop (k + n) suffix (candidate T suffix) w =
  loop n (suffix + k) (candidate T (suffix + k))
    (probe_all file (candidate T <$> seq suffix k) w).
Proof.
  intros Hf. revert suffix w. induction k as [|k IH]; intros suffix w Hs Hb.
  - by rewrite Nat.add_0_r.
  - cbn [Nat.add]. rewrite loop_step_blocked; [|done..|].
    + rewrite IH; [|lia|].
      * by rewrite Nat.add_succ_r.
      * intros j Hj.
        rewrite <- (blocked_files _ w) by done.
        rewrite Nat.add_succ_l, <- Nat.add_succ_r. apply Hb. lia.
    + specialize (Hb 0%nat). rewrite Nat.add_0_r in Hb. apply Hb. lia.
Qed.

(** A candidate that holds the digest of [file] ends the loop with the
    report of a duplicate. *)
Lemma loop_duplicate n suffix w c c' :
  filter_rejects self (file_type_of file) = false →
  (1 ≤ suffix)%nat →
  files w !! file = Some c →
  files w !! candidate T suffix = Some c' →
  sha256_hexdigest c' = sha256_hexdigest c →
  loop (S n) suffix (candidate T suffix) w =
  (Ok tt, logs (probe_calls file (candidate T suffix)
                ++ [Print (duplicated_line (candidate T suffix))]) w).
Proof.
  intros Hf Hs Hc Hc' Heq. rewrite loop_step, Hf by done.
  assert (isfile_in w (candidate T suffix) = true) as ->.
  { apply isfile_in_Some. by rewrite Hc'. }
  rewrite Hc, Hc', Heq, String.eqb_refl.
  by rewrite probed_logs, log_logs, logs_logs.
Qed.

Hypothesis Hdry : dry_run self = false.
Hypothesis HT : Py.endswith T ".xmp" = false.

Lemma candidate_not_xmp k : Py.endswith (candidate T k) ".xmp" = false.
Proof.
  destruct (Py.endswith (candidate T k) ".xmp") eqn:Hc; [|done].
  apply candidate_xmp in Hc. congruence.
Qed.

(** Where a run that ends well leaves the content of [file]: at the
    first candidate that does not hold a file with another digest. *)
Lemma first_run_places fuel w w1 c :
  filter_rejects self (file_type_of file) = false →
  files w !! file = Some c →
  loop fuel 1%nat T w = (Ok tt, w1) →
  ∃ k c', (k < fuel)%nat
    ∧ (∀ j, (j < k)%nat → blocked w file (candidate T (1 + j)) = true)
    ∧ blocked w file (candidate T (1 + k)) = false
    ∧ files w1 !! candidate T (1 + k) = Some c'
    ∧ sha256_hexdigest c' = sha256_hexdigest c.
Proof.
  intros Hf Hc Hrun.
  destruct (loop_decompose self file (planned_dir self file)
              (planned_name self file) T (file_type_of file) fuel 1%nat w Hf)
    as (k & Hk & Hb & Heq & Hlast); [lia|].
  change (candidate T 1) with T in Heq. rewrite Heq in Hrun. clear Heq.
  destruct (fuel - k)%nat as [|m] eqn:Hm; [done|].
  destruct Hlast as [->|Hlast]; [lia|].
  set (wk := probe_all file _ w) in Hrun.
  assert (Hwk : files wk = files w) by apply probe_all_files.
  rewrite loop_step, Hf in Hrun by lia.
  exists k. pose proof Hlast as Hnb.
  unfold blocked, digest_at in Hlast. rewrite Hc in Hlast.
  destruct (isfile_in wk (candidate T (1 + k))) eqn:Hocc.
  - rewrite Hwk, Hc in Hrun.
    destruct (files w !! candidate T (1 + k)) as [c'|] eqn:Hc'; [|done].
    cbn in Hlast. apply negb_false_iff in Hlast. rewrite Hlast in Hrun.
    injection Hrun as <-. exists c'. split; [lia|]. do 2 (split; [done|]).
    split; [cbn; by rewrite Hwk|]. symmetry. by apply String.eqb_eq.
  - apply isfile_in_None in Hocc.
    assert (Hck : files wk !! file = Some c) by (by rewrite Hwk).
    assert (Hne : candidate T (1 + k) ≠ file) by congruence.
    rewrite transfer_eq, Hdry in Hrun. cbn [files log] in Hrun.
    rewrite Hck in Hrun.
    exists c. split; [lia|]. do 2 (split; [done|]). split; [|done].
    assert (Hplaced : ∀ w',
      files w' !! candidate T (1 + k) = Some c →
      process_xmp self file (planned_name self file) (1 + k) (planned_dir self file)
        (log (Print (" => " +:+ candidate T (1 + k))) w') = (Ok tt, w1) →
      files w1 !! candidate T (1 + k) = Some c).
    { intros w' Hw' Hx.
      pose proof (process_xmp_untouched self file file (planned_name self file)
                    (1 + k) (planned_dir self file)
                    (log (Print (" => " +:+ candidate T (1 + k))) w'))
        as (_ & Hkeep & _).
      rewrite Hx in Hkeep. apply Hkeep; [apply candidate_not_xmp|by right|done]. }
    destruct (move self).
    { eapply Hplaced; [|exact Hrun]. cbn. by rewrite lookup_insert_eq. }
    destruct (link self).
    { destruct (_ || _); [done|].
      eapply Hplaced; [|exact Hrun]. cbn. by rewrite lookup_insert_eq. }
    eapply Hplaced; [|exact Hrun]. cbn. by rewrite lookup_insert_eq.
Qed.

Hypotheses (Hmove : move self = false) (Hlink : link self = false).

Lemma ensure_dir_files p w : files (ensure_dir self p w) = files w.
Proof. unfold ensure_dir. by destruct (_ || _). Qed.

Lemma ensure_dir_isdir p w : p ∈ dirs (ensure_dir self p w).
Proof.
  unfold ensure_dir. rewrite Hdry, orb_false_r.
  destruct (isdir_in w p) eqn:Hp.
  - by apply isdir_in_true in Hp.
  - cbn. set_solver.
Qed.

Lemma ensure_dir_there p w :
  isdir_in w p = true → ensure_dir self p w = logs [IsDir p] w.
Proof. unfold ensure_dir. by intros ->. Qed.

Lemma probe_calls_readonly f ps :
  Forall (λ c, readonly c = true) (concat (probe_calls f <$> ps)).
Proof.
  induction ps as [|p ps IH]; [constructor|].
  cbn. by repeat constructor.
Qed.

Lemma blocked_grows w w' p :
  grows w w' →
  Py.endswith file ".xmp" = false → Py.endswith p ".xmp" = false →
  blocked w file p = true → blocked w' file p = true.
Proof.
  intros (_ & Hkeep & _) Hx Hp Hb.
  apply blocked_true in Hb as (c0 & c' & Hc0 & Hc' & Hne).
  unfold blocked, digest_at.
  rewrite (Hkeep _ _ Hx Hc0), (Hkeep _ _ Hp Hc'). cbn. by rewrite Hne.
Qed.

(** Processing [file] again, in any world the first run has grown
    into, copies nothing and reports the duplicate. *)
Lemma rerun_file fuel c w w1 w2 :
  Py.endswith file ".xmp" = false →
  files w !! file = Some c →
  process_file fuel self file w = (Ok tt, w1) →
  grows w1 w2 →
  ∃ t, process_file fuel self file w2 = (Ok tt, logs t w2)
       ∧ Forall (λ c, readonly c = true) t
       ∧ (filter_rejects self (file_type_of file) = false →
          ∃ k, (1 ≤ k)%nat
            ∧ Print (duplicated_line (candidate T k)) ∈ t
            ∧ digest_at w2 (candidate T k) = Some (sha256_hexdigest c)).
Proof.
  intros Hx Hc Hrun Hgrow.
  rewrite process_file_eq in Hrun by done. cbn zeta in Hrun.
  destruct (dir_ready self w (planned_dir self file)) eqn:Hready; [|done].
  set (wa := ensure_dir self (planned_dir self file) (log (Print file) w)) in Hrun.
  assert (Hfa : files wa = files w)
    by exact (ensure_dir_files (planned_dir self file) (log (Print file) w)).
  assert (Hga : grows wa w1).
  { apply (untouched_grows self file); [done|].
    pose proof (loop_untouched self file fuel 1%nat T wa) as Hu.
    rewrite Hrun in Hu. apply Hu. lia. }
  assert (Hg2 : grows wa w2) by (by eapply grows_trans).
  assert (Hd2 : isdir_in w2 (planned_dir self file) = true).
  { apply isdir_in_true. destruct Hg2 as (Hd & _ & _). apply Hd, ensure_dir_isdir. }
  rewrite process_file_eq by done. cbn zeta.
  unfold dir_ready. rewrite Hd2. cbn [orb].
  rewrite ensure_dir_there by done. rewrite log_logs, logs_logs. cbn [app].
  set (w2a := logs _ w2).
  destruct (filter_rejects self (file_type_of file)) eqn:Hf.
  - destruct fuel as [|n]; [done|].
    rewrite loop_step, Hf by lia. subst w2a. rewrite log_logs, logs_logs.
    eexists. split; [done|]. split; [|done]. by repeat constructor.
  - assert (Hca : files wa !! file = Some c) by (by rewrite Hfa).
    destruct (first_run_places fuel wa w1 c Hf Hca Hrun)
      as (k & c' & Hk & Hb & _ & Hc' & Heq).
    assert (Hb2 : ∀ j, (j < k)%nat → blocked w2a file (candidate T (1 + j)) = true).
    { intros j Hj. rewrite (blocked_files _ _ w2) by done.
      eapply blocked_grows; [exact Hg2|done|apply candidate_not_xmp|by apply Hb]. }
    assert (Hc2 : files w2 !! file = Some c).
    { destruct Hg2 as (_ & Hkeep & _). by apply Hkeep. }
    assert (Hc2' : files w2 !! candidate T (1 + k) = Some c').
    { destruct Hgrow as (_ & Hkeep & _). apply Hkeep; [apply candidate_not_xmp|done]. }
    replace fuel with (k + S (fuel - k - 1))%nat by lia.
    change T with (candidate T 1) at 2.
    rewrite loop_skip by (done || lia).
    rewrite (loop_duplicate _ _ _ c c'); [|done|lia|by rewrite probe_all_files..|done].
    subst w2a. rewrite probe_all_logs, !logs_logs.
    eexists. split; [done|]. split.
    + apply Forall_app. split; [by repeat constructor|].
      apply Forall_app. split; [apply probe_calls_readonly|by repeat constructor].
    + intros _. exists (1 + k)%nat. split; [lia|]. split.
      * rewrite !elem_of_app. right. right. right. apply list_elem_of_here.
      * unfold digest_at. rewrite Hc2'. cbn. by rewrite Heq.
Qed.

End Rerun.

Section SecondRun.

Context `{Collaborators}.
Variable self : Phockup.
Hypotheses (Hmove : move self = false) (Hlink : link self = false)
           (Hdry : dry_run self = false).

Lemma process_files_cons fuel file rest w :
  process_files fuel self (file :: rest) w =
  match process_file fuel self file w with
  | (Ok _, w') => process_files fuel self rest w'
  | (Raised e, w') => (Raised e, w')
  | (OutOfFuel, w') => (OutOfFuel, w')
  end.
Proof. done. Qed.

Lemma process_files_grows fuel paths w :
  grows w (snd (process_files fuel self paths w)).
Proof.
  revert w. induction paths as [|file rest IH]; intros w; [apply grows_refl|].
  rewrite process_files_cons.
  pose proof (process_file_untouched self file fuel w) as Hu.
  apply untouched_grows in Hu; [|done].
  destruct (process_file fuel self file w) as [[[]|e|] w']; [|done..].
  eapply grows_trans; [exact Hu|apply IH].
Qed.

(** A second run over the same files, in any world the first run has
    grown into, only looks: every call is read-only, and for every file
    the type filter lets through the duplicate is reported. *)
Lemma rerun_files fuel paths w0 w1 w2 :
  (∀ f, f ∈ paths → is_Some (files w0 !! f)) →
  (∀ f, f ∈ paths → Py.endswith f ".xmp" = false →
        Py.endswith (planned_path self f) ".xmp" = false) →
  process_files fuel self paths w0 = (Ok tt, w1) →
  grows w1 w2 →
  ∃ t, process_files fuel self paths w2 = (Ok tt, logs t w2)
    ∧ Forall (λ c, readonly c = true) t
    ∧ ∀ f, f ∈ paths → Py.endswith f ".xmp" = false →
           filter_rejects self (file_type_of f) = false →
           ∃ k, (1 ≤ k)%nat
             ∧ Print (duplicated_line (candidate (planned_path self f) k)) ∈ t
             ∧ is_Some (digest_at w2 f)
             ∧ digest_at w2 (candidate (planned_path self f) k) = digest_at w2 f.
Proof.
  revert w0 w1 w2. induction paths as [|file rest IH]; intros w0 w1 w2 Hsrc HT Hrun Hgrow.
  - exists []. rewrite logs_nil. split; [done|]. split; [constructor|].
    intros f Hf. by apply elem_of_nil in Hf.
  - rewrite process_files_cons in Hrun.
    destruct (process_file fuel self file w0) as [[[]|e|] wa] eqn:Hfile; [|done..].
    assert (Hg0a : grows w0 wa).
    { apply (untouched_grows self file); [done|].
      pose proof (process_file_untouched self file fuel w0) as Hu.
      by rewrite Hfile in Hu. }
    assert (Hga1 : grows wa w1).
    { pose proof (process_files_grows fuel rest wa) as Hg. by rewrite Hrun in Hg. }
    assert (Hfirst : ∃ t0, process_file fuel self file w2 = (Ok tt, logs t0 w2)
      ∧ Forall (λ c, readonly c = true) t0
      ∧ (Py.endswith file ".xmp" = false →
         filter_rejects self (file_type_of file) = false →
         ∃ k, (1 ≤ k)%nat
           ∧ Print (duplicated_line (candidate (planned_path self file) k)) ∈ t0
           ∧ is_Some (digest_at w2 file)
           ∧ digest_at w2 (candidate (planned_path self file) k) = digest_at w2 file)).
    { destruct (Py.endswith file ".xmp") eqn:Hx.
      - exists []. unfold process_file. rewrite Hx, logs_nil.
        split; [done|]. split; [constructor|done].
      - destruct (Hsrc file) as [c Hc]; [apply list_elem_of_here|].
        destruct (rerun_file self file Hdry (HT file (list_elem_of_here _ _) Hx) Hmove Hlink
                    fuel c w0 wa w2 Hx Hc Hfile)
          as (t0 & Ht0 & Hro & Hdup); [by eapply grows_trans|].
        exists t0. split; [done|]. split; [done|]. intros _ Hf.
        destruct (Hdup Hf) as (k & Hk & Hin & Hdig).
        assert (Hc2 : files w2 !! file = Some c).
        { destruct (grows_trans _ _ _ Hg0a (grows_trans _ _ _ Hga1 Hgrow))
            as (_ & Hkeep & _). by apply Hkeep. }
        exists k. split; [done|]. split; [done|].
        unfold digest_at at 1 3. rewrite Hc2. cbn. split; [by eexists|done]. }
    destruct Hfirst as (t0 & Ht0 & Hro0 & Hdup0).
    destruct (IH wa w1 (logs t0 w2)) as (t1 & Ht1 & Hro1 & Hdup1).
    + intros f Hf. destruct Hg0a as (_ & _ & Hocc). apply Hocc, Hsrc.
      by apply list_elem_of_further.
    + intros f Hf. apply HT. by apply list_elem_of_further.
    + done.
    + eapply grows_same_fs; [exact Hgrow|apply same_fs_logs].
    + exists (t0 ++ t1). rewrite process_files_cons, Ht0, Ht1, logs_logs.
      split; [done|]. split; [by apply Forall_app|].
      intros f [->|Hf]%elem_of_cons Hx Hflt.
      * destruct (Hdup0 Hx Hflt) as (k & Hk & Hin & Hdig).
        exists k. split; [done|]. split; [|done]. apply elem_of_app. by left.
      * destruct (Hdup1 f Hf Hx Hflt) as (k & Hk & Hin & Hdig).
        exists k. split; [done|]. split; [|done]. apply elem_of_app. by right.
Qed.

End SecondRun.

Section NoOverwrite.

Context `{Collaborators}.

Lemma process_file_places self fuel file c w w1 :
  dry_run self = false →
  Py.endswith file ".xmp" = false →
  Py.endswith (planned_path self file) ".xmp" = false →
  filter_rejects self (file_type_of file) = false →
  files w !! file = Some c →
  process_file fuel self file w = (Ok tt, w1) →
  ∃ k c', (∀ j, (j < k)%nat →
             blocked w file (candidate (planned_path self file) (1 + j)) = true)
    ∧ blocked w file (candidate (planned_path self file) (1 + k)) = false
    ∧ files w1 !! candidate (planned_path self file) (1 + k) = Some c'
    ∧ sha256_hexdigest c' = sha256_hexdigest c.
Proof.
  intros Hdry Hx HT Hf Hc Hrun.
  rewrite process_file_eq in Hrun by done. cbn zeta in Hrun.
  destruct (dir_ready self w (planned_dir self file)); [|done].
  set (wa := ensure_dir self (planned_dir self file) (log (Print file) w)) in Hrun.
  assert (Hfa : files wa = files w)
    by exact (ensure_dir_files self (planned_dir self file) (log (Print file) w)).
  assert (Hca : files wa !! file = Some c) by (by rewrite Hfa).
  destruct (first_run_places self file Hdry HT fuel wa w1 c Hf Hca Hrun)
    as (k & c' & _ & Hb & Hnb & Hc' & Heq).
  exists k, c'. split; [|split; [|done]].
  - intros j Hj. rewrite <- (blocked_files _ wa) by done. by apply Hb.
  - by rewrite <- (blocked_files _ wa).
Qed.


End NoOverwrite.

(** ** Dry runs *)

Section Quiet.

Context `{Collaborators}.

Lemma quiet_ret {A} (a : A) : quiet (ret a).
Proof. intros w. exists []. by rewrite logs_nil. Qed.

Lemma quiet_call {A} (r : World → result A) (c : call) :
  readonly c = true → quiet (λ w, (r w, log c w)).
Proof. intros Hc w. exists [c]. split; [done|]. by repeat constructor. Qed.

Lemma quiet_bind {A B} (m : M A) (k : A → M B) :
  quiet m → (∀ a, quiet (k a)) → quiet (bind m k).
Proof.
  intros Hm Hk w. unfold bind. destruct (Hm w) as (t1 & Ht1 & Hro1).
  destruct (m w) as [[a|e|] w1]; cbn [snd] in *; [|by eauto..].
  destruct (Hk a w1) as (t2 & Ht2 & Hro2).
  exists (t1 ++ t2). rewrite Ht2, Ht1, logs_logs. split; [done|].
  by apply Forall_app.
Qed.

Lemma quiet_try_except {A} (m h : M A) e :
  quiet m → quiet h → quiet (try_except m e h).
Proof.
  intros Hm Hh w. unfold try_except. destruct (Hm w) as (t1 & Ht1 & Hro1).
  destruct (m w) as [[a|e'|] w1]; cbn [snd] in *; [by eauto| |by eauto].
  destruct (decide (e' = e)); [|by eauto].
  destruct (Hh w1) as (t2 & Ht2 & Hro2).
  exists (t1 ++ t2). rewrite Ht2, Ht1, logs_logs. split; [done|].
  by apply Forall_app.
Qed.

Lemma quiet_try_except_Exception {A} (m h : M A) :
  quiet m → quiet h → quiet (try_except_Exception m h).
Proof.
  intros Hm Hh w. unfold try_except_Exception.
  destruct (Hm w) as (t1 & Ht1 & Hro1).
  destruct (m w) as [[a|e'|] w1]; cbn [snd] in *; [by eauto| |by eauto].
  destruct (decide (e' = SystemExit)); [by eauto|].
  destruct (Hh w1) as (t2 & Ht2 & Hro2).
  exists (t1 ++ t2). rewrite Ht2, Ht1, logs_logs. split; [done|].
  by apply Forall_app.
Qed.

Lemma quiet_isfile p : quiet (Os.path_isfile p).
Proof. by apply quiet_call. Qed.

Lemma quiet_isdir p : quiet (Os.path_isdir p).
Proof. by apply quiet_call. Qed.

Lemma quiet_exists p : quiet (Os.path_exists p).
Proof. by apply quiet_call. Qed.

Lemma quiet_line msg : quiet (Printer.line msg).
Proof. by apply (quiet_call (λ _, Ok tt)). Qed.

Lemma quiet_error msg : quiet (Printer.error msg).
Proof. by apply (quiet_call (λ _, Raised SystemExit)). Qed.

Lemma quiet_checksum file : quiet (checksum file).
Proof.
  intros w. rewrite checksum_eq. exists [Open file].
  split; [by destruct (files w !! file)|by repeat constructor].
Qed.

Variable self : Phockup.
Hypothesis Hdry : dry_run self = true.

Lemma quiet_get_output_dir date : quiet (get_output_dir self date).
Proof.
  unfold get_output_dir. apply quiet_bind; [apply quiet_isdir|]. intros isdir.
  rewrite Hdry, andb_false_r. apply quiet_bind; apply quiet_ret || (intros; apply quiet_ret).
Qed.

Lemma quiet_get_file_name_and_path file : quiet (get_file_name_and_path self file).
Proof.
  unfold get_file_name_and_path. destruct (bool_decide _);
    (apply quiet_bind; [apply quiet_get_output_dir|intros; apply quiet_ret]).
Qed.

Lemma quiet_transfer_xmp output items : quiet (transfer_xmp self output items).
Proof.
  induction items as [|[original target] items IH]; cbn [transfer_xmp].
  - apply quiet_ret.
  - apply quiet_bind; [apply quiet_line|]. intros _. rewrite Hdry. cbn [negb].
    apply quiet_bind; [apply quiet_ret|]. intros _. exact IH.
Qed.

Lemma quiet_process_xmp file name suffix output :
  quiet (process_xmp self file name suffix output).
Proof.
  unfold process_xmp. apply quiet_bind; [apply quiet_isfile|]. intros e1.
  apply quiet_bind; [apply quiet_isfile|]. intros e2. apply quiet_transfer_xmp.
Qed.

Lemma quiet_transfer file tf : quiet (transfer self file tf).
Proof. unfold transfer. rewrite Hdry. apply quiet_ret. Qed.

Lemma quiet_loop fuel file output name T ty suffix tf :
  quiet (process_file_loop fuel self file output name T ty suffix tf).
Proof.
  revert suffix tf. induction fuel as [|fuel IH]; intros suffix tf; cbn [process_file_loop].
  - intros w. exists []. by rewrite logs_nil.
  - destruct (_ && _); [apply quiet_line|].
    apply quiet_bind; [apply quiet_isfile|]. intros [|].
    + apply quiet_bind; [apply quiet_checksum|]. intros c1.
      apply quiet_bind; [apply quiet_checksum|]. intros c2.
      destruct (String.eqb c1 c2); [apply quiet_line|apply IH].
    + apply quiet_bind; [apply quiet_transfer|]. intros [|]; [|apply quiet_ret].
      apply quiet_bind; [apply quiet_line|]. intros _. apply quiet_process_xmp.
Qed.

Lemma quiet_process_file fuel file : quiet (process_file fuel self file).
Proof.
  unfold process_file. destruct (Py.endswith file ".xmp"); [apply quiet_ret|].
  apply quiet_bind; [apply quiet_line|]. intros _.
  apply quiet_bind; [apply quiet_get_file_name_and_path|].
  intros [[[output name] T] ty]. apply quiet_loop.
Qed.

Lemma quiet_process_files fuel paths : quiet (process_files fuel self paths).
Proof.
  induction paths as [|file rest IH]; cbn [process_files]; [apply quiet_ret|].
  apply quiet_bind; [apply quiet_process_file|]. intros _. exact IH.
Qed.

Lemma quiet_check_directories : quiet (check_directories self).
Proof.
  unfold check_directories. apply quiet_bind; [apply quiet_isdir|]. intros isdir.
  apply quiet_bind.
  { destruct (negb isdir); [apply quiet_ret|].
    apply quiet_bind; [apply quiet_exists|]. intros e. apply quiet_ret. }
  intros [|]; [apply quiet_error|].
  apply quiet_bind; [apply quiet_exists|]. intros e.
  destruct (negb e); [|apply quiet_ret].
  apply quiet_bind; [apply quiet_line|]. intros _.
  apply quiet_try_except_Exception; [|apply quiet_error].
  rewrite Hdry. apply quiet_ret.
Qed.

End Quiet.

Section DryRun.

Context `{Collaborators}.

Lemma dir_ready_dry self w d : dry_run self = true → dir_ready self w d = true.
Proof. intros Hd. unfold dir_ready. by rewrite Hd, orb_true_r. Qed.

(** In a dry run the planned transfer is reported all the same. *)
Lemma dry_run_reports self fuel file w k :
  dry_run self = true →
  Py.endswith file ".xmp" = false →
  filter_rejects self (file_type_of file) = false →
  (∀ j, (j < k)%nat →
        blocked w file (candidate (planned_path self file) (1 + j)) = true) →
  isfile_in w (candidate (planned_path self file) (1 + k)) = false →
  (k < fuel)%nat →
  Print (" => " +:+ candidate (planned_path self file) (1 + k))
  ∈ trace (snd (process_file fuel self file w)).
Proof.
  intros Hdry Hx Hf Hb Hfree Hk.
  rewrite process_file_eq by done. cbn zeta. rewrite dir_ready_dry by done.
  set (wa := ensure_dir _ _ _).
  assert (Hfa : files wa = files w).
  { unfold wa, ensure_dir. by destruct (_ || _). }
  replace fuel with (k + S (fuel - k - 1))%nat by lia.
  change (planned_path self file) with (candidate (planned_path self file) 1) at 3.
  rewrite loop_skip; [|done|lia|].
  2:{ intros j Hj. rewrite (blocked_files _ _ w) by done. by apply Hb. }
  set (wk := probe_all _ _ _).
  assert (Hfk : files wk = files w).
  { unfold wk. by rewrite probe_all_files. }
  rewrite loop_step, Hf by lia.
  assert (isfile_in wk (candidate (planned_path self file) (1 + k)) = false) as ->.
  { apply isfile_in_None. rewrite Hfk. by apply isfile_in_None. }
  rewrite transfer_eq, Hdry.
  set (wp := log (Print _) _).
  destruct (quiet_process_xmp self Hdry file (planned_name self file) (1 + k)
              (planned_dir self file) wp) as (t & -> & _).
  cbn. rewrite !elem_of_app. left. right. apply list_elem_of_here.
Qed.


End DryRun.

Section TypeFilter.

Context `{Collaborators}.

(** C3, as amended: a file of the wrong type is skipped without any
    look at the candidate path and without any transfer, but after
    its destination directory has been looked for and, unless it was
    there or the run is dry, made. *)
Theorem wrong_type_skipped_after_planning (self : Phockup) (fuel : nat)
    (file wanted : string) (w : World) :
  Py.endswith file ".xmp" = false →
  file_type self = Some wanted →
  file_type_of file ≠ Some wanted →
  dir_ready self w (planned_dir self file) = true →
  let d := planned_dir self file in
  let made := negb (isdir_in w d || dry_run self) in
  process_file (S fuel) self file w =
  (Ok tt,
   logs ([Print file; IsDir d]
         ++ (if made then [Makedirs d] else [])
         ++ [Print (skipped_wrong_type self (file_type_of file))])
     (if made then add_dir d w else w)).
Proof.
  intros Hx Hwanted Hty Hready d made.
  assert (Hf : filter_rejects self (file_type_of file) = true).
  { unfold filter_rejects. rewrite Hwanted.
    apply andb_true_iff. split; by apply bool_decide_eq_true. }
  rewrite process_file_eq by done. cbn zeta. rewrite Hready.
  rewrite loop_step, Hf by lia.
  unfold ensure_dir, made, d.
  change (isdir_in (log (Print file) w)) with (isdir_in w).
  destruct (isdir_in w (planned_dir self file) || dry_run self); cbn [negb].
  - unfold logs, log. cbn. f_equal. f_equal. by rewrite <- !app_assoc.
  - unfold logs, log, add_dir. cbn. f_equal. f_equal. by rewrite <- !app_assoc.
Qed.

End TypeFilter.

Section Collisions.

Context `{Collaborators}.
Variables (self : Phockup) (file output name T : string) (ty : option string).

Local Abbreviation loop fuel := (process_file_loop fuel self file output name T ty).

(** C4: when the candidate for counter [N] holds a file with another
    digest, the next candidate has [-(N+1)] put before the extension
    of the canonical path [T], and the loop, if it ends, ends at a later
    candidate that is free or holds a file with the digest of the
    source. *)
Theorem collision_probes_next_suffix (n N : nat) (c c' : list byte) (w : World) :
  filter_rejects self ty = false →
  (1 ≤ N)%nat →
  files w !! file = Some c →
  files w !! candidate T N = Some c' →
  sha256_hexdigest c ≠ sha256_hexdigest c' →
  fst (loop (S n) N (candidate T N) w) ≠ OutOfFuel →
  loop (S n) N (candidate T N) w =
    loop n (S N)
      (fst (OsPath.splitext T) +:+ "-" +:+ Py.str_of_nat (S N)
       +:+ snd (OsPath.splitext T))
      (probed file (candidate T N) w)
  ∧ fst (OsPath.splitext T) +:+ snd (OsPath.splitext T) = T
  ∧ ∃ k, (N < k)%nat
      ∧ (∀ j, (N ≤ j < k)%nat → blocked w file (candidate T j) = true)
      ∧ (isfile_in w (candidate T k) = false
         ∨ duplicate w file (candidate T k) = true).
Proof.
  intros Hf HN Hc Hc' Hne Hend.
  assert (Hb : blocked w file (candidate T N) = true).
  { unfold blocked, digest_at. rewrite Hc, Hc'. cbn.
    apply negb_true_iff, String.eqb_neq. done. }
  split; [|split].
  - rewrite loop_step_blocked by done. by rewrite candidate_next.
  - apply splitext_join.
  - destruct (loop_decompose self file output name T ty (S n) N w Hf HN)
      as (k & Hk & Hbk & Heq & Hlast).
    rewrite Heq in Hend.
    destruct Hlast as [->|Hlast].
    { by rewrite Nat.sub_diag in Hend. }
    destruct k as [|k].
    { rewrite Nat.add_0_r in Hlast. congruence. }
    exists (N + S k)%nat. split; [lia|]. split.
    + intros j Hj. replace j with (N + (j - N))%nat by lia. apply Hbk. lia.
    + destruct (files w !! candidate T (N + S k)) as [ck|] eqn:Hck.
      * right. unfold blocked, digest_at in Hlast. unfold duplicate, digest_at.
        rewrite Hc, Hck in Hlast. rewrite Hc, Hck. cbn in Hlast |- *.
        by apply negb_false_iff in Hlast.
      * left. by apply isfile_in_None.
Qed.

End Collisions.

Section Termination.

Context `{Collaborators}.

Lemma ends_ret {A} (a : A) : ends (ret a).
Proof. done. Qed.

Lemma ends_bind {A B} (m : M A) (k : A → M B) :
  ends m → (∀ a, ends (k a)) → ends (bind m k).
Proof.
  intros Hm Hk w. unfold bind. specialize (Hm w).
  destruct (m w) as [[a|e|] w1]; [apply Hk|done..].
Qed.

Lemma ends_transfer_xmp self output items : ends (transfer_xmp self output items).
Proof.
  induction items as [|[original target] items IH]; cbn [transfer_xmp]; [done|].
  apply ends_bind; [done|]. intros _. apply ends_bind; [|done].
  destruct (negb _); [|done]. destruct (move self).
  { intros w. unfold Shutil.move. by destruct (files _ !! _). }
  destruct (link self).
  { intros w. unfold Os.link. destruct (files _ !! _); [|done]. by destruct (_ || _). }
  intros w. unfold Shutil.copy2. by destruct (files _ !! _).
Qed.

Lemma ends_process_xmp self file name suffix output :
  ends (process_xmp self file name suffix output).
Proof.
  unfold process_xmp. apply ends_bind; [done|]. intros e1.
  apply ends_bind; [done|]. intros e2. apply ends_transfer_xmp.
Qed.

(** The blocked candidates are different files. *)
Lemma blocked_bound (w : World) (file T : string) (n : nat) :
  (∀ j, (j < n)%nat → blocked w file (candidate T (1 + j)) = true) →
  (n ≤ size (files w))%nat.
Proof.
  intros Hb.
  set (l := (λ j, candidate T (1 + j)) <$> seq 0 n).
  assert (Hnd : NoDup l).
  { apply NoDup_fmap_2; [|apply NoDup_seq].
    intros i j Hij. apply candidate_inj in Hij; lia. }
  assert (Hsub : list_to_set l ⊆ dom (files w)).
  { intros p Hp. apply elem_of_list_to_set, list_elem_of_fmap in Hp as (j & -> & Hj).
    apply elem_of_seq in Hj.
    destruct (blocked_true file w _ (Hb j ltac:(lia))) as (_ & c' & _ & Hc' & _).
    apply elem_of_dom. by rewrite Hc'. }
  apply subseteq_size in Hsub.
  rewrite size_list_to_set, size_dom in Hsub by done.
  unfold l in Hsub. by rewrite length_fmap, length_seq in Hsub.
Qed.

(** With more iterations allowed than there are files, the loop of
    [process_file] comes to an end. *)
Theorem process_file_ends (self : Phockup) (fuel : nat) (file : string) (w : World) :
  (size (files w) < fuel)%nat →
  fst (process_file fuel self file w) ≠ OutOfFuel.
Proof.
  intros Hfuel.
  destruct (Py.endswith file ".xmp") eqn:Hx.
  { unfold process_file. by rewrite Hx. }
  rewrite process_file_eq by done. cbn zeta.
  destruct (dir_ready self w (planned_dir self file)); [|done].
  set (wa := ensure_dir _ _ _).
  assert (Hfa : files wa = files w).
  { unfold wa, ensure_dir. by destruct (_ || _). }
  destruct (filter_rejects self (file_type_of file)) eqn:Hf.
  { destruct fuel; [lia|]. by rewrite loop_step, Hf by lia. }
  destruct (loop_decompose self file (planned_dir self file) (planned_name self file)
              (planned_path self file) (file_type_of file) fuel 1%nat wa Hf)
    as (k & Hk & Hb & Heq & Hlast); [lia|].
  change (candidate (planned_path self file) 1) with (planned_path self file) in Heq.
  rewrite Heq. clear Heq.
  assert (Hkb : (k ≤ size (files w))%nat).
  { rewrite <- Hfa. by eapply blocked_bound. }
  destruct Hlast as [->|Hlast]; [lia|].
  destruct (fuel - k)%nat as [|m] eqn:Hm; [lia|].
  set (wk := probe_all _ _ _).
  rewrite loop_step, Hf by lia.
  rewrite (blocked_files _ _ wk) in Hlast by (unfold wk; by rewrite probe_all_files).
  unfold blocked, digest_at in Hlast.
  destruct (isfile_in wk _) eqn:Hocc.
  - destruct (files wk !! file) as [c|]; [|done].
    destruct (files wk !! candidate _ _) as [c'|]; [|done].
    cbn in Hlast. apply negb_false_iff in Hlast. by rewrite Hlast.
  - rewrite transfer_eq.
    destruct (dry_run self); [apply ends_process_xmp|].
    destruct (move self).
    { destruct (files _ !! file); [apply ends_process_xmp|done]. }
    destruct (link self).
    { destruct (files _ !! file); [|done].
      destruct (_ || _); [done|apply ends_process_xmp]. }
    destruct (files _ !! file); [apply ends_process_xmp|done].
Qed.

End Termination.

(** ** Sources that are gone *)

Section Vanished.

Context `{Collaborators}.
Variables (self : Phockup) (file : string) (w : World).

Hypothesis Hdry : dry_run self = false.
Hypothesis Hx : Py.endswith file ".xmp" = false.
Hypothesis Hflt : filter_rejects self (file_type_of file) = false.
Hypothesis Hready : dir_ready self w (planned_dir self file) = true.
Hypothesis Hgone : files w !! file = None.
Hypothesis Hfree : isfile_in w (planned_path self file) = false.

(** The world in which the transfer is tried. *)
Local Abbreviation tried :=
  (log (IsFile (planned_path self file))
     (ensure_dir self (planned_dir self file) (log (Print file) w))).

Lemma tried_files : files tried = files w.
Proof. exact (ensure_dir_files self (planned_dir self file) (log (Print file) w)). Qed.

(** Moving or copying a source that is gone is reported as a skip, and
    the run goes on with the files that follow. *)
Lemma vanished_source_skipped fuel rest :
  move self = true ∨ link self = false →
  process_files (S fuel) self (file :: rest) w =
  process_files (S fuel) self rest
    (log (Print no_such_file)
       (log (if move self then Move file (planned_path self file)
             else Copy2 file (planned_path self file)) tried)).
Proof.
  intros Hmode. rewrite process_files_cons, process_file_eq by done.
  cbn zeta. rewrite Hready, loop_step, Hflt by lia.
  change (isfile_in (ensure_dir _ _ _) ?p) with (isfile_in tried p).
  assert (isfile_in tried (planned_path self file) = false) as ->.
  { apply isfile_in_None. rewrite tried_files. by apply isfile_in_None. }
  rewrite transfer_eq, Hdry.
  assert (Hg : files tried !! file = None) by (by rewrite tried_files).
  destruct (move self); [by rewrite Hg|].
  destruct Hmode as [Hm | Hl]; [done|]. by rewrite Hl, Hg.
Qed.

(** Linking it raises, and the exception ends the run. *)
Lemma vanished_source_link_raises fuel rest :
  move self = false → link self = true →
  process_files (S fuel) self (file :: rest) w =
  (Raised FileNotFoundError, log (Link file (planned_path self file)) tried).
Proof.
  intros Hmove Hlink. rewrite process_files_cons, process_file_eq by done.
  cbn zeta. rewrite Hready, loop_step, Hflt by lia.
  change (isfile_in (ensure_dir _ _ _) ?p) with (isfile_in tried p).
  assert (isfile_in tried (planned_path self file) = false) as ->.
  { apply isfile_in_None. rewrite tried_files. by apply isfile_in_None. }
  rewrite transfer_eq, Hdry, Hmove, Hlink.
  assert (Hg : files tried !! file = None) by (by rewrite tried_files).
  by rewrite Hg.
Qed.

End Vanished.

Section Idempotence.

Context `{Collaborators}.


End Idempotence.

(** ** The pipeline at work *)

Ltac in_trace := repeat first [apply list_elem_of_here | apply list_elem_of_further].

Section Examples.

Local Existing Instance Demo.collaborators.

Example splitext_cr2 :
  OsPath.splitext "out/2021/06/15/20210615-102030.cr2"
  = ("out/2021/06/15/20210615-102030", ".cr2").
Proof. reflexivity. Qed.

Example splitext_hidden :
  OsPath.splitext "out/unknown/.bashrc" = ("out/unknown/.bashrc", "").
Proof. reflexivity. Qed.

Example splitext_dotted_dir :
  OsPath.splitext "out.d/unknown/README" = ("out.d/unknown/README", "").
Proof. reflexivity. Qed.

Example basename_jpg : OsPath.basename "in/a/IMG_0001.JPG" = "IMG_0001.JPG".
Proof. reflexivity. Qed.

Example zfill_widths :
  Py.zfill 4 2021 = "2021" ∧ Py.zfill 2 6 = "06" ∧ Py.zfill 2 123 = "123".
Proof. vm_compute. auto. Qed.

(** The scenario of the specification: a dated picture goes to
    [output/2021/06/15/20210615-102030.jpg]. *)
Example dated_picture_placed :
  let w := snd (process_file 3 Demo.defaults "in/IMG_0001.JPG" Demo.media) in
  files w !! "out/2021/06/15/20210615-102030.jpg" = Some (Demo.bytes "jpeg")
  ∧ trace w =
    [Print "in/IMG_0001.JPG"; IsDir "out/2021/06/15"; Makedirs "out/2021/06/15";
     IsFile "out/2021/06/15/20210615-102030.jpg";
     Copy2 "in/IMG_0001.JPG" "out/2021/06/15/20210615-102030.jpg";
     Print " => out/2021/06/15/20210615-102030.jpg";
     IsFile "in/IMG_0001.JPG.xmp"; IsFile "in/IMG_0001.xmp"].
Proof. vm_compute. auto. Qed.

(** C1: the sidecar [DSC001.CR2.xmp] of a raw file that is placed as
    [20210615-102030-2.cr2] is placed as [20210615-102030.cr2-2.xmp],
    not as [20210615-102030-2.cr2.xmp]; the sidecar named after the
    stem does follow the name of the raw file. *)
Theorem sidecar_suffix_after_extension :
  let w := snd (process_file 3 Demo.defaults "in/DSC001.CR2" Demo.taken) in
  xmp_files "in/DSC001.CR2" "20210615-102030.cr2" 2 true true
  = [("in/DSC001.CR2.xmp", "20210615-102030.cr2-2.xmp");
     ("in/DSC001.xmp", "20210615-102030-2.xmp")]
  ∧ files w !! "out/2021/06/15/20210615-102030-2.cr2" = Some (Demo.bytes "raw")
  ∧ files w !! "out/2021/06/15/20210615-102030.cr2-2.xmp" = Some (Demo.bytes "edits")
  ∧ files w !! "out/2021/06/15/20210615-102030-2.cr2.xmp" = None
  ∧ Copy2 "in/DSC001.CR2.xmp" "out/2021/06/15/20210615-102030.cr2-2.xmp" ∈ trace w
  ∧ candidate "out/2021/06/15/20210615-102030.cr2" 2
    = "out/2021/06/15/20210615-102030-2.cr2"
  ∧ fst (OsPath.splitext "20210615-102030-2.cr2") +:+ ".xmp" = "20210615-102030-2.xmp".
Proof.
  vm_compute. split_and!; try reflexivity.
  in_trace.
Qed.

(** C2: when the source is gone, a run that links ends with the
    exception and never gets to the next file; a run that copies or
    moves reports the skip and goes on. *)
Theorem link_of_vanished_source_raises :
  let paths := ["in/GONE.JPG"; "in/IMG_0001.JPG"] in
  let linking := process_files 3 (Demo.with_mode false true false None) paths Demo.media in
  let copying := process_files 3 (Demo.with_mode false false false None) paths Demo.media in
  let moving := process_files 3 (Demo.with_mode true false false None) paths Demo.media in
  fst linking = Raised FileNotFoundError
  ∧ trace (snd linking) =
    [Print "in/GONE.JPG"; IsDir "out/2021/06/15"; Makedirs "out/2021/06/15";
     IsFile "out/2021/06/15/20210615-102030.jpg";
     Link "in/GONE.JPG" "out/2021/06/15/20210615-102030.jpg"]
  ∧ files (snd linking) !! "out/2021/06/15/20210615-102030.jpg" = None
  ∧ fst copying = Ok tt
  ∧ Print no_such_file ∈ trace (snd copying)
  ∧ files (snd copying) !! "out/2021/06/15/20210615-102030.jpg" = Some (Demo.bytes "jpeg")
  ∧ fst moving = Ok tt
  ∧ Print no_such_file ∈ trace (snd moving)
  ∧ files (snd moving) !! "out/2021/06/15/20210615-102030.jpg" = Some (Demo.bytes "jpeg").
Proof.
  vm_compute. split_and!; try reflexivity;
    in_trace.
Qed.

(** C3 fails as stated: the directory of a picture that the filter
    rejects is looked for and made before the skip is reported. *)
Lemma wrong_type_directory_made :
  let self := Demo.with_mode false false false (Some "video") in
  let w := snd (process_file 3 self "in/IMG_0001.JPG" Demo.media) in
  file_type_of "in/IMG_0001.JPG" = Some "image"
  ∧ isdir_in Demo.media "out/2021/06/15" = false
  ∧ isdir_in w "out/2021/06/15" = true
  ∧ trace w =
    [Print "in/IMG_0001.JPG"; IsDir "out/2021/06/15"; Makedirs "out/2021/06/15";
     Print " => skipped, file is image but should be video"].
Proof. vm_compute. auto. Qed.



(** C7 fails as stated: [image/] alone is no image, a string that
    differs from the photoshop type at its dots is one, and a video
    type with a line feed in it is no video. *)
Lemma classification_differs :
  class_of (type_of_mime (Some "image/")) ≠ spec_classify (Some "image/")
  ∧ class_of (type_of_mime (Some "application/vnd-adobe-photoshop"))
    ≠ spec_classify (Some "application/vnd-adobe-photoshop")
  ∧ class_of (type_of_mime (Some ("video/a" +:+ String Re.newline "b")))
    ≠ spec_classify (Some ("video/a" +:+ String Re.newline "b")).
Proof. vm_compute. split_and!; discriminate. Qed.

End Examples.

Section Witnesses.

Local Existing Instance Demo.collaborators.

Lemma get_file_type_by_design_witness :
  class_of (type_of_mime (Some "image/jpeg")) = image
  ∧ class_of (type_of_mime (Some "Image/jpeg")) = unknown.
Proof.
  split.
  - rewrite (get_file_type_by_design (Some "image/jpeg")); [reflexivity|].
    intros m [= <-]. split; [reflexivity|].
    intros (a & b & Heq & _). vm_compute in Heq. discriminate.
  - rewrite (get_file_type_by_design (Some "Image/jpeg")); [reflexivity|].
    intros m [= <-]. split; [reflexivity|].
    intros (a & b & Heq & _). vm_compute in Heq. discriminate.
Defined.

Lemma wrong_type_skipped_after_planning_witness :
  process_file 1 (Demo.with_mode false false false (Some "video"))
    "in/IMG_0001.JPG" Demo.media =
  (Ok tt,
   logs [Print "in/IMG_0001.JPG"; IsDir "out/2021/06/15"; Makedirs "out/2021/06/15";
         Print " => skipped, file is image but should be video"]
     (add_dir "out/2021/06/15" Demo.media)).
Proof.
  etrans.
  - apply (wrong_type_skipped_after_planning
             (Demo.with_mode false false false (Some "video")) 0
             "in/IMG_0001.JPG" "video" Demo.media).
    + reflexivity.
    + reflexivity.
    + vm_compute. discriminate.
    + vm_compute. reflexivity.
  - vm_compute. reflexivity.
Defined.

Lemma collision_probes_next_suffix_witness :
  let self := Demo.defaults in
  let file := "in/DSC001.CR2" in
  let T := "out/2021/06/15/20210615-102030.cr2" in
  let loop n :=
    process_file_loop n self file "out/2021/06/15" "20210615-102030.cr2" T
      (Some "image") in
  (loop 3%nat 1%nat (candidate T 1) Demo.taken =
     loop 2%nat 2%nat
       (fst (OsPath.splitext T) +:+ "-" +:+ Py.str_of_nat 2
        +:+ snd (OsPath.splitext T))
       (probed file (candidate T 1) Demo.taken)
   ∧ fst (OsPath.splitext T) +:+ snd (OsPath.splitext T) = T
   ∧ ∃ k, (1 < k)%nat
       ∧ (∀ j, (1 ≤ j < k)%nat → blocked Demo.taken file (candidate T j) = true)
       ∧ (isfile_in Demo.taken (candidate T k) = false
          ∨ duplicate Demo.taken file (candidate T k) = true))
  ∧ fst (OsPath.splitext T) +:+ "-" +:+ Py.str_of_nat 2 +:+ snd (OsPath.splitext T)
    = "out/2021/06/15/20210615-102030-2.cr2".
Proof.
  intros self file T loop. split; [|vm_compute; reflexivity].
  assert (H1 : filter_rejects self (Some "image") = false) by reflexivity.
  assert (H2 : (1 ≤ 1)%nat) by lia.
  assert (H3 : files Demo.taken !! file = Some (Demo.bytes "raw"))
    by (vm_compute; reflexivity).
  assert (H4 : files Demo.taken !! candidate T 1 = Some (Demo.bytes "another"))
    by (vm_compute; reflexivity).
  assert (H5 : sha256_hexdigest (Demo.bytes "raw")
               ≠ sha256_hexdigest (Demo.bytes "another"))
    by (vm_compute; discriminate).
  assert (H6 : fst (loop 3%nat 1%nat (candidate T 1) Demo.taken) ≠ OutOfFuel)
    by (vm_compute; discriminate).
  exact (collision_probes_next_suffix self file "out/2021/06/15"
           "20210615-102030.cr2" T (Some "image") 2 1 (Demo.bytes "raw")
           (Demo.bytes "another") Demo.taken H1 H2 H3 H4 H5 H6).
Defined.




End Witnesses.

(** * Further properties of the pipeline *)

(** ** Reading and hashing *)

Section Checksum.

Context `{Collaborators}.

Lemma read_blocks_sizes fuel n data :
  Forall (λ block, (0 < length block ≤ n)%nat) (read_blocks fuel n data).
Proof.
  revert data. induction fuel as [|fuel IH]; intros data; cbn [read_blocks]; [done|].
  destruct (take n data) as [|b block] eqn:Ht; [done|].
  constructor; [|apply IH].
  rewrite <- Ht, length_take. split; [|lia].
  assert (length (take n data) = S (length block)) as Hl by (by rewrite Ht).
  rewrite length_take in Hl. lia.
Qed.

(** X1: [checksum] opens the file once and returns the digest of its
    whole content: the blocks it reads are not empty, hold at most
    [block_size] bytes each and, put end to end, are the content; a file
    that is not there makes it raise [FileNotFoundError]. Nothing on
    disk changes. *)
Theorem checksum_whole_content (file : string) (w : World) :
  checksum file w =
  (match files w !! file with
   | Some data => Ok (sha256_hexdigest data)
   | None => Raised FileNotFoundError
   end, log (Open file) w)
  ∧ ∀ data : list byte,
      let blocks := read_blocks (S (length data)) (N.to_nat 65536) data in
      concat blocks = data
      ∧ Forall (λ block, (0 < length block ≤ N.to_nat 65536)%nat) blocks.
Proof.
  split.
  - rewrite checksum_eq. by destruct (files w !! file).
  - intros data blocks. split.
    + apply concat_read_blocks; lia.
    + apply read_blocks_sizes.
Qed.

End Checksum.

(** ** The directories *)

Section Directories.

Context `{Collaborators}.

Lemma isfile_in_log c w p : isfile_in (log c w) p = isfile_in w p.
Proof. done. Qed.

Lemma isdir_in_log c w p : isdir_in (log c w) p = isdir_in w p.
Proof. done. Qed.

(** X2: when the input path is no directory, [check_directories]
    reports it and is done: the output directory is neither looked at
    nor made, and nothing on disk changes. *)
Theorem missing_input_reported (self : Phockup) (w : World) :
  isdir_in w (input self) = false →
  snd (check_directories self w) =
  logs [IsDir (input self);
        PrintError ("Input directory " +:+ dquote +:+ input self +:+ dquote
                    +:+ " does not exist or cannot be accessed")] w.
Proof.
  intros Hin. unfold check_directories, bind, Os.path_isdir. rewrite Hin.
  cbn [negb ret Printer.error snd]. unfold log, logs; cbn.
  by rewrite <- app_assoc.
Qed.


(** X4: once [get_output_dir] has returned a directory, asking again
    for the same date finds it: the second call returns the same path
    and only looks. *)
Theorem get_output_dir_twice (self : Phockup) (date : option DateDict)
    (d : string) (w w1 : World) :
  get_output_dir self date w = (Ok d, w1) →
  get_output_dir self date w1 = (Ok d, log (IsDir d) w1).
Proof.
  intros H1. pose proof (get_output_dir_eq self date w) as E. cbn zeta in E.
  rewrite E in H1. clear E.
  destruct (_ || _ || _) eqn:Hr; [|done].
  injection H1 as <- <-.
  pose proof (get_output_dir_eq self date
                (ensure_dir self (output_dir_path self date) w)) as E.
  cbn zeta in E. rewrite E. clear E.
  assert (Hd : isdir_in (ensure_dir self (output_dir_path self date) w)
                 (output_dir_path self date) || dry_run self = true).
  { destruct (dry_run self) eqn:Hdry; [by rewrite orb_true_r|].
    rewrite orb_false_r. apply isdir_in_true. unfold ensure_dir.
    rewrite Hdry, orb_false_r.
    destruct (isdir_in w (output_dir_path self date)) eqn:Hd.
    - by apply isdir_in_true in Hd.
    - cbn. set_solver. }
  rewrite Hd. cbn [orb]. f_equal.
  unfold ensure_dir at 1. by rewrite Hd.
Qed.

(** X5: when a regular file sits where the directory of a file is to
    be made, [os.makedirs] raises [FileExistsError]; nothing catches
    it, so the run ends there, whatever the type filter says of the
    file and whatever files are still to come. *)
Theorem directory_path_taken_by_file (self : Phockup) (fuel : nat)
    (file : string) (rest : list string) (w : World) :
  Py.endswith file ".xmp" = false →
  dry_run self = false →
  isdir_in w (planned_dir self file) = false →
  isfile_in w (planned_dir self file) = true →
  process_files fuel self (file :: rest) w =
  (Raised FileExistsError,
   logs [Print file; IsDir (planned_dir self file);
         Makedirs (planned_dir self file)] w).
Proof.
  intros Hx Hdry Hd Hf. rewrite process_files_cons.
  rewrite process_file_eq by done. cbn zeta.
  unfold dir_ready. rewrite Hd, Hdry, Hf. cbn [orb negb].
  f_equal. unfold log, logs; cbn. f_equal. by rewrite <- !app_assoc.
Qed.

End Directories.

(** ** The walk *)

Section Walk.

Context `{Collaborators}.

(** X6: the files of a directory are processed in the order of their
    names, the ignored names left out: whatever sorted arrangement of
    the names one takes, that is the order. *)
Theorem files_in_sorted (root : string) (filenames names : list string) :
  Sorted String.le names →
  names ≡ₚ filenames →
  files_in root filenames =
  OsPath.join root <$> filter (λ n, n ∉ ignored_files) names.
Proof.
  intros Hs Hp. unfold files_in. do 2 f_equal.
  apply (Sorted_unique String.le); [apply Sorted_merge_sort, _|done|].
  by rewrite merge_sort_Permutation.
Qed.

(** X7: sidecars are never primaries: a list of paths that all end in
    [.xmp] is run through without a single call. *)
Theorem orphan_sidecars_left_alone (self : Phockup) (fuel : nat)
    (paths : list string) (w : World) :
  Forall (λ f, Py.endswith f ".xmp" = true) paths →
  process_files fuel self paths w = (Ok tt, w).
Proof.
  induction 1 as [|f paths Hf _ IH]; [done|].
  rewrite process_files_cons. unfold process_file. by rewrite Hf.
Qed.

(** X8: a value of the type filter other than [image] and [video]
    lets no file through. *)
Theorem other_filter_value_rejects_all (self : Phockup) (file t : string) :
  file_type self = Some t → t ≠ "image" → t ≠ "video" →
  filter_rejects self (file_type_of file) = true.
Proof.
  intros Ht Hi Hv. unfold filter_rejects. rewrite Ht.
  apply andb_true_iff. split; [|by apply bool_decide_eq_true].
  apply bool_decide_eq_true. unfold file_type_of, type_of_mime.
  destruct (mime_type_of file) as [m|]; [|done].
  destruct (get_file_type_cases m) as [-> | [-> | ->]]; congruence.
Qed.

End Walk.

(** ** [__init__] *)

Section Init.

Lemma take_app_length s t : Py.take (String.length s) (s +:+ t) = s.
Proof.
  induction s as [|a s IH]; [by destruct t|].
  rewrite str_app_cons. cbn [String.length Py.take]. by rewrite IH.
Qed.

(** X9: [__init__] takes one separator off the end of a path, and only
    one; a path without one is kept. *)
Theorem strip_sep_one_separator (p : string) :
  strip_sep (p +:+ "/") = p
  ∧ (if Py.endswith p "/" then p = strip_sep p +:+ "/" else strip_sep p = p).
Proof.
  assert (Hs : ∀ q, strip_sep (q +:+ "/") = q).
  { intros q. unfold strip_sep, OsPath.sep. rewrite endswith_app.
    rewrite str_length_app. cbn [String.length].
    replace (String.length q + 1 - 1)%nat with (String.length q) by lia.
    apply take_app_length. }
  split; [apply Hs|].
  destruct (Py.endswith p "/") eqn:He.
  - apply endswith_iff in He as [u ->]. by rewrite Hs.
  - unfold strip_sep, OsPath.sep. by rewrite He.
Qed.

End Init.

(** ** Sidecars *)

Section Sidecars.

Lemma str_app_eq_self s e : s +:+ e = s → e = "".
Proof.
  intros Heq. apply (f_equal String.length) in Heq.
  rewrite str_length_app in Heq. destruct e; [done|cbn in Heq; lia].
Qed.

(** X10: the mapping of [process_xmp] when both sidecars are found.
    For a file with an extension there are two entries, [file.ext.xmp]
    first. For a file without one the two sidecar paths are the same
    path: the mapping has one entry, and the second assignment, which
    takes the extension off the new name, decides its target. *)
Theorem xmp_files_entries (file name : string) (suffix : nat) :
  let sfx := if (1 <? suffix)%nat then "-" +:+ Py.str_of_nat suffix else "" in
  xmp_files file name suffix true true =
  if String.eqb (snd (OsPath.splitext file)) ""
  then [(file +:+ ".xmp", fst (OsPath.splitext name) +:+ sfx +:+ ".xmp")]
  else [(file +:+ ".xmp", name +:+ sfx +:+ ".xmp");
        (fst (OsPath.splitext file) +:+ ".xmp",
         fst (OsPath.splitext name) +:+ sfx +:+ ".xmp")].
Proof.
  intros sfx. unfold xmp_files. fold sfx. cbn [dict_set].
  pose proof (splitext_join file) as Hj.
  destruct (String.eqb_spec (snd (OsPath.splitext file)) "") as [He|He].
  - rewrite He, str_app_nil_r in Hj. rewrite Hj, String.eqb_refl. done.
  - destruct (String.eqb_spec (file +:+ ".xmp") (fst (OsPath.splitext file) +:+ ".xmp"))
      as [Heq|Hne]; [|done].
    apply str_app_inv_tail in Heq. rewrite Heq in Hj at 3.
    apply str_app_eq_self in Hj. done.
Qed.

End Sidecars.

(** ** Candidates *)

Section MoreCandidates.

(** X11: the candidates the loop tries for one file are different
    paths. *)
Theorem candidates_pairwise_distinct (T : string) (i j : nat) :
  (1 ≤ i)%nat → (1 ≤ j)%nat → i ≠ j → candidate T i ≠ candidate T j.
Proof. intros Hi Hj Hij Heq. by apply candidate_inj in Heq. Qed.

End MoreCandidates.

(** ** Duplicates *)

Section Duplicates.

Context `{Collaborators}.

Lemma duplicate_true w file p :
  duplicate w file p = true →
  ∃ c c', files w !! file = Some c ∧ files w !! p = Some c'
          ∧ sha256_hexdigest c' = sha256_hexdigest c.
Proof.
  unfold duplicate, digest_at. intros Hd.
  destruct (files w !! file) as [c|]; [|done].
  destruct (files w !! p) as [c'|]; [|done].
  cbn in Hd. apply String.eqb_eq in Hd. by exists c, c'.
Qed.

(** X12: when, after [k] occupied candidates with other content, the
    next candidate holds the content of the file, [process_file] reports
    the duplicate and is done with the file: each candidate was looked
    at and read once, nothing was written, and the sidecars of the file
    were not even looked for. *)
Theorem duplicate_skips_sidecars (self : Phockup) (fuel k : nat)
    (file : string) (w : World) :
  Py.endswith file ".xmp" = false →
  filter_rejects self (file_type_of file) = false →
  dir_ready self w (planned_dir self file) = true →
  (∀ j, (j < k)%nat →
        blocked w file (candidate (planned_path self file) (1 + j)) = true) →
  duplicate w file (candidate (planned_path self file) (1 + k)) = true →
  process_file (k + S fuel) self file w =
  (Ok tt,
   logs (concat (probe_calls file <$>
                   (candidate (planned_path self file) <$> seq 1 (S k)))
         ++ [Print (duplicated_line (candidate (planned_path self file) (1 + k)))])
     (ensure_dir self (planned_dir self file) (log (Print file) w))).
Proof.
  intros Hx Hf Hr Hb Hd.
  rewrite process_file_eq by done. cbn zeta. rewrite Hr.
  set (wa := ensure_dir _ _ _).
  assert (Hfa : files wa = files w) by (unfold wa; by rewrite ensure_dir_files).
  assert (Hba : ∀ j, (j < k)%nat →
            blocked wa file (candidate (planned_path self file) (1 + j)) = true).
  { intros j Hj. rewrite <- (blocked_files file w wa) by done. by apply Hb. }
  pose proof (loop_skip self file k (S fuel) 1 wa Hf (le_n 1) Hba) as E.
  rewrite candidate_1 in E. rewrite E. clear E.
  destruct (duplicate_true _ _ _ Hd) as (c & c' & Hc & Hc' & Hcc).
  erewrite loop_duplicate; [|done|lia| | |exact Hcc].
  2:{ rewrite probe_all_files, Hfa. exact Hc. }
  2:{ rewrite probe_all_files, Hfa. exact Hc'. }
  f_equal. rewrite probe_all_logs, logs_logs. f_equal.
  rewrite seq_S, fmap_app, fmap_app, concat_app. cbn [fmap list_fmap concat].
  rewrite app_nil_r, <- app_assoc. done.
Qed.

End Duplicates.

(** ** Runs without exceptions *)

Section NoExceptions.

Context `{Collaborators}.
Variable self : Phockup.
Hypothesis Hmode : link self = false ∨ move self = true ∨ dry_run self = true.

Lemma transfer_xmp_ok output items w :
  NoDup items.*1 →
  Forall (λ item, is_Some (files w !! item.1)) items →
  fst (transfer_xmp self output items w) = Ok tt.
Proof.
  revert w. induction items as [|[o t] items IH]; intros w Hnd Hin; [done|].
  cbn [transfer_xmp]. unfold bind, Printer.line.
  cbn [fmap list_fmap fst] in Hnd.
  apply NoDup_cons in Hnd as [Hno Hnd]. apply Forall_cons in Hin as [[c Hc] Hin].
  cbn [fst] in Hc.
  assert (Hkeep : ∀ fs : gmap string (list byte),
            (∀ p, p ≠ o → is_Some (files w !! p) → is_Some (fs !! p)) →
            Forall (λ item : string * string, is_Some (fs !! item.1)) items).
  { intros fs Hfs. apply Forall_forall. intros [o' t'] Hi'.
    rewrite Forall_forall in Hin. apply Hfs; [|by apply (Hin (o', t'))].
    cbn [fst]. intros Heq. subst o'. apply Hno. apply list_elem_of_fmap.
    by exists (o, t'). }
  pose proof Hmode as Hmode'.
  destruct (dry_run self) eqn:Hdry; cbn [negb].
  { unfold ret. by apply IH. }
  destruct (move self) eqn:Hmv.
  { unfold Shutil.move. cbn [files log]. rewrite Hc. apply IH; [done|].
    apply Hkeep. intros p Hp Hs. cbn [files set_files].
    destruct (decide (p = Py.join OsPath.sep [output; t])) as [->|Hne].
    - by rewrite lookup_insert_eq.
    - by rewrite lookup_insert_ne, lookup_delete_ne. }
  destruct (link self) eqn:Hln; [by destruct Hmode' as [?|[?|?]]|].
  unfold Shutil.copy2. cbn [files log]. rewrite Hc. apply IH; [done|].
  apply Hkeep. intros p Hp Hs. cbn [files set_files].
  destruct (decide (p = Py.join OsPath.sep [output; t])) as [->|Hne].
  - by rewrite lookup_insert_eq.
  - by rewrite lookup_insert_ne.
Qed.

Lemma xmp_files_keys f name suffix e1 e2 :
  NoDup (xmp_files f name suffix e1 e2).*1
  ∧ ∀ k, k ∈ (xmp_files f name suffix e1 e2).*1 →
         (k = f +:+ ".xmp" ∧ e1 = true)
         ∨ (k = fst (OsPath.splitext f) +:+ ".xmp" ∧ e2 = true).
Proof.
  unfold xmp_files. destruct e1, e2; cbn [dict_set].
  - destruct (String.eqb_spec (f +:+ ".xmp") (fst (OsPath.splitext f) +:+ ".xmp"))
      as [Heq|Hne]; cbn [fmap list_fmap fst].
    + split; [apply NoDup_singleton|]. intros k ->%list_elem_of_singleton. by left.
    + split.
      * apply NoDup_cons. split; [by intros ?%list_elem_of_singleton|].
        apply NoDup_singleton.
      * intros k [Hk | Hk%list_elem_of_singleton]%elem_of_cons; subst k;
          [by left|by right].
  - cbn [fmap list_fmap fst]. split; [apply NoDup_singleton|].
    intros k ->%list_elem_of_singleton. by left.
  - cbn [fmap list_fmap fst]. split; [apply NoDup_singleton|].
    intros k ->%list_elem_of_singleton. by right.
  - cbn. split; [apply NoDup_nil_2|]. by intros k ?%elem_of_nil.
Qed.

Lemma process_xmp_ok file name suffix output w :
  fst (process_xmp self file name suffix output w) = Ok tt.
Proof.
  unfold process_xmp, bind, Os.path_isfile.
  destruct (xmp_files_keys file name suffix
              (isfile_in w (file +:+ ".xmp"))
              (isfile_in (log (IsFile (file +:+ ".xmp")) w)
                 (fst (OsPath.splitext file) +:+ ".xmp"))) as [Hnd Hk].
  apply transfer_xmp_ok; [done|].
  apply Forall_forall. intros item Hi.
  destruct (Hk item.1) as [[-> He]|[-> He]].
  - apply list_elem_of_fmap. by exists item.
  - by apply isfile_in_Some in He.
  - by apply isfile_in_Some in He.
Qed.


End NoExceptions.

(** ** What a run keeps and what it takes away *)

Section KeepsFiles.

Context `{Collaborators}.

Lemma grows_log c w w' : grows w w' → grows w (log c w').
Proof. intros Hg. eapply grows_same_fs; [exact Hg|apply same_fs_log]. Qed.

Lemma grows_add_dir d w w' : grows w w' → grows w (add_dir d w').
Proof.
  intros (Hd & Hf & Hs). split; [|done]. cbn. set_solver.
Qed.

Lemma check_directories_grows self w : grows w (snd (check_directories self w)).
Proof.
  unfold check_directories, bind, Os.path_isdir, Os.path_exists, Printer.line,
    Printer.error, try_except_Exception, Os.makedirs, ret.
  destruct (isdir_in w (input self)); cbn [negb].
  - rewrite !isfile_in_log, !isdir_in_log.
    destruct (negb (isfile_in w (input self) || _)); cbn beta.
    { cbn [snd]. do 3 apply grows_log. apply grows_refl. }
    rewrite !isfile_in_log, !isdir_in_log.
    destruct (isfile_in w (output self) || isdir_in w (output self)) eqn:Ho;
      cbn [negb]; cbn beta.
    { cbn [snd]. do 3 apply grows_log. apply grows_refl. }
    destruct (dry_run self); cbn [negb]; cbn beta.
    { cbn [snd]. do 4 apply grows_log. apply grows_refl. }
    rewrite !isfile_in_log, !isdir_in_log, Ho. cbn [snd].
    apply grows_add_dir. do 5 apply grows_log. apply grows_refl.
  - cbn [snd]. do 2 apply grows_log. apply grows_refl.
Qed.


End KeepsFiles.

Section MoveMode.

Context `{Collaborators}.
Variable self : Phockup.

Lemma transfer_xmp_absent output items w p :
  Forall sidecar_item items →
  Py.endswith p ".xmp" = false →
  files w !! p = None →
  files (snd (transfer_xmp self output items w)) !! p = None.
Proof.
  intros Hit Hp. revert w.
  induction Hit as [|[o t] items [_ [stem Hst]] _ IH]; intros w Hn; [done|].
  cbn [snd] in Hst. subst t.
  cbn [transfer_xmp]. unfold bind, Printer.line.
  assert (Hne : p ≠ Py.join OsPath.sep [output; stem +:+ ".xmp"]).
  { intros ->. by rewrite xmp_path_endswith in Hp. }
  destruct (negb (dry_run self)).
  2:{ unfold ret. by apply IH. }
  destruct (move self).
  { unfold Shutil.move. cbn [files log].
    destruct (files w !! o); [|done]. apply IH. cbn [files set_files].
    rewrite lookup_insert_ne by done. apply lookup_delete_None. by right. }
  destruct (link self).
  { unfold Os.link. cbn [files log].
    destruct (files w !! o); [|done].
    destruct (_ || _); [done|]. apply IH. cbn [files set_files].
    by rewrite lookup_insert_ne. }
  unfold Shutil.copy2. cbn [files log].
  destruct (files w !! o); [|done]. apply IH. cbn [files set_files].
  by rewrite lookup_insert_ne.
Qed.


End MoveMode.

(** ** The transfer modes *)

Section MoveOverLink.

Context `{Collaborators}.
Variables (self : Phockup) (b : bool).
Hypothesis Hmode : move self = true ∨ dry_run self = true.

Lemma transfer_set_link file tf w :
  transfer (set_link b self) file tf w = transfer self file tf w.
Proof.
  rewrite !transfer_eq. cbn [set_link dry_run move link].
  destruct (dry_run self); [done|]. destruct (move self); [done|].
  by destruct Hmode.
Qed.

Lemma transfer_xmp_set_link output items w :
  transfer_xmp (set_link b self) output items w = transfer_xmp self output items w.
Proof.
  revert w. induction items as [|[o t] items IH]; intros w; [done|].
  cbn [transfer_xmp]. unfold bind, Printer.line. cbn [set_link dry_run move link].
  set (w1 := log _ w).
  assert (Hop :
    (if negb (dry_run self)
     then if move self then Shutil.move o (Py.join OsPath.sep [output; t])
          else if b then Os.link o (Py.join OsPath.sep [output; t])
          else Shutil.copy2 o (Py.join OsPath.sep [output; t])
     else ret tt) w1 =
    (if negb (dry_run self)
     then if move self then Shutil.move o (Py.join OsPath.sep [output; t])
          else if link self then Os.link o (Py.join OsPath.sep [output; t])
          else Shutil.copy2 o (Py.join OsPath.sep [output; t])
     else ret tt) w1).
  { destruct (dry_run self); [done|]. destruct (move self); [done|].
    by destruct Hmode. }
  rewrite Hop.
  match goal with
  | |- _ = match ?x with _ => _ end => destruct x as [[[]|e|] w2]
  end; [|done..].
  apply IH.
Qed.

Lemma process_xmp_set_link file name suffix output w :
  process_xmp (set_link b self) file name suffix output w
  = process_xmp self file name suffix output w.
Proof. unfold process_xmp, bind. cbn. apply transfer_xmp_set_link. Qed.

Lemma loop_set_link file output name T ty n suffix tf w :
  (1 ≤ suffix)%nat →
  process_file_loop n (set_link b self) file output name T ty suffix tf w
  = process_file_loop n self file output name T ty suffix tf w.
Proof.
  revert suffix tf w. induction n as [|n IH]; intros suffix tf w Hs; [done|].
  rewrite !loop_step by done.
  change (filter_rejects (set_link b self) ty) with (filter_rejects self ty).
  destruct (filter_rejects self ty); [done|].
  destruct (isfile_in w tf).
  - destruct (files w !! file); [|done]. destruct (files w !! tf); [|done].
    destruct (String.eqb _ _); [done|]. apply IH. lia.
  - rewrite transfer_set_link.
    destruct (transfer self file tf _) as [[[]|e|] w1]; [|done..].
    apply process_xmp_set_link.
Qed.

Lemma process_file_set_link fuel file w :
  process_file fuel (set_link b self) file w = process_file fuel self file w.
Proof.
  destruct (Py.endswith file ".xmp") eqn:Hx.
  { unfold process_file. by rewrite Hx. }
  rewrite !process_file_eq by done. cbn zeta.
  change (dir_ready (set_link b self)) with (dir_ready self).
  change (planned_dir (set_link b self) file) with (planned_dir self file).
  change (planned_name (set_link b self) file) with (planned_name self file).
  change (planned_path (set_link b self) file) with (planned_path self file).
  change (ensure_dir (set_link b self)) with (ensure_dir self).
  destruct (dir_ready self w _); [|done]. apply loop_set_link. lia.
Qed.

(** X16: [move] comes before [link]: when files are moved, or in a
    dry run, the [link] attribute changes nothing in what is done for
    any list of files. *)
Theorem move_overrides_link (fuel : nat) (paths : list string) (w : World) :
  process_files fuel (set_link b self) paths w = process_files fuel self paths w.
Proof.
  revert w. induction paths as [|file rest IH]; intros w; [done|].
  rewrite !process_files_cons, process_file_set_link.
  destruct (process_file fuel self file w) as [[[]|e|] w1]; [|done..]. apply IH.
Qed.

End MoveOverLink.

(** ** A line feed after the MIME type *)

Section TrailingNewline.

Context `{Collaborators}.

Lemma chop_newline_app m :
  Re.chop_newline (m +:+ String Re.newline "") = Some m.
Proof.
  induction m as [|a m IH]; [done|].
  rewrite str_app_cons. cbn [Re.chop_newline]. rewrite IH.
  destruct m; done.
Qed.

Lemma contains_newline_end m :
  Py.contains Re.newline (m +:+ String Re.newline "") = true.
Proof. rewrite contains_app. cbn. by rewrite orb_true_r. Qed.

Lemma lang_image_no_newline s :
  Re.lang patternImage s → Py.contains Re.newline s = false.
Proof.
  unfold patternImage. intros [Hl|Hl]%lang_alt.
  - apply lang_lit_seq in Hl as (t & -> & [_ Ht]%lang_plus_any).
    by rewrite contains_app, Ht.
  - apply lang_lit_seq in Hl as (t & -> & Hl).
    apply lang_any_seq in Hl as (a & t1 & Ha & -> & Hl).
    apply lang_lit_seq in Hl as (t2 & -> & Hl).
    apply lang_any_seq in Hl as (c & t3 & Hc & -> & ->%lang_lit).
    rewrite contains_app. cbn [Py.contains String.app orb].
    apply not_eq_sym, Ascii.eqb_neq in Ha, Hc.
    rewrite Ascii.eqb_sym in Ha. rewrite Ascii.eqb_sym in Hc.
    vm_compute in Ha, Hc |- *. rewrite ?Ha, ?Hc. done.
Qed.

Lemma lang_video_no_newline s :
  Re.lang patternVideo s → Py.contains Re.newline s = false.
Proof.
  unfold patternVideo. intros (t & -> & Ht%lang_star_any)%lang_lit_seq.
  by rewrite contains_app, Ht.
Qed.

Lemma match_anchored_newline r m :
  (∀ s, Re.lang r s → Py.contains Re.newline s = false) →
  Py.contains Re.newline m = false →
  Re.match_anchored r (m +:+ String Re.newline "") = Re.match_anchored r m.
Proof.
  intros Hr Hm. unfold Re.match_anchored.
  rewrite chop_newline_app, (chop_newline_None m) by done.
  rewrite orb_false_r.
  destruct (Re.accepts r (m +:+ _)) eqn:Ha; [|done].
  apply accepts_lang, Hr in Ha. by rewrite contains_newline_end in Ha.
Qed.

(** X17: [$] also matches just before a line feed that ends the
    string: a MIME type followed by one line feed is classified as the
    MIME type alone. *)
Theorem trailing_newline_ignored (m : string) :
  Py.contains Re.newline m = false →
  get_file_type (m +:+ String Re.newline "") = get_file_type m.
Proof.
  intros Hm. unfold get_file_type.
  rewrite !match_anchored_newline;
    auto using lang_image_no_newline, lang_video_no_newline.
Qed.

End TrailingNewline.

(** ** Extensions and suffixes *)

Section SplitextFacts.

Lemma rfind_none c s : Py.contains c s = false → Py.rfind c s = -1.
Proof.
  induction s as [|a s IH]; [done|]. cbn [Py.contains Py.rfind].
  intros [Ha Hs]%orb_false_iff. rewrite IH by done. cbn. by rewrite Ha.
Qed.

Lemma rfind_lt_length c s : Py.rfind c s < Z.of_nat (String.length s).
Proof.
  induction s as [|a s IH]; cbn [Py.rfind String.length]; [lia|].
  destruct (0 <=? Py.rfind c s) eqn:Hr; [lia|].
  destruct (Ascii.eqb a c); lia.
Qed.

Lemma rfind_app c s t :
  Py.rfind c (s +:+ t) =
  if 0 <=? Py.rfind c t then Z.of_nat (String.length s) + Py.rfind c t
  else Py.rfind c s.
Proof.
  induction s as [|a s IH].
  - rewrite str_app_nil_l. cbn [String.length Py.rfind].
    destruct (0 <=? Py.rfind c t) eqn:Hr; [lia|].
    pose proof (rfind_ge c t). lia.
  - rewrite str_app_cons. cbn [Py.rfind String.length]. rewrite IH.
    destruct (0 <=? Py.rfind c t) eqn:Hr.
    + assert ((0 <=? Z.of_nat (String.length s) + Py.rfind c t) = true) as -> by lia.
      lia.
    + done.
Qed.

Lemma take_app_le n s t :
  (n ≤ String.length s)%nat → Py.take n (s +:+ t) = Py.take n s.
Proof.
  revert s. induction n as [|n IH]; intros s Hn.
  - by destruct s, t.
  - destruct s as [|a s]; cbn [String.length] in Hn; [lia|].
    rewrite str_app_cons. cbn [Py.take]. rewrite IH by lia. done.
Qed.

Lemma drop_app_length s t : Py.drop (String.length s) (s +:+ t) = t.
Proof.
  induction s as [|a s IH]; [by destruct t|].
  rewrite str_app_cons. cbn [String.length Py.drop]. done.
Qed.

Lemma length_take_str n s :
  (n ≤ String.length s)%nat → String.length (Py.take n s) = n.
Proof.
  revert s. induction n as [|n IH]; intros s Hn; [by destruct s|].
  destruct s as [|a s]; cbn [String.length] in Hn; [lia|].
  cbn [Py.take String.length]. rewrite IH by lia. done.
Qed.

Lemma has_non_dot_app_le n s t :
  (n ≤ String.length s)%nat →
  OsPath.has_non_dot n (s +:+ t) = OsPath.has_non_dot n s.
Proof.
  revert s. induction n as [|n IH]; intros s Hn.
  - by destruct s, t.
  - destruct s as [|a s]; cbn [String.length] in Hn; [lia|].
    rewrite str_app_cons. cbn [OsPath.has_non_dot]. rewrite IH by lia. done.
Qed.

Lemma has_non_dot_app s u :
  OsPath.has_non_dot (String.length (s +:+ u)) (s +:+ u) =
  OsPath.has_non_dot (String.length s) s
  || OsPath.has_non_dot (String.length u) u.
Proof.
  induction s as [|a s IH]; [by rewrite str_app_nil_l|].
  rewrite str_app_cons. cbn [String.length OsPath.has_non_dot].
  rewrite IH. by rewrite orb_assoc.
Qed.

(** A string with a last [c] falls apart around it. *)
Lemma rfind_split c s :
  0 ≤ Py.rfind c s →
  ∃ r e, s = r +:+ String c e ∧ Py.contains c e = false
         ∧ Py.rfind c s = Z.of_nat (String.length r).
Proof.
  intros Hr. destruct (rfind_drop c s Hr) as (e & He & Hc).
  exists (Py.take (Z.to_nat (Py.rfind c s)) s), e.
  pose proof (rfind_lt_length c s).
  split; [|split; [done|]].
  - rewrite <- He. by rewrite take_drop_str.
  - rewrite length_take_str by lia. lia.
Qed.

(** [splitext] of a name without separators. *)
Lemma splitext_name q :
  Py.contains "/" q = false →
  OsPath.splitext q =
  if (0 <=? Py.rfind "." q)
     && OsPath.has_non_dot (Z.to_nat (Py.rfind "." q)) q
  then (Py.take (Z.to_nat (Py.rfind "." q)) q, Py.drop (Z.to_nat (Py.rfind "." q)) q)
  else (q, "").
Proof.
  intros Hq. unfold OsPath.splitext. rewrite (rfind_none "/" q) by done.
  change (Z.to_nat (-1 + 1)) with 0%nat.
  replace (Py.drop 0 q) with q by (by destruct q).
  replace (Py.rfind "." q - (-1 + 1)) with (Py.rfind "." q) by lia.
  replace (-1 <? Py.rfind "." q) with (0 <=? Py.rfind "." q) by lia.
  done.
Qed.

Lemma splitext_no_dot q :
  Py.contains "/" q = false → Py.contains "." q = false →
  OsPath.splitext q = (q, "").
Proof.
  intros Hq Hd. rewrite splitext_name by done.
  by rewrite (rfind_none "." q) by done.
Qed.

Lemma splitext_dotted r e :
  Py.contains "/" (r +:+ String "." e) = false →
  Py.contains "." e = false →
  OsPath.splitext (r +:+ String "." e) =
  if OsPath.has_non_dot (String.length r) r
  then (r, String "." e) else (r +:+ String "." e, "").
Proof.
  intros Hq He. rewrite splitext_name by done.
  assert (Hr : Py.rfind "." (r +:+ String "." e) = Z.of_nat (String.length r)).
  { rewrite rfind_app. cbn [Py.rfind]. rewrite (rfind_none "." e) by done.
    cbn. lia. }
  rewrite Hr, Nat2Z.id.
  assert ((0 <=? Z.of_nat (String.length r)) = true) as -> by lia. cbn [andb].
  rewrite has_non_dot_app_le by done.
  destruct (OsPath.has_non_dot _ r); [|done].
  by rewrite take_app_length, drop_app_length.
Qed.

(** The directory part is carried along. *)
Lemma splitext_dir d q :
  Py.contains "/" q = false →
  OsPath.splitext (d +:+ "/" +:+ q) =
  (d +:+ "/" +:+ fst (OsPath.splitext q), snd (OsPath.splitext q)).
Proof.
  intros Hq. rewrite (splitext_name q) by done.
  unfold OsPath.splitext.
  assert (Hs : Py.rfind "/" (d +:+ "/" +:+ q) = Z.of_nat (String.length d)).
  { rewrite rfind_app. change ("/" +:+ q) with (String "/" q).
    cbn [Py.rfind]. rewrite (rfind_none "/" q) by done. cbn. lia. }
  rewrite Hs.
  replace (Z.to_nat (Z.of_nat (String.length d) + 1))
    with (String.length (d +:+ "/")) by (rewrite str_length_app; cbn; lia).
  rewrite <- str_app_assoc, drop_app_length, str_app_assoc.
  change (d +:+ "/" +:+ q) with (d +:+ ("/" +:+ q)).
  rewrite (rfind_app "." d). change ("/" +:+ q) with (String "/" q).
  cbn [Py.rfind].
  destruct (0 <=? Py.rfind "." q) eqn:Hdot.
  - cbn [andb].
    assert ((0 <=? Py.rfind "." q + 1) = true) as -> by lia.
    assert ((Z.of_nat (String.length d) <?
             Z.of_nat (String.length d) + (Py.rfind "." q + 1)) = true) as -> by lia.
    cbn [andb].
    replace (Z.to_nat (Z.of_nat (String.length d) + (Py.rfind "." q + 1)
                       - (Z.of_nat (String.length d) + 1)))
      with (Z.to_nat (Py.rfind "." q)) by lia.
    destruct (OsPath.has_non_dot _ q); [|done].
    cbn [fst snd].
    replace (Z.to_nat (Z.of_nat (String.length d) + (Py.rfind "." q + 1)))
      with (String.length (d +:+ "/") + Z.to_nat (Py.rfind "." q))%nat
      by (rewrite str_length_app; cbn; lia).
    change (d +:+ String "/" q) with (d +:+ ("/" +:+ q)).
    rewrite <- !str_app_assoc.
    f_equal.
    + generalize (d +:+ "/") (Z.to_nat (Py.rfind "." q)). intros p n.
      induction p as [|a p IH]; [done|].
      rewrite !str_app_cons. cbn [String.length Nat.add Py.take]. by rewrite IH.
    + generalize (d +:+ "/") (Z.to_nat (Py.rfind "." q)). intros p n.
      induction p as [|a p IH]; [done|].
      rewrite !str_app_cons. cbn [String.length Nat.add Py.drop]. by rewrite IH.
  - cbn [andb fst snd].
    replace (0 <=? (if Ascii.eqb "/" "." then 0 else -1)) with false by done.
    pose proof (rfind_lt_length "." d).
    assert ((Z.of_nat (String.length d) <? Py.rfind "." d) = false) as -> by lia.
    done.
Qed.

End SplitextFacts.

Section SuffixPlacement.

Lemma contains_false_app c s t :
  Py.contains c (s +:+ t) = false ↔ Py.contains c s = false ∧ Py.contains c t = false.
Proof. rewrite contains_app. apply orb_false_iff. Qed.

Lemma rfind_nonneg c s : Py.contains c s = true → 0 ≤ Py.rfind c s.
Proof.
  intros Hc. destruct (Z.le_gt_cases 0 (Py.rfind c s)) as [|Hlt]; [done|].
  apply rfind_neg in Hlt. congruence.
Qed.

Lemma splitext_suffix_name q x :
  Py.contains "/" q = false →
  Py.contains "/" x = false → Py.contains "." x = false →
  OsPath.has_non_dot (String.length x) x = true →
  OsPath.splitext (fst (OsPath.splitext q) +:+ x +:+ snd (OsPath.splitext q))
  = (fst (OsPath.splitext q) +:+ x, snd (OsPath.splitext q)).
Proof.
  intros Hq Hx Hxd Hxn.
  destruct (Py.contains "." q) eqn:Hd.
  - destruct (rfind_split "." q (rfind_nonneg _ _ Hd)) as (r & e & -> & He & _).
    rewrite (splitext_dotted r e) by done.
    apply contains_false_app in Hq as [Hr Hse].
    destruct (OsPath.has_non_dot (String.length r) r) eqn:Hn; cbn [fst snd].
    + rewrite <- str_app_assoc. rewrite splitext_dotted; [|..|done].
      * by rewrite has_non_dot_app, Hn.
      * apply contains_false_app. split; [|done].
        apply contains_false_app. done.
    + rewrite str_app_nil_r, str_app_assoc, str_app_cons.
      cbn [Py.contains] in Hse. apply orb_false_iff in Hse as [Hsl Hse].
      rewrite splitext_dotted.
      * by rewrite Hn.
      * apply contains_false_app. split; [done|]. cbn [Py.contains].
        rewrite Hsl. cbn [orb]. by apply contains_false_app.
      * by apply contains_false_app.
  - rewrite (splitext_no_dot q) by done. cbn [fst snd]. rewrite str_app_nil_r.
    apply splitext_no_dot; by apply contains_false_app.
Qed.

Lemma splitext_parts_no_sep q :
  Py.contains "/" q = false →
  Py.contains "/" (fst (OsPath.splitext q)) = false
  ∧ Py.contains "/" (snd (OsPath.splitext q)) = false.
Proof.
  intros Hq. rewrite <- (splitext_join q) in Hq. by apply contains_false_app in Hq.
Qed.

Lemma splitext_suffix T x :
  Py.contains "/" x = false → Py.contains "." x = false →
  OsPath.has_non_dot (String.length x) x = true →
  OsPath.splitext (fst (OsPath.splitext T) +:+ x +:+ snd (OsPath.splitext T))
  = (fst (OsPath.splitext T) +:+ x, snd (OsPath.splitext T)).
Proof.
  intros Hx Hxd Hxn.
  destruct (Py.contains "/" T) eqn:Hs; [|by apply splitext_suffix_name].
  destruct (rfind_split "/" T (rfind_nonneg _ _ Hs)) as (d & q & -> & Hq & _).
  change (d +:+ String "/" q) with (d +:+ "/" +:+ q).
  rewrite (splitext_dir d q) by done. cbn [fst snd].
  destruct (splitext_parts_no_sep q Hq) as [Hf Hsn].
  rewrite !str_app_assoc. rewrite splitext_dir.
  - rewrite splitext_suffix_name by done. done.
  - apply contains_false_app. split; [done|]. by apply contains_false_app.
Qed.

Lemma candidate_suffixed T n :
  (2 ≤ n)%nat →
  candidate T n
  = fst (OsPath.splitext T) +:+ ("-" +:+ Py.str_of_nat n) +:+ snd (OsPath.splitext T).
Proof.
  intros Hn. unfold candidate.
  by assert ((n <=? 1)%nat = false) as -> by (apply Nat.leb_gt; lia).
Qed.

Lemma counter_plain n :
  Py.contains "/" ("-" +:+ Py.str_of_nat n) = false
  ∧ Py.contains "." ("-" +:+ Py.str_of_nat n) = false
  ∧ OsPath.has_non_dot (String.length ("-" +:+ Py.str_of_nat n))
      ("-" +:+ Py.str_of_nat n) = true.
Proof.
  split; [|split]; [cbn; by apply str_of_nat_no..|done].
Qed.

(** X18: the counter goes before the extension, and stays there:
    taking the extension off a suffixed candidate gives back the stem of
    the planned path with the counter, and the extension of the
    planned path. *)
Theorem candidate_keeps_extension (T : string) (n : nat) :
  (2 ≤ n)%nat →
  OsPath.splitext (candidate T n)
  = (fst (OsPath.splitext T) +:+ "-" +:+ Py.str_of_nat n, snd (OsPath.splitext T)).
Proof.
  intros Hn. rewrite candidate_suffixed by done.
  destruct (counter_plain n) as (H1 & H2 & H3). by apply splitext_suffix.
Qed.

Lemma dict_set_elem k v d : (k, v) ∈ dict_set k v d.
Proof.
  induction d as [|[k' v'] d IH]; cbn [dict_set]; [apply list_elem_of_here|].
  destruct (String.eqb_spec k' k) as [->|Hne]; [apply list_elem_of_here|].
  by apply list_elem_of_further.
Qed.

(** X19: the sidecar named after the stem of a file goes beside the
    file: when the new name holds no separator, the target of
    [stem.xmp] is the path the file itself is placed at, counter
    included, with [.xmp] in the place of its extension. *)
Theorem stem_sidecar_beside_primary (file out name : string) (N : nat) (e1 : bool) :
  Py.contains "/" name = false →
  (1 ≤ N)%nat →
  ∃ target,
    (fst (OsPath.splitext file) +:+ ".xmp", target) ∈ xmp_files file name N e1 true
    ∧ Py.join OsPath.sep [out; target]
      = fst (OsPath.splitext (candidate (Py.join OsPath.sep [out; name]) N)) +:+ ".xmp".
Proof.
  intros Hname HN.
  exists (fst (OsPath.splitext name)
          +:+ (if (1 <? N)%nat then "-" +:+ Py.str_of_nat N else "") +:+ ".xmp").
  split; [unfold xmp_files; apply dict_set_elem|].
  change (Py.join OsPath.sep [out; ?t]) with (out +:+ "/" +:+ t).
  destruct (decide (N = 1%nat)) as [->|Hne].
  - cbn [Nat.ltb Nat.leb]. rewrite candidate_1, splitext_dir by done. cbn [fst].
    by rewrite str_app_nil_l, !str_app_assoc.
  - assert ((1 <? N)%nat = true) as -> by (apply Nat.ltb_lt; lia).
    rewrite candidate_suffixed by lia.
    destruct (counter_plain N) as (H1 & H2 & H3).
    rewrite splitext_suffix by done. cbn [fst].
    change (Py.join OsPath.sep [out; name]) with (out +:+ "/" +:+ name).
    rewrite splitext_dir by done. cbn [fst].
    by rewrite !str_app_assoc.
Qed.

End SuffixPlacement.

(** ** Everything is written below the output directory *)

Section Confined.

Context `{Collaborators}.
Variables (out : string) (mv : bool).

Local Abbreviation rel := (confined out mv).
Local Abbreviation under p := (Py.startswith p (out +:+ "/") = true).

Lemma confined_refl w : rel w w.
Proof. split; [by left|]. intros p Hp. by left. Qed.

Lemma confined_trans w1 w2 w3 : rel w1 w2 → rel w2 w3 → rel w1 w3.
Proof.
  intros [Hf1 Hd1] [Hf2 Hd2]. split.
  - intros p. destruct (Hf2 p) as [Heq|[Hu|Hm]]; [|by right; left|by right; right].
    rewrite Heq. apply Hf1.
  - intros p Hp. destruct (Hd2 p Hp) as [Hin|Hr]; [by apply Hd1|by right].
Qed.

Lemma confined_same_fs w w' w'' : rel w w' → same_fs w' w'' → rel w w''.
Proof.
  intros [Hf Hd] [Ef Ed]. split.
  - intros p. rewrite <- Ef. apply Hf.
  - intros p. rewrite <- Ed. apply Hd.
Qed.

Lemma confined_log c w : rel w (log c w).
Proof. eapply confined_same_fs; [apply confined_refl|apply same_fs_log]. Qed.

Lemma confined_add_dir d w : d = out ∨ under d → rel w (add_dir d w).
Proof.
  intros Hd. split; [by left|]. cbn [dirs add_dir]. intros p Hp.
  apply elem_of_union in Hp as [->%elem_of_singleton|Hp]; [by right|by left].
Qed.

Lemma confined_insert p c w : under p → rel w (set_files (<[p := c]> (files w)) w).
Proof.
  intros Hp. split; [|by left]. intros q. cbn [files set_files].
  destruct (decide (q = p)) as [->|Hne]; [by right; left|].
  left. by rewrite lookup_insert_ne.
Qed.

Lemma confined_move src p c w :
  mv = true → under p →
  rel w (set_files (<[p := c]> (delete src (files w))) w).
Proof.
  intros Hmv Hp. split; [|by left]. intros q. cbn [files set_files].
  destruct (decide (q = p)) as [->|Hne]; [by right; left|].
  rewrite lookup_insert_ne by done.
  destruct (decide (q = src)) as [->|Hns].
  - right; right. by rewrite lookup_delete_eq.
  - left. by rewrite lookup_delete_ne.
Qed.

Lemma under_app p s : under p → under (p +:+ s).
Proof.
  intros [t ->]%startswith_app. apply startswith_app. exists (t +:+ s).
  by rewrite !str_app_assoc.
Qed.

Lemma take_app_ge n s t :
  (String.length s ≤ n)%nat →
  Py.take n (s +:+ t) = s +:+ Py.take (n - String.length s) t.
Proof.
  revert n. induction s as [|a s IH]; intros n Hn.
  - rewrite !str_app_nil_l. cbn [String.length]. by rewrite Nat.sub_0_r.
  - cbn [String.length] in Hn. destruct n as [|n]; [lia|].
    rewrite !str_app_cons. cbn [Py.take String.length Nat.sub].
    rewrite IH by lia. done.
Qed.

Lemma splitext_fst_under T : under T → under (fst (OsPath.splitext T)).
Proof.
  intros HT. unfold OsPath.splitext.
  destruct (_ && _) eqn:Hc; [|done]. cbn [fst].
  apply andb_true_iff in Hc as [Hlt _].
  apply startswith_app in HT as [t ->].
  assert (Hsep : Z.of_nat (String.length out)
                 ≤ Py.rfind "/" ((out +:+ "/") +:+ t)).
  { rewrite str_app_assoc, rfind_app. change ("/" +:+ t) with (String "/" t).
    cbn [Py.rfind]. pose proof (rfind_ge "/" t).
    destruct (0 <=? Py.rfind "/" t) eqn:Ht.
    - assert ((0 <=? Py.rfind "/" t + 1) = true) as -> by lia. lia.
    - rewrite Ascii.eqb_refl. cbn. lia. }
  rewrite take_app_ge.
  - apply startswith_app. by eexists.
  - rewrite str_length_app. cbn [String.length]. lia.
Qed.

Lemma candidate_under T n : under T → under (candidate T n).
Proof.
  intros HT. unfold candidate. destruct (n <=? 1)%nat; [done|].
  by apply under_app, splitext_fst_under.
Qed.

End Confined.

Section ConfinedSteps.

Context `{Collaborators}.
Variables (out : string) (self : Phockup).

Local Abbreviation rel := (confined out (move self)).
Local Abbreviation under p := (Py.startswith p (out +:+ "/") = true).

Lemma xmp_op_confined o xp w :
  under xp →
  rel w (snd ((if negb (dry_run self)
               then if move self then Shutil.move o xp
                    else if link self then Os.link o xp
                    else Shutil.copy2 o xp
               else ret tt) w)).
Proof.
  intros Hx. destruct (negb (dry_run self)); [|apply confined_refl].
  destruct (move self) eqn:Em.
  { unfold Shutil.move. cbn [files log].
    destruct (files w !! o) as [c|]; cbn [snd]; [|by apply confined_log].
    eapply confined_trans; [apply confined_log|].
    by apply (confined_move _ _ o xp c (log (Move o xp) w)). }
  destruct (link self).
  { unfold Os.link. cbn [files log].
    destruct (files w !! o) as [c|]; cbn [snd]; [|by apply confined_log].
    destruct (_ || _); cbn [snd]; [by apply confined_log|].
    eapply confined_trans; [apply confined_log|].
    by apply (confined_insert _ _ xp c (log (Link o xp) w)). }
  unfold Shutil.copy2. cbn [files log].
  destruct (files w !! o) as [c|]; cbn [snd]; [|by apply confined_log].
  eapply confined_trans; [apply confined_log|].
  by apply (confined_insert _ _ xp c (log (Copy2 o xp) w)).
Qed.

Lemma transfer_xmp_confined output items w :
  under output → rel w (snd (transfer_xmp self output items w)).
Proof.
  intros Ho. revert w.
  induction items as [|[o t] items IH]; intros w; [apply confined_refl|].
  cbn [transfer_xmp]. unfold bind, Printer.line.
  assert (Hx : under (Py.join OsPath.sep [output; t])).
  { change (Py.join OsPath.sep [output; t]) with (output +:+ ("/" +:+ t)).
    by apply under_app. }
  set (w0 := log _ w).
  assert (H0 : rel w w0) by apply confined_log.
  pose proof (xmp_op_confined o _ w0 Hx) as Hop.
  match goal with
  | |- confined _ _ _ (snd (match ?x with _ => _ end)) =>
      destruct x as [[[]|e|] w1]
  end; cbn [snd] in Hop |- *.
  - eapply confined_trans; [exact H0|].
    eapply confined_trans; [exact Hop|apply IH].
  - eapply confined_trans; [exact H0|exact Hop].
  - eapply confined_trans; [exact H0|exact Hop].
Qed.

Lemma process_xmp_confined file name suffix output w :
  under output → rel w (snd (process_xmp self file name suffix output w)).
Proof.
  intros Ho. unfold process_xmp, bind, Os.path_isfile.
  eapply confined_trans; [|by apply transfer_xmp_confined].
  eapply confined_trans; apply confined_log.
Qed.

Lemma transfer_confined file tf w :
  under tf → rel w (snd (transfer self file tf w)).
Proof.
  intros Ht. rewrite transfer_eq.
  destruct (dry_run self); [apply confined_refl|].
  destruct (move self) eqn:Em.
  { destruct (files w !! file) as [c|]; cbn [snd].
    - eapply confined_trans; [apply confined_log|].
      by apply (confined_move _ _ file tf c (log (Move file tf) w)).
    - eapply confined_trans; apply confined_log. }
  destruct (link self).
  { destruct (files w !! file) as [c|]; cbn [snd]; [|apply confined_log].
    destruct (_ || _); cbn [snd]; [apply confined_log|].
    eapply confined_trans; [apply confined_log|].
    by apply (confined_insert _ _ tf c (log (Link file tf) w)). }
  destruct (files w !! file) as [c|]; cbn [snd].
  - eapply confined_trans; [apply confined_log|].
    by apply (confined_insert _ _ tf c (log (Copy2 file tf) w)).
  - eapply confined_trans; apply confined_log.
Qed.

Lemma loop_confined file output name T ty n suffix tf w :
  (1 ≤ suffix)%nat → under output → under T → under tf →
  rel w (snd (process_file_loop n self file output name T ty suffix tf w)).
Proof.
  intros Hs Ho HT. revert suffix tf w Hs.
  induction n as [|n IH]; intros suffix tf w Hs Htf; [apply confined_refl|].
  rewrite loop_step by done.
  destruct (filter_rejects self ty); [apply confined_log|].
  destruct (isfile_in w tf).
  - destruct (files w !! file); cbn [snd].
    2:{ eapply confined_trans; apply confined_log. }
    assert (Hp : rel w (probed file tf w)).
    { unfold probed. eapply confined_trans; [|apply confined_log].
      eapply confined_trans; apply confined_log. }
    destruct (files w !! tf); [|done].
    destruct (String.eqb _ _).
    + cbn [snd]. eapply confined_trans; [exact Hp|apply confined_log].
    + eapply confined_trans; [exact Hp|].
      apply IH; [lia|by apply candidate_under].
  - pose proof (transfer_confined file tf (log (IsFile tf) w) Htf) as Ht.
    destruct (transfer self file tf _) as [[[]|e|] w1]; cbn [snd] in Ht |- *.
    + eapply confined_trans; [apply confined_log|].
      eapply confined_trans; [exact Ht|].
      eapply confined_trans; [apply confined_log|].
      by apply process_xmp_confined.
    + eapply confined_trans; [apply confined_log|exact Ht].
    + eapply confined_trans; [apply confined_log|exact Ht].
    + eapply confined_trans; [apply confined_log|exact Ht].
Qed.

Hypothesis Hout : output self = out.

Lemma planned_dir_under file : under (planned_dir self file).
Proof.
  unfold planned_dir, output_dir_path. rewrite Hout.
  destruct (bool_decide _); [destruct (resolved_date self file)|];
    apply startswith_app; eexists;
    change (Py.join OsPath.sep [?a; ?b]) with (a +:+ "/" +:+ b);
    by rewrite str_app_assoc.
Qed.

Lemma process_file_confined fuel file w :
  rel w (snd (process_file fuel self file w)).
Proof.
  destruct (Py.endswith file ".xmp") eqn:Hx.
  { unfold process_file. rewrite Hx. apply confined_refl. }
  rewrite process_file_eq by done. cbn zeta.
  pose proof (planned_dir_under file) as Hd.
  destruct (dir_ready self w _).
  - eapply confined_trans; [|apply loop_confined; [lia|done| |]].
    + unfold ensure_dir. destruct (_ || _).
      * eapply confined_trans; apply confined_log.
      * eapply confined_trans; [|apply confined_add_dir; by right].
        eapply confined_trans; [|apply confined_log].
        eapply confined_trans; apply confined_log.
    + unfold planned_path.
      change (Py.join OsPath.sep [?a; ?b]) with (a +:+ ("/" +:+ b)).
      by apply under_app.
    + unfold planned_path.
      change (Py.join OsPath.sep [?a; ?b]) with (a +:+ ("/" +:+ b)).
      by apply under_app.
  - cbn [snd]. eapply confined_trans; [|apply confined_log].
    eapply confined_trans; apply confined_log.
Qed.

Lemma process_files_confined fuel paths w :
  rel w (snd (process_files fuel self paths w)).
Proof.
  revert w. induction paths as [|file rest IH]; intros w; [apply confined_refl|].
  rewrite process_files_cons.
  pose proof (process_file_confined fuel file w) as Hf.
  destruct (process_file fuel self file w) as [[[]|e|] w1]; [|done..].
  eapply confined_trans; [exact Hf|apply IH].
Qed.

Lemma check_directories_confined w : rel w (snd (check_directories self w)).
Proof.
  unfold check_directories, bind, Os.path_isdir, Os.path_exists, Printer.line,
    Printer.error, try_except_Exception, Os.makedirs, ret.
  destruct (isdir_in w (input self)); cbn [negb].
  - rewrite !isfile_in_log, !isdir_in_log.
    destruct (negb (isfile_in w (input self) || _)); cbn beta.
    { cbn [snd]. do 2 (eapply confined_trans; [|apply confined_log]).
      apply confined_log. }
    rewrite !isfile_in_log, !isdir_in_log.
    destruct (isfile_in w (output self) || isdir_in w (output self)) eqn:Ho;
      cbn [negb]; cbn beta.
    { cbn [snd]. do 2 (eapply confined_trans; [|apply confined_log]).
      apply confined_log. }
    destruct (dry_run self); cbn [negb]; cbn beta.
    { cbn [snd]. do 3 (eapply confined_trans; [|apply confined_log]).
      apply confined_log. }
    rewrite !isfile_in_log, !isdir_in_log, Ho. cbn [snd].
    eapply confined_trans; [|apply confined_add_dir; by left].
    do 4 (eapply confined_trans; [|apply confined_log]). apply confined_log.
  - cbn [snd]. eapply confined_trans; apply confined_log.
Qed.

End ConfinedSteps.

Section ConfinedRun.

Context `{Collaborators}.


End ConfinedRun.

(** ** A run comes to an end *)

Section RunEnds.

Context `{Collaborators}.
Variable self : Phockup.

Lemma size_insert_le k v (m : gmap string (list byte)) :
  (size (<[k:=v]> m) ≤ S (size m))%nat.
Proof. rewrite map_size_insert. destruct (m !! k); cbn; lia. Qed.

Lemma size_delete_le k (m : gmap string (list byte)) :
  (size (delete k m) ≤ size m)%nat.
Proof. rewrite map_size_delete. destruct (m !! k); cbn; lia. Qed.

Lemma xmp_op_size o xp w :
  (size (files (snd ((if negb (dry_run self)
                      then if move self then Shutil.move o xp
                           else if link self then Os.link o xp
                           else Shutil.copy2 o xp
                      else ret tt) w)))
   ≤ S (size (files w)))%nat.
Proof.
  destruct (negb (dry_run self)); [|cbn; lia].
  destruct (move self).
  { unfold Shutil.move. cbn [files log].
    destruct (files w !! o) as [c|]; cbn [snd files set_files log]; [|lia].
    etrans; [apply size_insert_le|]. pose proof (size_delete_le o (files w)). lia. }
  destruct (link self).
  { unfold Os.link. cbn [files log].
    destruct (files w !! o) as [c|]; cbn [snd files set_files log]; [|lia].
    destruct (_ || _); cbn [snd files set_files log]; [lia|].
    apply size_insert_le. }
  unfold Shutil.copy2. cbn [files log].
  destruct (files w !! o) as [c|]; cbn [snd files set_files log]; [|lia].
  apply size_insert_le.
Qed.

Lemma transfer_xmp_size output items w :
  (size (files (snd (transfer_xmp self output items w)))
   ≤ size (files w) + length items)%nat.
Proof.
  revert w. induction items as [|[o t] items IH]; intros w; [cbn; lia|].
  cbn [transfer_xmp]. unfold bind, Printer.line.
  set (w0 := log _ w).
  pose proof (xmp_op_size o (Py.join OsPath.sep [output; t]) w0) as Hop.
  change (files w0) with (files w) in Hop.
  match goal with
  | |- (size (files (snd (match ?x with _ => _ end))) ≤ _)%nat =>
      destruct x as [[[]|e|] w1]
  end; cbn [snd length] in Hop |- *; [|lia..].
  specialize (IH w1). lia.
Qed.

Lemma xmp_files_length f name suffix e1 e2 :
  (length (xmp_files f name suffix e1 e2) ≤ 2)%nat.
Proof.
  unfold xmp_files. destruct e1, e2; cbn [dict_set length]; try lia.
  destruct (String.eqb _ _); cbn; lia.
Qed.

Lemma process_xmp_size file name suffix output w :
  (size (files (snd (process_xmp self file name suffix output w)))
   ≤ size (files w) + 2)%nat.
Proof.
  unfold process_xmp, bind, Os.path_isfile.
  etrans; [apply transfer_xmp_size|]. cbn [files log].
  pose proof (xmp_files_length file name suffix
                (isfile_in w (file +:+ ".xmp"))
                (isfile_in (log (IsFile (file +:+ ".xmp")) w)
                   (fst (OsPath.splitext file) +:+ ".xmp"))).
  lia.
Qed.

Lemma transfer_size file tf w :
  (size (files (snd (transfer self file tf w))) ≤ S (size (files w)))%nat.
Proof.
  rewrite transfer_eq. destruct (dry_run self); [cbn; lia|].
  destruct (move self).
  { destruct (files w !! file); cbn [snd files set_files log]; [|lia].
    etrans; [apply size_insert_le|]. pose proof (size_delete_le file (files w)). lia. }
  destruct (link self).
  { destruct (files w !! file); cbn [snd files set_files log]; [|lia].
    destruct (_ || _); cbn [snd files set_files log]; [lia|]. apply size_insert_le. }
  destruct (files w !! file); cbn [snd files set_files log]; [|lia].
  apply size_insert_le.
Qed.

Lemma loop_size file output name T ty n suffix tf w :
  (1 ≤ suffix)%nat →
  (size (files (snd (process_file_loop n self file output name T ty suffix tf w)))
   ≤ size (files w) + 3)%nat.
Proof.
  revert suffix tf w. induction n as [|n IH]; intros suffix tf w Hs; [cbn; lia|].
  rewrite loop_step by done.
  destruct (filter_rejects self ty); [cbn; lia|].
  destruct (isfile_in w tf).
  - destruct (files w !! file); [|cbn; lia].
    destruct (files w !! tf); [|cbn; lia].
    destruct (String.eqb _ _); [cbn; lia|].
    etrans; [apply IH; lia|]. cbn. lia.
  - pose proof (transfer_size file tf (log (IsFile tf) w)) as Ht.
    cbn [files log] in Ht.
    destruct (transfer self file tf _) as [[[]|e|] w1]; cbn [snd] in Ht |- *;
      [|lia..].
    etrans; [apply process_xmp_size|]. cbn [files log]. lia.
Qed.

Lemma process_file_size fuel file w :
  (size (files (snd (process_file fuel self file w))) ≤ size (files w) + 3)%nat.
Proof.
  destruct (Py.endswith file ".xmp") eqn:Hx.
  { unfold process_file. rewrite Hx. cbn. lia. }
  rewrite process_file_eq by done. cbn zeta.
  destruct (dir_ready self w _); [|cbn; lia].
  etrans; [apply loop_size; lia|]. rewrite ensure_dir_files. cbn. lia.
Qed.

Lemma process_files_ends fuel paths w :
  (size (files w) + 3 * length paths < fuel)%nat →
  fst (process_files fuel self paths w) ≠ OutOfFuel.
Proof.
  revert w. induction paths as [|file rest IH]; intros w Hfuel; [done|].
  rewrite process_files_cons. cbn [length] in Hfuel.
  pose proof (process_file_ends self fuel file w ltac:(lia)) as He.
  pose proof (process_file_size fuel file w) as Hs.
  destruct (process_file fuel self file w) as [[[]|e|] w1]; [|done..].
  cbn [snd] in Hs. apply IH. lia.
Qed.

Lemma check_directories_files w :
  files (snd (check_directories self w)) = files w.
Proof.
  unfold check_directories, bind, Os.path_isdir, Os.path_exists, Printer.line,
    Printer.error, try_except_Exception, Os.makedirs, ret.
  destruct (isdir_in w (input self)); cbn [negb]; [|done].
  rewrite !isfile_in_log, !isdir_in_log.
  destruct (negb (isfile_in w (input self) || _)); cbn beta; [done|].
  rewrite !isfile_in_log, !isdir_in_log.
  destruct (isfile_in w (output self) || isdir_in w (output self)) eqn:Ho;
    cbn [negb]; cbn beta; [done|].
  destruct (dry_run self); cbn [negb]; cbn beta; [done|].
  by rewrite !isfile_in_log, !isdir_in_log, Ho.
Qed.

End RunEnds.

Section WholeRun.

Context `{Collaborators}.

(** X21: a run comes to an end. A file adds at most three files to
    those there are (itself and two sidecars), and the loop of
    [process_file] tries no candidate twice: with more iterations
    allowed per file than there are files at the start plus three for
    every file of the walk, no loop is cut short. *)
Theorem run_ends (fuel : nat) (input_arg output_arg : string)
    (args : Phockup) (walk : list (string * list string)) (w : World) :
  (size (files w) + 3 * length (walked_paths walk) < fuel)%nat →
  fst (init fuel input_arg output_arg args walk w) ≠ OutOfFuel.
Proof.
  intros Hfuel. unfold init, bind, walk_directory.
  set (self := {| input := _ |}).
  pose proof (check_directories_files self w) as Hf.
  assert (Hc : fst (check_directories self w) ≠ OutOfFuel).
  { unfold check_directories, bind, Os.path_isdir, Os.path_exists, Printer.line,
      Printer.error, try_except_Exception, Os.makedirs, ret.
    repeat (case_match; simplify_eq/=; try done). }
  destruct (check_directories self w) as [[[]|e|] w']; [|done..].
  cbn [snd] in Hf. apply process_files_ends. rewrite Hf. done.
Qed.

End WholeRun.

(** ** The names of dated files *)

Section Names.

Context `{Collaborators}.

Lemma lower_app s t : Py.lower (s +:+ t) = Py.lower s +:+ Py.lower t.
Proof.
  induction s as [|a s IH]; [done|].
  rewrite str_app_cons. cbn [Py.lower]. by rewrite IH, str_app_cons.
Qed.

Lemma lower_string_of_uint d :
  Py.lower (NilEmpty.string_of_uint d) = NilEmpty.string_of_uint d.
Proof. induction d; cbn [NilEmpty.string_of_uint Py.lower]; by rewrite ?IHd. Qed.

Lemma lower_zeros n : Py.lower (Py.zeros n) = Py.zeros n.
Proof. induction n as [|n IH]; [done|]. cbn [Py.zeros Py.lower]. by rewrite IH. Qed.

Lemma lower_zfill w n : Py.lower (Py.zfill w n) = Py.zfill w n.
Proof.
  unfold Py.zfill, Py.str_of_nat.
  by rewrite lower_app, lower_zeros, lower_string_of_uint.
Qed.


(** X23: when original names are asked for, every file keeps its
    name as it is, letter case included, whatever its type and date. *)
Theorem original_name_kept (self : Phockup) (file : string) :
  original_filenames self = true →
  planned_name self file = OsPath.basename file.
Proof.
  intros Ho. unfold planned_name, get_file_name. rewrite Ho.
  by destruct (bool_decide _).
Qed.

End Names.

(** ** What a transfer does *)

Section Transfers.

Context `{Collaborators}.
Variable self : Phockup.
Hypothesis Hdry : dry_run self = false.
Hypothesis Hmode : link self = false ∨ move self = true.

Local Abbreviation sidecar_calls output :=
  (λ item : string * string,
     [Print (item.1 +:+ " => " +:+ Py.join OsPath.sep [output; item.2]);
      if move self then Move item.1 (Py.join OsPath.sep [output; item.2])
      else Copy2 item.1 (Py.join OsPath.sep [output; item.2])]).

Lemma transfer_xmp_trace output items w :
  NoDup items.*1 →
  Forall (λ item, is_Some (files w !! item.1)) items →
  trace (snd (transfer_xmp self output items w))
  = trace w ++ concat (sidecar_calls output <$> items).
Proof.
  revert w. induction items as [|[o t] items IH]; intros w Hnd Hin.
  { cbn. by rewrite app_nil_r. }
  cbn [transfer_xmp]. unfold bind, Printer.line.
  cbn [fmap list_fmap fst] in Hnd.
  apply NoDup_cons in Hnd as [Hno Hnd]. apply Forall_cons in Hin as [[c Hc] Hin].
  cbn [fst] in Hc.
  assert (Hkeep : ∀ fs : gmap string (list byte),
            (∀ p, p ≠ o → is_Some (files w !! p) → is_Some (fs !! p)) →
            Forall (λ item : string * string, is_Some (fs !! item.1)) items).
  { intros fs Hfs. apply Forall_forall. intros [o' t'] Hi'.
    rewrite Forall_forall in Hin. apply Hfs; [|by apply (Hin (o', t'))].
    cbn [fst]. intros Heq. subst o'. apply Hno. apply list_elem_of_fmap.
    by exists (o, t'). }
  pose proof Hmode as Hmode'.
  rewrite Hdry. cbn [negb fmap list_fmap concat fst snd].
  destruct (move self) eqn:Hmv.
  { unfold Shutil.move. cbn [files log]. rewrite Hc.
    rewrite IH; [|done|].
    - cbn [trace set_files log]. by rewrite <- !app_assoc.
    - apply Hkeep. intros p Hp Hs. cbn [files set_files].
      destruct (decide (p = Py.join OsPath.sep [output; t])) as [->|Hne].
      + by rewrite lookup_insert_eq.
      + by rewrite lookup_insert_ne, lookup_delete_ne. }
  destruct (link self) eqn:Hln; [by destruct Hmode' as [?|?]|].
  unfold Shutil.copy2. cbn [files log]. rewrite Hc.
  rewrite IH; [|done|].
  - cbn [trace set_files log]. by rewrite <- !app_assoc.
  - apply Hkeep. intros p Hp Hs. cbn [files set_files].
    destruct (decide (p = Py.join OsPath.sep [output; t])) as [->|Hne].
    + by rewrite lookup_insert_eq.
    + by rewrite lookup_insert_ne.
Qed.


End Transfers.

Section Placement.

Context `{Collaborators}.


End Placement.

(** ** The further properties at work *)

Section MoreWitnesses.

Local Existing Instance Demo.collaborators.

Lemma missing_input_reported_witness :
  let w := Demo.world [] ["out"] in
  snd (check_directories Demo.defaults w) =
  logs [IsDir "in";
        PrintError ("Input directory " +:+ dquote +:+ "in" +:+ dquote
                    +:+ " does not exist or cannot be accessed")] w.
Proof.
  intros w.
  assert (H1 : isdir_in w (input Demo.defaults) = false) by (vm_compute; reflexivity).
  exact (missing_input_reported Demo.defaults w H1).
Defined.


Lemma get_output_dir_twice_witness :
  let w1 := snd (get_output_dir Demo.defaults (Some Demo.when) Demo.media) in
  get_output_dir Demo.defaults (Some Demo.when) w1
  = (Ok "out/2021/06/15", log (IsDir "out/2021/06/15") w1).
Proof.
  intros w1.
  assert (H1 : get_output_dir Demo.defaults (Some Demo.when) Demo.media
               = (Ok "out/2021/06/15", w1)).
  { unfold w1.
    rewrite (surjective_pairing
               (get_output_dir Demo.defaults (Some Demo.when) Demo.media)) at 1.
    f_equal. }
  exact (get_output_dir_twice Demo.defaults (Some Demo.when) "out/2021/06/15"
           Demo.media w1 H1).
Defined.

Lemma directory_path_taken_by_file_witness :
  let w := Demo.world [("in/IMG_0001.JPG", Demo.bytes "jpeg");
                       ("in/notes.txt", Demo.bytes "hello");
                       ("out/2021/06/15", Demo.bytes "in the way")]
             ["in"; "out"] in
  process_files 3 (Demo.with_mode false false false (Some "video"))
    ["in/IMG_0001.JPG"; "in/notes.txt"] w =
  (Raised FileExistsError,
   logs [Print "in/IMG_0001.JPG"; IsDir "out/2021/06/15";
         Makedirs "out/2021/06/15"] w).
Proof.
  intros w.
  set (self := Demo.with_mode false false false (Some "video")).
  assert (H1 : Py.endswith "in/IMG_0001.JPG" ".xmp" = false) by reflexivity.
  assert (H2 : dry_run self = false) by reflexivity.
  assert (H3 : isdir_in w (planned_dir self "in/IMG_0001.JPG") = false)
    by (vm_compute; reflexivity).
  assert (H4 : isfile_in w (planned_dir self "in/IMG_0001.JPG") = true)
    by (vm_compute; reflexivity).
  exact (directory_path_taken_by_file self 3 "in/IMG_0001.JPG" ["in/notes.txt"]
           w H1 H2 H3 H4).
Defined.

Lemma files_in_sorted_witness :
  files_in "in" ["b.txt"; "Thumbs.db"; "IMG_2.JPG"; "a.txt"]
  = ["in/IMG_2.JPG"; "in/a.txt"; "in/b.txt"].
Proof.
  assert (H1 : Sorted String.le ["IMG_2.JPG"; "Thumbs.db"; "a.txt"; "b.txt"]).
  { repeat constructor; exact I. }
  assert (H2 : ["IMG_2.JPG"; "Thumbs.db"; "a.txt"; "b.txt"]
               ≡ₚ ["b.txt"; "Thumbs.db"; "IMG_2.JPG"; "a.txt"]).
  { etrans;
      [symmetry;
       apply (Permutation_cons_append ["IMG_2.JPG"; "Thumbs.db"; "a.txt"] "b.txt")|].
    apply perm_skip, perm_swap. }
  etrans; [exact (files_in_sorted "in" _ _ H1 H2)|]. reflexivity.
Defined.

Lemma orphan_sidecars_left_alone_witness :
  process_files 3 Demo.defaults ["in/a.xmp"; "in/b.xmp"] Demo.pair
  = (Ok tt, Demo.pair).
Proof.
  assert (H1 : Forall (λ f, Py.endswith f ".xmp" = true) ["in/a.xmp"; "in/b.xmp"]).
  { repeat constructor. }
  exact (orphan_sidecars_left_alone Demo.defaults 3 _ Demo.pair H1).
Defined.

Lemma other_filter_value_rejects_all_witness :
  filter_rejects (Demo.with_mode false false false (Some "audio"))
    (file_type_of "in/IMG_0001.JPG") = true.
Proof.
  assert (H1 : file_type (Demo.with_mode false false false (Some "audio"))
               = Some "audio") by reflexivity.
  assert (H2 : "audio" ≠ "image") by discriminate.
  assert (H3 : "audio" ≠ "video") by discriminate.
  exact (other_filter_value_rejects_all _ "in/IMG_0001.JPG" "audio" H1 H2 H3).
Defined.

Lemma candidates_pairwise_distinct_witness :
  candidate "out/2021/06/15/20210615-102030.jpg" 2
  ≠ candidate "out/2021/06/15/20210615-102030.jpg" 3.
Proof.
  assert (H1 : (1 ≤ 2)%nat) by lia.
  assert (H2 : (1 ≤ 3)%nat) by lia.
  assert (H3 : 2%nat ≠ 3%nat) by lia.
  exact (candidates_pairwise_distinct _ 2 3 H1 H2 H3).
Defined.

Lemma duplicate_skips_sidecars_witness :
  let w := Demo.world [("in/IMG_0001.JPG", Demo.bytes "jpeg");
                       ("in/IMG_0001.JPG.xmp", Demo.bytes "edits");
                       ("out/2021/06/15/20210615-102030.jpg", Demo.bytes "another");
                       ("out/2021/06/15/20210615-102030-2.jpg", Demo.bytes "jpeg")]
             ["in"; "out"; "out/2021/06/15"] in
  let T := planned_path Demo.defaults "in/IMG_0001.JPG" in
  process_file 2 Demo.defaults "in/IMG_0001.JPG" w =
  (Ok tt,
   logs (concat (probe_calls "in/IMG_0001.JPG" <$> (candidate T <$> seq 1 2))
         ++ [Print (duplicated_line (candidate T 2))])
     (ensure_dir Demo.defaults (planned_dir Demo.defaults "in/IMG_0001.JPG")
        (log (Print "in/IMG_0001.JPG") w))).
Proof.
  intros w T.
  assert (H1 : Py.endswith "in/IMG_0001.JPG" ".xmp" = false) by reflexivity.
  assert (H2 : filter_rejects Demo.defaults (file_type_of "in/IMG_0001.JPG") = false)
    by (vm_compute; reflexivity).
  assert (H3 : dir_ready Demo.defaults w
                 (planned_dir Demo.defaults "in/IMG_0001.JPG") = true)
    by (vm_compute; reflexivity).
  assert (H4 : ∀ j, (j < 1)%nat →
            blocked w "in/IMG_0001.JPG"
              (candidate (planned_path Demo.defaults "in/IMG_0001.JPG") (1 + j))
            = true).
  { intros j Hj. assert (j = 0%nat) as -> by lia. vm_compute. reflexivity. }
  assert (H5 : duplicate w "in/IMG_0001.JPG"
                 (candidate (planned_path Demo.defaults "in/IMG_0001.JPG") (1 + 1))
               = true) by (vm_compute; reflexivity).
  exact (duplicate_skips_sidecars Demo.defaults 0 1 "in/IMG_0001.JPG" w
           H1 H2 H3 H4 H5).
Defined.




Lemma move_overrides_link_witness :
  process_files 3 (set_link false (Demo.with_mode true true false None))
    ["in/IMG_0001.JPG"] Demo.media
  = process_files 3 (Demo.with_mode true true false None)
      ["in/IMG_0001.JPG"] Demo.media.
Proof.
  assert (H1 : move (Demo.with_mode true true false None) = true
               ∨ dry_run (Demo.with_mode true true false None) = true)
    by (left; reflexivity).
  exact (move_overrides_link (Demo.with_mode true true false None) false H1 3
           ["in/IMG_0001.JPG"] Demo.media).
Defined.

Lemma trailing_newline_ignored_witness :
  get_file_type ("image/jpeg" +:+ String Re.newline "") = Some "image".
Proof.
  assert (H1 : Py.contains Re.newline "image/jpeg" = false) by reflexivity.
  etrans; [exact (trailing_newline_ignored "image/jpeg" H1)|]. reflexivity.
Defined.

Lemma candidate_keeps_extension_witness :
  OsPath.splitext (candidate "out/2021/06/15/20210615-102030.cr2" 2)
  = ("out/2021/06/15/20210615-102030-2", ".cr2").
Proof.
  assert (H1 : (2 ≤ 2)%nat) by lia.
  etrans;
    [exact (candidate_keeps_extension "out/2021/06/15/20210615-102030.cr2" 2 H1)|].
  reflexivity.
Defined.

Lemma stem_sidecar_beside_primary_witness :
  ∃ target,
    (fst (OsPath.splitext "in/DSC001.CR2") +:+ ".xmp", target)
    ∈ xmp_files "in/DSC001.CR2" "20210615-102030.cr2" 2 true true
    ∧ Py.join OsPath.sep ["out/2021/06/15"; target]
      = fst (OsPath.splitext
               (candidate (Py.join OsPath.sep ["out/2021/06/15"; "20210615-102030.cr2"])
                  2)) +:+ ".xmp".
Proof.
  assert (H1 : Py.contains "/" "20210615-102030.cr2" = false) by reflexivity.
  assert (H2 : (1 ≤ 2)%nat) by lia.
  exact (stem_sidecar_beside_primary "in/DSC001.CR2" "out/2021/06/15"
           "20210615-102030.cr2" 2 true H1 H2).
Defined.

Lemma run_ends_witness :
  fst (init 9 "in" "out" Demo.defaults [("in", ["IMG_0001.JPG"; "notes.txt"])]
         Demo.mixed) ≠ OutOfFuel.
Proof.
  assert (H1 : (size (files Demo.mixed)
                + 3 * length (walked_paths [("in", ["IMG_0001.JPG"; "notes.txt"])])
                < 9)%nat) by (vm_compute; lia).
  exact (run_ends 9 "in" "out" Demo.defaults _ Demo.mixed H1).
Defined.


Lemma original_name_kept_witness :
  let self :=
    {| input := "in"; output := "out";
       dir_format := Py.join OsPath.sep ["%Y"; "%m"; "%d"];
       move := false; link := false; original_filenames := true;
       date_regex := None; timestamp := false; date_field := None;
       dry_run := false; file_type := None; ignore_unknowns := None |} in
  planned_name self "in/IMG_0001.JPG" = "IMG_0001.JPG".
Proof.
  intros self.
  assert (H1 : original_filenames self = true) by reflexivity.
  etrans; [exact (original_name_kept self "in/IMG_0001.JPG" H1)|]. reflexivity.
Defined.



End MoreWitnesses.
